(** * log-bot: the message repository, the command executor and the
      command route, embedded from the TypeScript sources.

    Definitions:
    - [Js]: the JavaScript library functions the sources call on strings,
      numbers and arrays (toLowerCase, includes, split, parseInt, template
      number printing, Array.prototype.slice and sort).
    - [DiscordServer], [DiscordChannel], [DiscordMessage], [BotStatus],
      [InsertCommandLog], [CommandLog]: the rows of shared/schema.ts;
      [MessageQuery]: the options of getMessages.
    - [JsMap]: the JavaScript Map of the memory storage.
    - [MemStorage]: server/storage.ts, class MemStorage.
    - [Sql], [DatabaseStorage]: server/database-storage.ts and the
      statements it issues.
    - [IStorage]: the interface both classes implement.
    - [DiscordBot]: server/discord-bot.ts (getUptime).
    - [Utils]: server/utils.ts (executeCommand and its formatters).
    - [Routes]: server/routes.ts, POST /api/execute-command.
    - [Workload], [Sample], [Spec]: sequences of calls, sample data, and
      the properties of the specification as definitions.
    - [Reach]: what the storages maintain over sequences of calls.
    - [User], [InsertUser], [MemUsers], [DbUsers]: the users of both
      storages.
    - [Discord], [Gateway]: server/discord-bot.ts, the event handlers, the
      sync of servers and channels, start and stop.
    - [Api]: server/routes.ts, the read routes.
    - [UtilsFormat]: server/utils.ts, formatUptime.
    - [GatewaySample]: sample data for the event handlers.

    The facts about them follow, grouped by operation.  Each group is
    a section over the time zone of the process ([TimeZone]) and over
    the order in which the database server hands back rows that a query
    does not tell apart ([Sql.RowOrder]); the examples that follow a
    section are for a process whose clock is UTC, unless they say
    otherwise.

    Times are milliseconds since the epoch, as Date.getTime() gives them.
    Strings are sequences of 8-bit characters, and case folding is the
    one of ASCII text: the letters A to Z.  That is what toLowerCase and
    ILIKE do on ASCII text and not on other text, so the facts about the
    search of getMessages are stated for ASCII text. *)

From Stdlib Require Import ZArith List String Ascii Bool Lia Permutation Sorted.
From stdpp Require Import gmap strings.

Import ListNotations.
Local Open Scope string_scope.
Local Open Scope list_scope.
Local Open Scope Z_scope.

(* ================================================================== *)
(** * JavaScript library functions *)
(* ================================================================== *)

Module Js.

(** ** Strings *)

Definition is_upper (c : ascii) : bool :=
  let n := nat_of_ascii c in (Nat.leb 65 n && Nat.leb n 90)%bool.

Definition lower_char (c : ascii) : ascii :=
  if is_upper c then ascii_of_nat (nat_of_ascii c + 32) else c.

(** [s.toLowerCase()] on ASCII text *)
Fixpoint toLowerCase (s : string) : string :=
  match s with
  | EmptyString => EmptyString
  | String c s' => String (lower_char c) (toLowerCase s')
  end.

(** [s.startsWith(p)] *)
Definition startsWith (s p : string) : bool := String.prefix p s.

(** [s.includes(sub)] *)
Fixpoint includes (s sub : string) : bool :=
  String.prefix sub s ||
  match s with
  | EmptyString => false
  | String _ s' => includes s' sub
  end.

(** [s.split(' ')]: the pieces between single spaces; always at least
    one piece. *)
Fixpoint split_space (s : string) : list string :=
  match s with
  | EmptyString => [EmptyString]
  | String c s' =>
      if Ascii.eqb c " " then EmptyString :: split_space s'
      else match split_space s' with
           | [] => [String c EmptyString]
           | w :: ws => String c w :: ws
           end
  end.

(** [parts.join(sep)] *)
Definition join (sep : string) (parts : list string) : string :=
  String.concat sep parts.

(** ** Numbers *)

Definition digit_char (d : Z) : ascii := ascii_of_nat (48 + Z.to_nat d).

Definition is_digit (c : ascii) : bool :=
  let n := nat_of_ascii c in (Nat.leb 48 n && Nat.leb n 57)%bool.

Definition digit_val (c : ascii) : Z := Z.of_nat (nat_of_ascii c) - 48.

(** A string of decimal digits. *)
Fixpoint all_digits (s : string) : bool :=
  match s with
  | EmptyString => true
  | String c s' => is_digit c && all_digits s'
  end.

(** Decimal digits of a non-negative integer, most significant first. *)
Fixpoint digits_fuel (fuel : nat) (n : Z) (acc : string) : string :=
  match fuel with
  | O => acc
  | S fuel' =>
      let acc' := String (digit_char (n mod 10)) acc in
      if n / 10 =? 0 then acc' else digits_fuel fuel' (n / 10) acc'
  end.

Definition digits (n : Z) : string :=
  digits_fuel (S (Z.to_nat (Z.log2 n))) n EmptyString.

(** Number to string, as a template literal prints an integer. *)
Definition string_of_Z (n : Z) : string :=
  if n <? 0 then String "-" (digits (- n)) else digits n.

(** White space that parseInt skips (the ASCII part of StrWhiteSpaceChar). *)
Definition is_space (c : ascii) : bool :=
  let n := nat_of_ascii c in
  (Nat.eqb n 32 || (Nat.leb 9 n && Nat.leb n 13))%bool.

Fixpoint skip_spaces (s : string) : string :=
  match s with
  | String c s' => if is_space c then skip_spaces s' else s
  | EmptyString => s
  end.

(** Value of a character as a digit in radix 16, if it is one. *)
Definition hex_val (c : ascii) : option Z :=
  let n := nat_of_ascii c in
  if (Nat.leb 48 n && Nat.leb n 57)%bool then Some (Z.of_nat n - 48)
  else if (Nat.leb 97 n && Nat.leb n 102)%bool then Some (Z.of_nat n - 87)
  else if (Nat.leb 65 n && Nat.leb n 70)%bool then Some (Z.of_nat n - 55)
  else None.

Definition radix_val (radix : Z) (c : ascii) : option Z :=
  if radix =? 16 then hex_val c
  else if is_digit c then Some (digit_val c) else None.

(** The longest prefix of digits of the radix, accumulated; [None] when
    there is no digit at all. *)
Fixpoint parse_digits (radix : Z) (s : string) (acc : option Z) : option Z :=
  match s with
  | EmptyString => acc
  | String c s' =>
      match radix_val radix c with
      | Some d =>
          parse_digits radix s'
            (Some (radix * match acc with Some a => a | None => 0 end + d))
      | None => acc
      end
  end.

(** [parseInt(s)] without a radix argument; [None] is NaN.  The value is
    exact: the rounding of integers above 2^53 is not modelled. *)
Definition parseInt (s : string) : option Z :=
  let s1 := skip_spaces s in
  let '(sign, s2) :=
    match s1 with
    | String c r =>
        if Ascii.eqb c "-" then (-1, r)
        else if Ascii.eqb c "+" then (1, r)
        else (1, s1)
    | EmptyString => (1, s1)
    end in
  let '(radix, s3) :=
    match s2 with
    | String c0 (String c1 r) =>
        if Ascii.eqb c0 "0" && (Ascii.eqb c1 "x" || Ascii.eqb c1 "X")
        then (16, r) else (10, s2)
    | _ => (10, s2)
    end in
  option_map (Z.mul sign) (parse_digits radix s3 None).

(** ** Objects and arrays *)

(** A property that may be absent, with the value that stands for it
    then: a destructuring default, or a property spread over another. *)
Definition default_to {A} (o : option A) (a : A) : A :=
  match o with Some x => x | None => a end.

(** Relative index of [Array.prototype.slice]: negative counts from the
    end, then clamped to [0, len]. *)
Definition clamp_index (len i : Z) : Z :=
  if i <? 0 then Z.max (len + i) 0 else Z.min i len.

(** [a.slice(start, end)] *)
Definition slice {A} (a : list A) (start stop : Z) : list A :=
  let len := Z.of_nat (List.length a) in
  let k := clamp_index len start in
  let fin := clamp_index len stop in
  firstn (Z.to_nat (fin - k)) (skipn (Z.to_nat k) a).

(** [a.sort((x, y) => key(y) - key(x))]: the sort is stable, so its
    result is the one of inserting each element, from the last to the
    first, before the first element whose key is not greater. *)
Section Sort.
Context {A : Type} (key : A -> Z).

Fixpoint insert_desc (x : A) (l : list A) : list A :=
  match l with
  | [] => [x]
  | y :: l' => if key x <? key y then y :: insert_desc x l' else x :: l
  end.

Fixpoint sort_desc (l : list A) : list A :=
  match l with
  | [] => []
  | x :: l' => insert_desc x (sort_desc l')
  end.

(** The order of the result: no key before a greater one. *)
Definition desc (a b : A) : Prop := key b <= key a.
End Sort.

End Js.

(* ================================================================== *)
(** * shared/schema.ts *)
(* ================================================================== *)

(** The rows of the five tables.  A timestamp column is the time in
    milliseconds; a nullable text column is an [option].  The insert types
    of the schema make defaulted columns (joined_at, executed_at) optional;
    every caller in the repository supplies them, and they are required
    here. *)

Module DiscordServer.
Record t := mk
  { id : string; name : string; icon : option string; joined_at : Z }.
End DiscordServer.

Module DiscordChannel.
Record t := mk
  { id : string; server_id : string; name : string; type : string }.
End DiscordChannel.

Module DiscordMessage.
Record t := mk
  { id : string;
    server_id : string;
    channel_id : string;
    author_id : string;
    author_username : string;
    author_discriminator : option string;
    content : string;
    created_at : Z }.
End DiscordMessage.

Module BotStatus.
Record t := mk
  { id : Z;
    is_online : Z;
    uptime_started : option Z;
    servers_count : Z;
    channels_count : Z;
    messages_count : Z;
    storage_usage : Z }.

(** [Partial<BotStatus>]: a field that is present overrides. *)
Record partial := mk_partial
  { p_id : option Z;
    p_is_online : option Z;
    p_uptime_started : option (option Z);
    p_servers_count : option Z;
    p_channels_count : option Z;
    p_messages_count : option Z;
    p_storage_usage : option Z }.

(** [{ ...status, ...p }] *)
Definition merge (status : t) (p : partial) : t :=
  {| id := Js.default_to (p_id p) (id status);
     is_online := Js.default_to (p_is_online p) (is_online status);
     uptime_started := Js.default_to (p_uptime_started p) (uptime_started status);
     servers_count := Js.default_to (p_servers_count p) (servers_count status);
     channels_count := Js.default_to (p_channels_count p) (channels_count status);
     messages_count := Js.default_to (p_messages_count p) (messages_count status);
     storage_usage := Js.default_to (p_storage_usage p) (storage_usage status) |}.

(** The row both storages start from. *)
Definition initial : t :=
  {| id := 1; is_online := 0; uptime_started := None;
     servers_count := 0; channels_count := 0; messages_count := 0;
     storage_usage := 0 |}.
End BotStatus.

Module InsertCommandLog.
Record t := mk { command : string; response : string; executed_at : Z }.
End InsertCommandLog.

Module CommandLog.
Record t := mk
  { id : Z; command : string; response : string; executed_at : Z }.

(** [{ ...log, id }] *)
Definition of_insert (log : InsertCommandLog.t) (id : Z) : t :=
  {| id := id;
     command := InsertCommandLog.command log;
     response := InsertCommandLog.response log;
     executed_at := InsertCommandLog.executed_at log |}.
End CommandLog.

(** The options object of getMessages. *)
Module MessageQuery.
Record t := mk
  { serverId : option string;
    channelId : option string;
    search : option string;
    limit : option Z;
    offset : option Z }.

Definition empty : t :=
  {| serverId := None; channelId := None; search := None;
     limit := None; offset := None |}.
End MessageQuery.

(** A promise that resolves or rejects with an error message. *)
Inductive Result (A : Type) : Type :=
| Ok (a : A)
| Err (message : string).
Arguments Ok {A} a.
Arguments Err {A} message.

(** The time zone of the process, as the local-time methods of a Date
    consult it: [offsetAt t] is what local time is ahead of UTC at the
    instant [t], and [offsetOfLocal l] is the offset with which the local
    time [l] is read back as an instant (where a clock change makes [l]
    occur twice or not at all, the offset before the change). *)
Class TimeZone : Type := mkTimeZone
  { offsetAt : Z -> Z;
    offsetOfLocal : Z -> Z }.

Definition day_ms : Z := 24 * 60 * 60 * 1000.

(** The retention window: [sub(now, { weeks: 2 })] of date-fns, which
    for weeks alone is [setDate(getDate() - 14)] on the local time of
    [now]: the instant at which the clock of the process showed the same
    time 14 calendar days before. *)
Definition twoWeeksAgo {zone : TimeZone} (now : Z) : Z :=
  let local := now + offsetAt now in
  let target := local - 14 * day_ms in
  target - offsetOfLocal target.

(** A JavaScript string used as a condition: absent and empty are false. *)
Definition truthy (o : option string) : option string :=
  match o with
  | Some EmptyString => None
  | _ => o
  end.

(** The search test of MemStorage.getMessages; [searchLower] is the term
    already in lower case. *)
Definition search_hit (searchLower : string) (msg : DiscordMessage.t) : bool :=
  Js.includes (Js.toLowerCase (DiscordMessage.content msg)) searchLower
  || Js.includes (Js.toLowerCase (DiscordMessage.author_username msg)) searchLower.

(* ================================================================== *)
(** * A JavaScript [Map] with string keys *)
(* ================================================================== *)

(** Entries in insertion order; [set] on a present key replaces the value
    where it stands. *)
Module JsMap.
Definition t (V : Type) : Type := list (string * V).

Section Ops.
Context {V : Type}.

Definition empty : t V := [].

Fixpoint get (k : string) (m : t V) : option V :=
  match m with
  | [] => None
  | (k', v) :: m' => if String.eqb k' k then Some v else get k m'
  end.

Fixpoint set (k : string) (v : V) (m : t V) : t V :=
  match m with
  | [] => [(k, v)]
  | (k', v') :: m' =>
      if String.eqb k' k then (k, v) :: m' else (k', v') :: set k v m'
  end.

Fixpoint delete (k : string) (m : t V) : t V :=
  match m with
  | [] => []
  | (k', v') :: m' =>
      if String.eqb k' k then m' else (k', v') :: delete k m'
  end.

Definition keys (m : t V) : list string := List.map fst m.
Definition values (m : t V) : list V := List.map snd m.
Definition size (m : t V) : Z := Z.of_nat (List.length m).

(** What the constructor and [set] maintain: no key twice. *)
Definition wf (m : t V) : Prop := NoDup (keys m).
End Ops.
End JsMap.

(* ================================================================== *)
(** * server/storage.ts: MemStorage *)
(* ================================================================== *)

Module MemStorage.

(** The fields of the class (the users map and its counter, which no
    operation below reads, are left out). *)
Record t := mk
  { discordServers : JsMap.t DiscordServer.t;
    discordChannels : JsMap.t DiscordChannel.t;
    discordMessages : JsMap.t DiscordMessage.t;
    botStatusRecord : BotStatus.t;
    commandLogs : list CommandLog.t;
    commandLogCurrentId : Z }.

Definition constructor : t :=
  {| discordServers := JsMap.empty;
     discordChannels := JsMap.empty;
     discordMessages := JsMap.empty;
     botStatusRecord := BotStatus.initial;
     commandLogs := [];
     commandLogCurrentId := 1 |}.

Definition set_status (f : BotStatus.t -> BotStatus.t) (s : t) : t :=
  {| discordServers := discordServers s;
     discordChannels := discordChannels s;
     discordMessages := discordMessages s;
     botStatusRecord := f (botStatusRecord s);
     commandLogs := commandLogs s;
     commandLogCurrentId := commandLogCurrentId s |}.

Definition with_servers_count (n : Z) (b : BotStatus.t) : BotStatus.t :=
  BotStatus.mk (BotStatus.id b) (BotStatus.is_online b)
    (BotStatus.uptime_started b) n (BotStatus.channels_count b)
    (BotStatus.messages_count b) (BotStatus.storage_usage b).

Definition with_channels_count (n : Z) (b : BotStatus.t) : BotStatus.t :=
  BotStatus.mk (BotStatus.id b) (BotStatus.is_online b)
    (BotStatus.uptime_started b) (BotStatus.servers_count b) n
    (BotStatus.messages_count b) (BotStatus.storage_usage b).

Definition with_messages (count usage : Z) (b : BotStatus.t) : BotStatus.t :=
  BotStatus.mk (BotStatus.id b) (BotStatus.is_online b)
    (BotStatus.uptime_started b) (BotStatus.servers_count b)
    (BotStatus.channels_count b) count usage.

(** Each message is taken to be 1KB. *)
Definition calculateStorageUsage (messages : JsMap.t DiscordMessage.t) : Z :=
  JsMap.size messages.

Definition getServers (s : t) : list DiscordServer.t :=
  JsMap.values (discordServers s).

Definition getServer (id : string) (s : t) : option DiscordServer.t :=
  JsMap.get id (discordServers s).

Definition createServer (server : DiscordServer.t) (s : t)
  : DiscordServer.t * t :=
  let newServer := server in
  let servers := JsMap.set (DiscordServer.id server) newServer (discordServers s) in
  (newServer,
   {| discordServers := servers;
      discordChannels := discordChannels s;
      discordMessages := discordMessages s;
      botStatusRecord :=
        with_servers_count (JsMap.size servers) (botStatusRecord s);
      commandLogs := commandLogs s;
      commandLogCurrentId := commandLogCurrentId s |}).

Definition getChannels (serverId : option string) (s : t)
  : list DiscordChannel.t :=
  match truthy serverId with
  | Some serverId =>
      List.filter
        (fun channel => String.eqb (DiscordChannel.server_id channel) serverId)
        (JsMap.values (discordChannels s))
  | None => JsMap.values (discordChannels s)
  end.

Definition getChannel (id : string) (s : t) : option DiscordChannel.t :=
  JsMap.get id (discordChannels s).

Definition createChannel (channel : DiscordChannel.t) (s : t)
  : DiscordChannel.t * t :=
  let newChannel := channel in
  let channels := JsMap.set (DiscordChannel.id channel) newChannel (discordChannels s) in
  (newChannel,
   {| discordServers := discordServers s;
      discordChannels := channels;
      discordMessages := discordMessages s;
      botStatusRecord :=
        with_channels_count (JsMap.size channels) (botStatusRecord s);
      commandLogs := commandLogs s;
      commandLogCurrentId := commandLogCurrentId s |}).

Definition getMessages (options : MessageQuery.t) (s : t)
  : list DiscordMessage.t * Z :=
  let limit := Js.default_to (MessageQuery.limit options) 10 in
  let offset := Js.default_to (MessageQuery.offset options) 0 in
  let filteredMessages := JsMap.values (discordMessages s) in
  let filteredMessages :=
    match truthy (MessageQuery.serverId options) with
    | Some serverId =>
        List.filter
          (fun msg => String.eqb (DiscordMessage.server_id msg) serverId)
          filteredMessages
    | None => filteredMessages
    end in
  let filteredMessages :=
    match truthy (MessageQuery.channelId options) with
    | Some channelId =>
        List.filter
          (fun msg => String.eqb (DiscordMessage.channel_id msg) channelId)
          filteredMessages
    | None => filteredMessages
    end in
  let filteredMessages :=
    match truthy (MessageQuery.search options) with
    | Some search =>
        let searchLower := Js.toLowerCase search in
        List.filter (search_hit searchLower) filteredMessages
    | None => filteredMessages
    end in
  let filteredMessages :=
    Js.sort_desc DiscordMessage.created_at filteredMessages in
  (Js.slice filteredMessages offset (offset + limit),
   Z.of_nat (List.length filteredMessages)).

Definition getMessage (id : string) (s : t) : option DiscordMessage.t :=
  JsMap.get id (discordMessages s).

Definition set_messages (messages : JsMap.t DiscordMessage.t) (s : t) : t :=
  {| discordServers := discordServers s;
     discordChannels := discordChannels s;
     discordMessages := messages;
     botStatusRecord :=
       with_messages (JsMap.size messages) (calculateStorageUsage messages)
         (botStatusRecord s);
     commandLogs := commandLogs s;
     commandLogCurrentId := commandLogCurrentId s |}.

Definition createMessage (message : DiscordMessage.t) (s : t)
  : DiscordMessage.t * t :=
  let newMessage := message in
  (newMessage,
   set_messages
     (JsMap.set (DiscordMessage.id message) newMessage (discordMessages s)) s).

(** The ids the forEach of deleteOldMessages collects. *)
Definition messagesToDelete (cutoff : Z) (messages : JsMap.t DiscordMessage.t)
  : list string :=
  List.map fst
    (List.filter
       (fun '(id, message) => DiscordMessage.created_at message <? cutoff)
       messages).

Definition deleteOldMessages {zone : TimeZone} (now : Z) (s : t) : Z * t :=
  let toDelete := messagesToDelete (twoWeeksAgo now) (discordMessages s) in
  let messages :=
    List.fold_left (fun m id => JsMap.delete id m) toDelete (discordMessages s) in
  (Z.of_nat (List.length toDelete), set_messages messages s).

Definition getBotStatus (s : t) : option BotStatus.t :=
  Some (botStatusRecord s).

Definition updateBotStatus (status : BotStatus.partial) (s : t)
  : BotStatus.t * t :=
  let s' := set_status (fun b => BotStatus.merge b status) s in
  (botStatusRecord s', s').

Definition getCommandLogs (limit : option Z) (s : t) : list CommandLog.t :=
  let limit := Js.default_to limit 100 in
  Js.slice (Js.sort_desc CommandLog.executed_at (commandLogs s)) 0 limit.

Definition createCommandLog (log : InsertCommandLog.t) (s : t)
  : CommandLog.t * t :=
  let newLog := CommandLog.of_insert log (commandLogCurrentId s) in
  let logs := commandLogs s ++ [newLog] in
  let logs :=
    if 1000 <? Z.of_nat (List.length logs)
    then Js.slice (Js.sort_desc CommandLog.executed_at logs) 0 1000
    else logs in
  (newLog,
   {| discordServers := discordServers s;
      discordChannels := discordChannels s;
      discordMessages := discordMessages s;
      botStatusRecord := botStatusRecord s;
      commandLogs := logs;
      commandLogCurrentId := commandLogCurrentId s + 1 |}).

End MemStorage.

(* ================================================================== *)
(** * The SQL the database storage issues *)
(* ================================================================== *)

Module Sql.

(** [text LIKE pattern]: [%] matches any run of characters, [_] any one
    character, and a backslash makes the next pattern character
    literal.  (A pattern that ends in a lone backslash is an error in
    PostgreSQL; the patterns built by getMessages end in [%].) *)
Fixpoint like_match (pattern : string) : string -> bool :=
  match pattern with
  | EmptyString =>
      fun text => match text with EmptyString => true | _ => false end
  | String c pattern' =>
      if Ascii.eqb c "%" then
        fix star (text : string) : bool :=
          like_match pattern' text ||
          match text with
          | EmptyString => false
          | String _ text' => star text'
          end
      else if Ascii.eqb c "_" then
        fun text =>
          match text with
          | EmptyString => false
          | String _ text' => like_match pattern' text'
          end
      else if Ascii.eqb c "\" then
        match pattern' with
        | EmptyString => fun _ => false
        | String e pattern'' =>
            fun text =>
              match text with
              | EmptyString => false
              | String x text' => Ascii.eqb x e && like_match pattern'' text'
              end
        end
      else
        fun text =>
          match text with
          | EmptyString => false
          | String x text' => Ascii.eqb x c && like_match pattern' text'
          end
  end.



(** [text ILIKE pattern]: LIKE after folding both sides to lower case. *)
Definition ilike (text pattern : string) : bool :=
  like_match (Js.toLowerCase pattern) (Js.toLowerCase text).

(** [count] of a table, as the number the driver hands back. *)
Definition count {K} `{Countable K} {V} (table : gmap K V) : Z :=
  Z.of_nat (size table).

(** The rows of a table in scan order. *)
Definition rows {K} `{Countable K} {V} (table : gmap K V) : list V :=
  List.map snd (map_to_list table).

(** [.limit(limit).offset(offset)] of the query builder over an ordered
    result.  The builder writes LIMIT into the statement only for a limit
    that is not negative, so a negative limit leaves the rows unlimited;
    it writes OFFSET for every offset but 0, and PostgreSQL rejects a
    negative one. *)
Definition limit_offset {A} (limit offset : Z) (l : list A) : Result (list A) :=
  if offset <? 0 then Err "OFFSET must not be negative"
  else
    let rest := skipn (Z.to_nat offset) l in
    Ok (if limit <? 0 then rest else firstn (Z.to_nat limit) rest).

(** ORDER BY leaves the order of rows with equal keys to the server,
    anew for each query: [tieOrder options rows] is the order in which
    the server takes up the messages selected by the query with these
    options, [logOrder limit rows] the one in which it takes up the
    command logs for the query with this limit, and the sort keeps rows
    of equal key in that order. *)
Class RowOrder : Type := mkRowOrder
  { tieOrder :
      MessageQuery.t -> list DiscordMessage.t -> list DiscordMessage.t;
    tieOrder_perm :
      forall options rows, Permutation (tieOrder options rows) rows;
    logOrder : Z -> list CommandLog.t -> list CommandLog.t;
    logOrder_perm :
      forall limit rows, Permutation (logOrder limit rows) rows }.

End Sql.

(* ================================================================== *)
(** * server/database-storage.ts: DatabaseStorage *)
(* ================================================================== *)

Module DatabaseStorage.

(** The tables, each keyed by its primary key; [botStatus] is the row of
    bot_status whose id is 1, if there is one; [commandLogsSeq] is the
    next value of the serial id of command_logs.  (The users table,
    which no operation below reads, is left out.)  The model follows the
    calls that complete: a statement the server rejects for a column
    constraint aborts the call and is not modelled, LIMIT and OFFSET
    apart. *)
Record t := mk
  { discordServers : gmap string DiscordServer.t;
    discordChannels : gmap string DiscordChannel.t;
    discordMessages : gmap string DiscordMessage.t;
    botStatus : option BotStatus.t;
    commandLogs : gmap Z CommandLog.t;
    commandLogsSeq : Z }.

Definition empty : t :=
  {| discordServers := ∅; discordChannels := ∅; discordMessages := ∅;
     botStatus := None; commandLogs := ∅; commandLogsSeq := 1 |}.

Definition getBotStatus (db : t) : option BotStatus.t := botStatus db.

Definition set_botStatus (row : option BotStatus.t) (db : t) : t :=
  {| discordServers := discordServers db;
     discordChannels := discordChannels db;
     discordMessages := discordMessages db;
     botStatus := row;
     commandLogs := commandLogs db;
     commandLogsSeq := commandLogsSeq db |}.

Definition initDatabase (db : t) : t :=
  match getBotStatus db with
  | Some _ => db
  | None => set_botStatus (Some BotStatus.initial) db
  end.

(** The storage once the constructor's initDatabase has run on fresh
    tables. *)
Definition constructor : t := initDatabase empty.

(** [update(botStatus).set(status).where(id = 1)] *)
Definition update_status (status : BotStatus.partial) (db : t) : t :=
  set_botStatus
    (option_map (fun row => BotStatus.merge row status) (botStatus db)) db.

Definition partial_none : BotStatus.partial :=
  BotStatus.mk_partial None None None None None None None.

Definition updateServerCount (db : t) : t :=
  let count := Sql.count (discordServers db) in
  update_status
    (BotStatus.mk_partial None None None (Some count) None None None) db.

Definition updateChannelCount (db : t) : t :=
  let count := Sql.count (discordChannels db) in
  update_status
    (BotStatus.mk_partial None None None None (Some count) None None) db.

Definition calculateStorageUsage (db : t) : Z :=
  Sql.count (discordMessages db).

Definition updateMessageCount (db : t) : t :=
  let count := Sql.count (discordMessages db) in
  let storageUsage := calculateStorageUsage db in
  update_status
    (BotStatus.mk_partial None None None None None (Some count)
       (Some storageUsage)) db.

Definition getServers (db : t) : list DiscordServer.t :=
  Sql.rows (discordServers db).

Definition getServer (id : string) (db : t) : option DiscordServer.t :=
  discordServers db !! id.

Definition set_servers (servers : gmap string DiscordServer.t) (db : t) : t :=
  {| discordServers := servers;
     discordChannels := discordChannels db;
     discordMessages := discordMessages db;
     botStatus := botStatus db;
     commandLogs := commandLogs db;
     commandLogsSeq := commandLogsSeq db |}.

Definition set_channels (channels : gmap string DiscordChannel.t) (db : t) : t :=
  {| discordServers := discordServers db;
     discordChannels := channels;
     discordMessages := discordMessages db;
     botStatus := botStatus db;
     commandLogs := commandLogs db;
     commandLogsSeq := commandLogsSeq db |}.

Definition set_messages (messages : gmap string DiscordMessage.t) (db : t) : t :=
  {| discordServers := discordServers db;
     discordChannels := discordChannels db;
     discordMessages := messages;
     botStatus := botStatus db;
     commandLogs := commandLogs db;
     commandLogsSeq := commandLogsSeq db |}.

(** [set({ name, icon })] on a row of discord_servers. *)
Definition set_name_icon (server : DiscordServer.t) (row : DiscordServer.t)
  : DiscordServer.t :=
  {| DiscordServer.id := DiscordServer.id row;
     DiscordServer.name := DiscordServer.name server;
     DiscordServer.icon := DiscordServer.icon server;
     DiscordServer.joined_at := DiscordServer.joined_at row |}.

Definition createServer (server : DiscordServer.t) (db : t)
  : DiscordServer.t * t :=
  match getServer (DiscordServer.id server) db with
  | Some existing =>
      (set_name_icon server existing,
       set_servers
         (alter (set_name_icon server) (DiscordServer.id server)
            (discordServers db)) db)
  | None =>
      let db' :=
        set_servers (<[DiscordServer.id server := server]> (discordServers db)) db in
      (server, updateServerCount db')
  end.

Definition getChannels (serverId : option string) (db : t)
  : list DiscordChannel.t :=
  match truthy serverId with
  | Some serverId =>
      List.filter
        (fun channel => String.eqb (DiscordChannel.server_id channel) serverId)
        (Sql.rows (discordChannels db))
  | None => Sql.rows (discordChannels db)
  end.

Definition getChannel (id : string) (db : t) : option DiscordChannel.t :=
  discordChannels db !! id.

(** [set({ name, type })] on a row of discord_channels. *)
Definition set_name_type (channel : DiscordChannel.t) (row : DiscordChannel.t)
  : DiscordChannel.t :=
  {| DiscordChannel.id := DiscordChannel.id row;
     DiscordChannel.server_id := DiscordChannel.server_id row;
     DiscordChannel.name := DiscordChannel.name channel;
     DiscordChannel.type := DiscordChannel.type channel |}.

Definition createChannel (channel : DiscordChannel.t) (db : t)
  : DiscordChannel.t * t :=
  match getChannel (DiscordChannel.id channel) db with
  | Some existing =>
      (set_name_type channel existing,
       set_channels
         (alter (set_name_type channel) (DiscordChannel.id channel)
            (discordChannels db)) db)
  | None =>
      let db' :=
        set_channels
          (<[DiscordChannel.id channel := channel]> (discordChannels db)) db in
      (channel, updateChannelCount db')
  end.

(** The conditions getMessages collects, as one test on a row. *)
Definition conditions (options : MessageQuery.t) (msg : DiscordMessage.t) : bool :=
  match truthy (MessageQuery.serverId options) with
  | Some serverId => String.eqb (DiscordMessage.server_id msg) serverId
  | None => true
  end
  &&
  match truthy (MessageQuery.channelId options) with
  | Some channelId => String.eqb (DiscordMessage.channel_id msg) channelId
  | None => true
  end
  &&
  match truthy (MessageQuery.search options) with
  | Some search =>
      let pattern := String "%" (search +:+ "%") in
      Sql.ilike (DiscordMessage.content msg) pattern
      || Sql.ilike (DiscordMessage.author_username msg) pattern
  | None => true
  end.

(** The count query and the page query; the rows of the page query
    come in descending order of created_at, those of equal created_at
    in the order the server chooses for this query. *)
Definition getMessages {order : Sql.RowOrder} (options : MessageQuery.t) (db : t)
  : Result (list DiscordMessage.t * Z) :=
  let limit := Js.default_to (MessageQuery.limit options) 10 in
  let offset := Js.default_to (MessageQuery.offset options) 0 in
  let selected := List.filter (conditions options) (Sql.rows (discordMessages db)) in
  let total := Z.of_nat (List.length selected) in
  match
    Sql.limit_offset limit offset
      (Js.sort_desc DiscordMessage.created_at (Sql.tieOrder options selected))
  with
  | Ok messages => Ok (messages, total)
  | Err e => Err e
  end.

Definition getMessage (id : string) (db : t) : option DiscordMessage.t :=
  discordMessages db !! id.

Definition createMessage (message : DiscordMessage.t) (db : t)
  : DiscordMessage.t * t :=
  match getMessage (DiscordMessage.id message) db with
  | Some existing => (existing, db)
  | None =>
      let db' :=
        set_messages
          (<[DiscordMessage.id message := message]> (discordMessages db)) db in
      (message, updateMessageCount db')
  end.

Definition is_old (cutoff : Z) (msg : DiscordMessage.t) : bool :=
  DiscordMessage.created_at msg <? cutoff.

Definition deleteOldMessages {zone : TimeZone} (now : Z) (db : t) : Z * t :=
  let cutoff := twoWeeksAgo now in
  let result :=
    filter (fun kv => is_old cutoff kv.2 = true) (discordMessages db) in
  let db' :=
    set_messages
      (filter (fun kv => is_old cutoff kv.2 <> true) (discordMessages db)) db in
  (Z.of_nat (size result), updateMessageCount db').

Definition updateBotStatus (status : BotStatus.partial) (db : t)
  : option BotStatus.t * t :=
  let db' := update_status status db in
  (botStatus db', db').

Definition getCommandLogs {order : Sql.RowOrder} (limit : option Z) (db : t)
  : Result (list CommandLog.t) :=
  let limit := Js.default_to limit 100 in
  Sql.limit_offset limit 0
    (Js.sort_desc CommandLog.executed_at
       (Sql.logOrder limit (Sql.rows (commandLogs db)))).

Definition createCommandLog (log : InsertCommandLog.t) (db : t)
  : CommandLog.t * t :=
  let row := CommandLog.of_insert log (commandLogsSeq db) in
  (row,
   {| discordServers := discordServers db;
      discordChannels := discordChannels db;
      discordMessages := discordMessages db;
      botStatus := botStatus db;
      commandLogs := <[commandLogsSeq db := row]> (commandLogs db);
      commandLogsSeq := commandLogsSeq db + 1 |}).

End DatabaseStorage.

(* ================================================================== *)
(** * server/storage.ts: the IStorage interface *)
(* ================================================================== *)

(** The methods of IStorage, over the state of the implementing class.
    A method that reads the clock takes the time as its first argument;
    both classes run in a process with a time zone, and the database
    storage against a server that orders rows. *)
Class IStorage (St : Type) : Type :=
  { getServers : St -> list DiscordServer.t;
    getServer : string -> St -> option DiscordServer.t;
    createServer : DiscordServer.t -> St -> DiscordServer.t * St;
    getChannels : option string -> St -> list DiscordChannel.t;
    getChannel : string -> St -> option DiscordChannel.t;
    createChannel : DiscordChannel.t -> St -> DiscordChannel.t * St;
    getMessages : MessageQuery.t -> St -> Result (list DiscordMessage.t * Z);
    getMessage : string -> St -> option DiscordMessage.t;
    createMessage : DiscordMessage.t -> St -> DiscordMessage.t * St;
    deleteOldMessages : Z -> St -> Z * St;
    getBotStatus : St -> option BotStatus.t;
    updateBotStatus : BotStatus.partial -> St -> option BotStatus.t * St;
    getCommandLogs : option Z -> St -> Result (list CommandLog.t);
    createCommandLog : InsertCommandLog.t -> St -> CommandLog.t * St }.

#[export] Instance MemStorage_IStorage {zone : TimeZone}
  : IStorage MemStorage.t :=
  {| getServers := MemStorage.getServers;
     getServer := MemStorage.getServer;
     createServer := MemStorage.createServer;
     getChannels := MemStorage.getChannels;
     getChannel := MemStorage.getChannel;
     createChannel := MemStorage.createChannel;
     getMessages := fun options s => Ok (MemStorage.getMessages options s);
     getMessage := MemStorage.getMessage;
     createMessage := MemStorage.createMessage;
     deleteOldMessages := MemStorage.deleteOldMessages;
     getBotStatus := MemStorage.getBotStatus;
     updateBotStatus :=
       fun status s =>
         let '(row, s') := MemStorage.updateBotStatus status s in (Some row, s');
     getCommandLogs := fun limit s => Ok (MemStorage.getCommandLogs limit s);
     createCommandLog := MemStorage.createCommandLog |}.

#[export] Instance DatabaseStorage_IStorage {zone : TimeZone}
  {order : Sql.RowOrder} : IStorage DatabaseStorage.t :=
  {| getServers := DatabaseStorage.getServers;
     getServer := DatabaseStorage.getServer;
     createServer := DatabaseStorage.createServer;
     getChannels := DatabaseStorage.getChannels;
     getChannel := DatabaseStorage.getChannel;
     createChannel := DatabaseStorage.createChannel;
     getMessages := DatabaseStorage.getMessages;
     getMessage := DatabaseStorage.getMessage;
     createMessage := DatabaseStorage.createMessage;
     deleteOldMessages := DatabaseStorage.deleteOldMessages;
     getBotStatus := DatabaseStorage.getBotStatus;
     updateBotStatus := DatabaseStorage.updateBotStatus;
     getCommandLogs := DatabaseStorage.getCommandLogs;
     createCommandLog := DatabaseStorage.createCommandLog |}.

(* ================================================================== *)
(** * server/discord-bot.ts *)
(* ================================================================== *)

Module DiscordBot.

(** The fields of the class that the command path reads; [clientReady]
    is what [client.isReady()] answers. *)
Record t := mk
  { startTime : option Z; isConnected : bool; clientReady : bool }.

Definition isConnectedToDiscord (bot : t) : bool := isConnected bot.

(** [Math.floor(a / b)] for integers, [b] positive, and the remainder
    [a % b], which has the sign of [a]. *)
Definition floor_div (a b : Z) : Z := a / b.
Definition js_rem (a b : Z) : Z := Z.rem a b.

Definition getUptime (now : Z) (bot : t) : string :=
  match startTime bot with
  | None => "0m"
  | Some start =>
      let uptimeMs := now - start in
      let days := floor_div uptimeMs (1000 * 60 * 60 * 24) in
      let hours :=
        floor_div (js_rem uptimeMs (1000 * 60 * 60 * 24)) (1000 * 60 * 60) in
      let minutes :=
        floor_div (js_rem uptimeMs (1000 * 60 * 60)) (1000 * 60) in
      if 0 <? days then
        Js.string_of_Z days +:+ "d " +:+ Js.string_of_Z hours +:+ "h "
        +:+ Js.string_of_Z minutes +:+ "m"
      else if 0 <? hours then
        Js.string_of_Z hours +:+ "h " +:+ Js.string_of_Z minutes +:+ "m"
      else Js.string_of_Z minutes +:+ "m"
  end.

End DiscordBot.

(* ================================================================== *)
(** * server/utils.ts *)
(* ================================================================== *)

Module Utils.

Definition nl : string := String (ascii_of_nat 10) EmptyString.

(** The digits at the head of a string, and what follows them. *)
Fixpoint take_digits (s : string) : string * string :=
  match s with
  | String c s' =>
      if Js.is_digit c
      then let '(ds, rest) := take_digits s' in (String c ds, rest)
      else (EmptyString, s)
  | EmptyString => (EmptyString, EmptyString)
  end.

(** A match of [<#(\d+)>] that starts at the head of the string: its
    group. *)
Definition mention_here (s : string) : option string :=
  match s with
  | String "<" (String "#" r) =>
      match take_digits r with
      | (String d ds, String ">" _) => Some (String d ds)
      | _ => None
      end
  | _ => None
  end.

(** [s.match(/<#(\d+)>/)]: the group of the leftmost match. *)
Fixpoint channelMatch (s : string) : option string :=
  match mention_here s with
  | Some group => Some group
  | None =>
      match s with
      | String _ s' => channelMatch s'
      | EmptyString => None
      end
  end.

Definition formatHelpCommand : string :=
  Js.join nl
    [ "**Available Commands:**";
      "`!messages [channel] [count]` - Get recent messages";
      "`!stats` - Display message statistics";
      "`!help` - Show command list";
      "`!clear [days]` - Clear message logs older than X days" ].

(** The argument parsing of formatMessagesCommand: the channel id and
    the limit it passes to getMessages. *)
Definition messagesArgs (args : list string) : option string * Z :=
  match args with
  | [] => (None, 5)
  | arg0 :: rest =>
      let channelId := channelMatch arg0 in
      let limit :=
        match rest with
        | arg1 :: _ =>
            match Js.parseInt arg1 with
            | Some n => Z.min 20 n
            | None => 5
            end
        | [] => 5
        end in
      (channelId, limit)
  end.

Section Commands.
(** [format(new Date(t), 'MMM d, yyyy HH:mm')] of date-fns, which
    prints in the time zone of the process. *)
Variable formatDate : Z -> string.

Context {St : Type} `{IStorage St}.

(** One entry of the reply of the messages command. *)
Definition formatMessage (msg : DiscordMessage.t) : string :=
  let dateStr := formatDate (DiscordMessage.created_at msg) in
  "**" +:+ DiscordMessage.author_username msg +:+ "** (" +:+ dateStr
  +:+ "): " +:+ String.substring 0 100 (DiscordMessage.content msg)
  +:+ (if (100 <? String.length (DiscordMessage.content msg))%nat
       then "..." else "").

Definition formatMessagesCommand (args : list string) (storage : St)
  : Result string :=
  let '(channelId, limit) := messagesArgs args in
  match
    getMessages
      {| MessageQuery.serverId := None;
         MessageQuery.channelId := channelId;
         MessageQuery.search := None;
         MessageQuery.limit := Some limit;
         MessageQuery.offset := None |} storage
  with
  | Err e => Err e
  | Ok (messages, total) =>
      match messages with
      | [] => Ok "No messages found with the given criteria."
      | _ :: _ =>
          let channelName :=
            match truthy channelId with
            | Some channelId =>
                match getChannel channelId storage with
                | Some channel => "#" +:+ DiscordChannel.name channel
                | None => "all channels"
                end
            | None => "all channels"
            end in
          let formattedMessages :=
            Js.join (nl +:+ nl) (List.map formatMessage messages) in
          Ok ("**Recent Messages from " +:+ channelName
              +:+ "** (Showing "
              +:+ Js.string_of_Z (Z.of_nat (List.length messages))
              +:+ " of " +:+ Js.string_of_Z total +:+ " messages):"
              +:+ nl +:+ nl +:+ formattedMessages)
      end
  end.

Definition formatStatsCommand (now : Z) (storage : St) (bot : DiscordBot.t)
  : Result string :=
  match getBotStatus storage with
  | None => Ok "Error: Bot status not available"
  | Some status =>
      let servers := getServers storage in
      let channels := getChannels None storage in
      match getMessages MessageQuery.empty storage with
      | Err e => Err e
      | Ok (_, messageCount) =>
          Ok (Js.join nl
                [ "**Bot Statistics:**";
                  "Status: " +:+
                    (if BotStatus.is_online status =? 0
                     then "Offline" else "Online");
                  "Uptime: " +:+ DiscordBot.getUptime now bot;
                  "Monitoring "
                    +:+ Js.string_of_Z (Z.of_nat (List.length servers))
                    +:+ " servers and "
                    +:+ Js.string_of_Z (Z.of_nat (List.length channels))
                    +:+ " channels";
                  "Total Messages: " +:+ Js.string_of_Z messageCount;
                  "Storage Usage: "
                    +:+ Js.string_of_Z (BotStatus.storage_usage status)
                    +:+ " KB" ])
      end
  end.

(** The number of days the reply of the clear command names. *)
Definition clearDays (args : list string) : Z :=
  match args with
  | arg0 :: _ =>
      match Js.parseInt arg0 with
      | Some n => n
      | None => 14
      end
  | [] => 14
  end.

Definition formatClearCommand (now : Z) (args : list string) (storage : St)
  : string * St :=
  let days := clearDays args in
  let '(deletedCount, storage') := deleteOldMessages now storage in
  ("Cleared " +:+ Js.string_of_Z deletedCount
   +:+ " messages older than " +:+ Js.string_of_Z days +:+ " days.",
   storage').

(** The reply, or the message of the error thrown, and the storage
    afterwards. *)
Definition executeCommand (now : Z) (command : string) (args : list string)
  (storage : St) (bot : DiscordBot.t) : Result string * St :=
  if String.eqb command "!help" then (Ok formatHelpCommand, storage)
  else if String.eqb command "!messages"
  then (formatMessagesCommand args storage, storage)
  else if String.eqb command "!stats"
  then (formatStatsCommand now storage bot, storage)
  else if String.eqb command "!clear"
  then let '(text, storage') := formatClearCommand now args storage in
       (Ok text, storage')
  else (Err "Unknown command. Type !help for a list of commands", storage).

End Commands.

End Utils.

(* ================================================================== *)
(** * server/routes.ts: POST /api/execute-command *)
(* ================================================================== *)

Module Routes.

(** What the handler sends: the status and the one field of the JSON
    body, [message] for an error and [response] for a reply. *)
Inductive Body : Type :=
| message (text : string)
| response (text : string).

Record Response := mk { status : Z; json : Body }.

Section Handler.
Variable formatDate : Z -> string.
Context {St : Type} `{IStorage St}.

(** [body] is the command field of the request when it is a string
    (the schema check passes), [bot] the module variable, [now] the time
    of the request, which stands for each clock read of the handler. *)
Definition executeCommandRoute (now : Z) (body : option string)
  (bot : option DiscordBot.t) (storage : St) : Response * St :=
  match body with
  | None => (mk 400 (message "Invalid command format"), storage)
  | Some command =>
      match bot with
      | None => (mk 503 (message "Discord bot is not connected"), storage)
      | Some bot =>
          let commandArgs := Js.split_space command in
          match commandArgs with
          | [] => (mk 400 (message "Command must start with !"), storage)
          | verb :: args =>
              if negb (Js.startsWith verb "!")
              then (mk 400 (message "Command must start with !"), storage)
              else
                let '(outcome, storage1) :=
                  if DiscordBot.clientReady bot
                  then Utils.executeCommand formatDate now verb args storage bot
                  else (Ok "Bot is not connected to Discord", storage) in
                match outcome with
                | Ok text =>
                    let '(_, storage2) :=
                      createCommandLog
                        (InsertCommandLog.mk command text now) storage1 in
                    (mk 200 (response text), storage2)
                | Err errorMessage =>
                    let '(_, storage2) :=
                      createCommandLog
                        (InsertCommandLog.mk command
                           ("Error: " +:+ errorMessage) now) storage1 in
                    (mk 500
                       (message ("Error executing command: " +:+ errorMessage)),
                     storage2)
                end
          end
      end
  end.
End Handler.

End Routes.

(* ================================================================== *)
(** * Sequences of repository calls *)
(* ================================================================== *)

Module Workload.

(** The calls that change the storage, as the bot and the routes make
    them; [UpdateOnline] is the status update of DiscordBot.start and
    DiscordBot.stop, which passes is_online and uptime_started. *)
Inductive Op : Type :=
| CreateServer (server : DiscordServer.t)
| CreateChannel (channel : DiscordChannel.t)
| CreateMessage (message : DiscordMessage.t)
| DeleteOldMessages (now : Z)
| CreateCommandLog (log : InsertCommandLog.t)
| UpdateOnline (is_online : Z) (uptime_started : option Z).

Definition online_status (is_online : Z) (uptime_started : option Z)
  : BotStatus.partial :=
  BotStatus.mk_partial None (Some is_online) (Some uptime_started)
    None None None None.

Section Run.
Context {St : Type} `{IStorage St}.

Definition step (storage : St) (op : Op) : St :=
  match op with
  | CreateServer server => snd (createServer server storage)
  | CreateChannel channel => snd (createChannel channel storage)
  | CreateMessage message => snd (createMessage message storage)
  | DeleteOldMessages now => snd (deleteOldMessages now storage)
  | CreateCommandLog log => snd (createCommandLog log storage)
  | UpdateOnline is_online uptime_started =>
      snd (updateBotStatus (online_status is_online uptime_started) storage)
  end.

Definition run (ops : list Op) (storage : St) : St :=
  List.fold_left step ops storage.
End Run.

(** The counters of the status agree with the collections. *)
Definition mem_counts_live (s : MemStorage.t) : Prop :=
  let status := MemStorage.botStatusRecord s in
  BotStatus.servers_count status = JsMap.size (MemStorage.discordServers s)
  /\ BotStatus.channels_count status = JsMap.size (MemStorage.discordChannels s)
  /\ BotStatus.messages_count status = JsMap.size (MemStorage.discordMessages s).

Definition db_counts_live (db : DatabaseStorage.t) : Prop :=
  exists status,
    DatabaseStorage.botStatus db = Some status
    /\ BotStatus.servers_count status = Sql.count (DatabaseStorage.discordServers db)
    /\ BotStatus.channels_count status = Sql.count (DatabaseStorage.discordChannels db)
    /\ BotStatus.messages_count status = Sql.count (DatabaseStorage.discordMessages db).

End Workload.


(* ================================================================== *)
(** * Sample data for the concrete runs *)
(* ================================================================== *)

Module Sample.

(** A process whose clock is UTC, and a server that hands back rows of
    equal created_at in the order it finds them in the table. *)
Definition utc : TimeZone :=
  {| offsetAt := fun _ => 0; offsetOfLocal := fun _ => 0 |}.

Definition scanOrder : Sql.RowOrder :=
  {| Sql.tieOrder := fun _ rows => rows;
     Sql.tieOrder_perm := fun _ rows => Permutation_refl rows;
     Sql.logOrder := fun _ rows => rows;
     Sql.logOrder_perm := fun _ rows => Permutation_refl rows |}.

Definition memStorage : IStorage MemStorage.t :=
  MemStorage_IStorage (zone := utc).

Definition dbStorage : IStorage DatabaseStorage.t :=
  DatabaseStorage_IStorage (zone := utc) (order := scanOrder).

(** The clock changes of 2024 in central Europe: on 31 March at 01:00
    UTC the clocks go forward from one hour ahead of UTC to two hours
    ahead, and on 27 October at 01:00 UTC they go back. *)
Definition clocksForward : Z := 1711846800000.
Definition clocksBack : Z := 1729990800000.

(** The zone Europe/Berlin from the autumn of 2023 to the spring of
    2025. *)
Definition berlin : TimeZone :=
  {| offsetAt :=
       fun t =>
         if t <? clocksForward then 3600000
         else if t <? clocksBack then 7200000
         else 3600000;
     offsetOfLocal :=
       fun l =>
         if l <? clocksForward + 7200000 then 3600000
         else if l <? clocksBack + 7200000 then 7200000
         else 3600000 |}.

(** A server that takes up the rows of a query with an offset in the
    opposite order. *)
Definition backwards (options : MessageQuery.t) : bool :=
  match MessageQuery.offset options with
  | Some offset => negb (offset =? 0)
  | None => false
  end.

Definition turningOrder : Sql.RowOrder :=
  {| Sql.tieOrder :=
       fun options rows => if backwards options then List.rev rows else rows;
     Sql.tieOrder_perm :=
       fun options rows =>
         match backwards options as b
               return Permutation (if b then List.rev rows else rows) rows
         with
         | true => Permutation_sym (Permutation_rev rows)
         | false => Permutation_refl rows
         end;
     Sql.logOrder := fun _ rows => rows;
     Sql.logOrder_perm := fun _ rows => Permutation_refl rows |}.

Definition message (id content : string) (created_at : Z) : DiscordMessage.t :=
  DiscordMessage.mk id "S1" "7" "U1" "alice" None content created_at.

Definition server (name : string) (joined_at : Z) : DiscordServer.t :=
  DiscordServer.mk "S1" name None joined_at.

Definition channel (server_id name : string) : DiscordChannel.t :=
  DiscordChannel.mk "7" server_id name "0".

(** A connected bot whose client is ready, started at time 0. *)
Definition bot : DiscordBot.t := DiscordBot.mk (Some 0) true true.

(** A stand-in for the date printer: the time as a number. *)
Definition formatDate (t : Z) : string := Js.string_of_Z t.

(** [n] command logs, executed at times 1, 2, ..., n. *)
Definition logs (n : nat) : list Workload.Op :=
  List.map
    (fun i => Workload.CreateCommandLog
                (InsertCommandLog.mk "!help" "ok" (Z.of_nat i)))
    (List.seq 1 n).

(** A store of the messages given, created in that order. *)
Definition mem_with (messages : list DiscordMessage.t) : MemStorage.t :=
  Workload.run (H := memStorage) (List.map Workload.CreateMessage messages)
    MemStorage.constructor.

Definition db_with (messages : list DiscordMessage.t) : DatabaseStorage.t :=
  Workload.run (H := dbStorage) (List.map Workload.CreateMessage messages)
    DatabaseStorage.constructor.

(** The retention scenario: a sweep at day 20 over messages created
    15 days, 14 days and a second, and 13 days before. *)
Definition sweep_time : Z := 20 * day_ms.

Definition retention_messages : list DiscordMessage.t :=
  [ message "1" "fifteen days" (sweep_time - 15 * day_ms);
    message "2" "fourteen days and a second" (sweep_time - 14 * day_ms - 1000);
    message "3" "thirteen days" (sweep_time - 13 * day_ms) ].

(** A sweep ten days after the clocks went back, over one message
    created 14 days and one second before it. *)
Definition autumn_sweep : Z := clocksBack + 10 * day_ms.

Definition autumn_messages : list DiscordMessage.t :=
  [ message "1" "fourteen days and a second"
      (autumn_sweep - 14 * day_ms - 1000) ].

(** A sweep ten days after the clocks went forward, over one message
    created 13 days, 23 hours and 30 minutes before it. *)
Definition spring_sweep : Z := clocksForward + 10 * day_ms.

Definition spring_messages : list DiscordMessage.t :=
  [ message "1" "half an hour short of fourteen days"
      (spring_sweep - 14 * day_ms + 1800000) ].




(** Two days, three hours and fourteen minutes after the start of [bot]. *)
Definition uptime_now : Z := 2 * day_ms + 3 * 3600000 + 14 * 60000.

(** [n] messages with ids and creation times 1, 2, ..., n. *)
Definition numbered (n : nat) : list DiscordMessage.t :=
  List.map
    (fun i => message (Js.string_of_Z (Z.of_nat i)) "hello" (Z.of_nat i))
    (List.seq 1 n).

End Sample.

(* ================================================================== *)
(** * The specification's words, as definitions *)
(* ================================================================== *)

Module Spec.

(** Uptime in the largest two non-zero units among days, hours and
    minutes; the zero duration when there is none. *)
Definition uptime_two_largest (days hours minutes : Z) : string :=
  let units :=
    List.filter (fun u => negb (fst u =? 0))
      [(days, "d"); (hours, "h"); (minutes, "m")] in
  match firstn 2 units with
  | [] => "0m"
  | shown =>
      Js.join " " (List.map (fun u => Js.string_of_Z (fst u) +:+ snd u) shown)
  end.

(** Retention: a message is deleted when its created_at is strictly
    older than now minus 14 days. *)
Definition expired (now : Z) (msg : DiscordMessage.t) : bool :=
  DiscordMessage.created_at msg <? now - 14 * day_ms.

(** What a sweep leaves of the message stored under an id. *)
Definition retained (now : Z) (stored : option DiscordMessage.t)
  : option DiscordMessage.t :=
  match stored with
  | Some msg => if expired now msg then None else Some msg
  | None => None
  end.

(** A message is older than a cutoff when its created_at is strictly
    before it. *)
Definition older (cutoff : Z) (msg : DiscordMessage.t) : bool :=
  DiscordMessage.created_at msg <? cutoff.

(** What is left of the message stored under an id once the messages
    older than the cutoff are gone. *)
Definition kept (cutoff : Z) (stored : option DiscordMessage.t)
  : option DiscordMessage.t :=
  match stored with
  | Some msg => if older cutoff msg then None else Some msg
  | None => None
  end.

(** The clock of the process is as far ahead of UTC at [now] as it was
    when it showed the same time of day 14 days before: no clock change
    lies between the two. *)
Definition steady_clock {zone : TimeZone} (now : Z) : Prop :=
  offsetOfLocal (now + offsetAt now - 14 * day_ms) = offsetAt now.


(** Command logs with equal executed_at stand in ascending order of
    id, the order of their insertion. *)
Definition ties_by_id (logs : list CommandLog.t) : Prop :=
  forall t,
    StronglySorted Z.lt
      (List.map CommandLog.id
         (List.filter (fun log => CommandLog.executed_at log =? t) logs)).

(** What the memory storage maintains of its command logs: the ids are
    below the counter, and ties are in order of id. *)
Definition mem_logs_ordered (s : MemStorage.t) : Prop :=
  (forall log, In log (MemStorage.commandLogs s) ->
               CommandLog.id log < MemStorage.commandLogCurrentId s)
  /\ ties_by_id (MemStorage.commandLogs s).

(** [term] occurs in [text], letter case aside. *)
Definition ci_substring (term text : string) : Prop :=
  exists before after,
    Js.toLowerCase text = before +:+ Js.toLowerCase term +:+ after.

Definition ci_substringb (term text : string) : bool :=
  Js.includes (Js.toLowerCase text) (Js.toLowerCase term).

(** A message satisfies every filter that is supplied; the search term
    is looked for in the content or in the author's name. *)
Definition satisfies (options : MessageQuery.t) (msg : DiscordMessage.t)
  : Prop :=
  (forall serverId, MessageQuery.serverId options = Some serverId ->
                    DiscordMessage.server_id msg = serverId)
  /\ (forall channelId, MessageQuery.channelId options = Some channelId ->
                        DiscordMessage.channel_id msg = channelId)
  /\ (forall search, MessageQuery.search options = Some search ->
                     ci_substring search (DiscordMessage.content msg)
                     \/ ci_substring search (DiscordMessage.author_username msg)).

Definition matches (options : MessageQuery.t) (msg : DiscordMessage.t) : bool :=
  match MessageQuery.serverId options with
  | Some serverId => String.eqb (DiscordMessage.server_id msg) serverId
  | None => true
  end
  &&
  match MessageQuery.channelId options with
  | Some channelId => String.eqb (DiscordMessage.channel_id msg) channelId
  | None => true
  end
  &&
  match MessageQuery.search options with
  | Some search =>
      ci_substringb search (DiscordMessage.content msg)
      || ci_substringb search (DiscordMessage.author_username msg)
  | None => true
  end.

(** The filters of a query with each empty one taken as not supplied,
    and with the paging given. *)
Definition filters (serverId channelId search : option string)
  (limit offset : option nat) : MessageQuery.t :=
  {| MessageQuery.serverId := serverId;
     MessageQuery.channelId := channelId;
     MessageQuery.search := search;
     MessageQuery.limit := option_map Z.of_nat limit;
     MessageQuery.offset := option_map Z.of_nat offset |}.


(** The page of a selection: [limit] messages at most (10 when not
    given) from position [offset] (0 when not given). *)
Definition page {A} (limit offset : option nat) (selection : list A) : list A :=
  firstn (Js.default_to limit 10%nat)
    (skipn (Js.default_to offset 0%nat) selection).







(** A line of the messages reply: author, date, and the content, cut
    after 100 characters and marked when it is longer. *)
Definition message_line (formatDate : Z -> string) (msg : DiscordMessage.t)
  : string :=
  let content := DiscordMessage.content msg in
  "**" +:+ DiscordMessage.author_username msg +:+ "** ("
  +:+ formatDate (DiscordMessage.created_at msg) +:+ "): "
  +:+ (if (String.length content <=? 100)%nat then content
       else String.substring 0 100 content +:+ "...").

(** The query the messages command passes to getMessages. *)
Definition messages_query (channelId : option string) (limit : Z)
  : MessageQuery.t :=
  {| MessageQuery.serverId := None;
     MessageQuery.channelId := channelId;
     MessageQuery.search := None;
     MessageQuery.limit := Some limit;
     MessageQuery.offset := None |}.

(** The reply of the messages command over the messages found. *)
Definition messages_reply (formatDate : Z -> string) (header : string)
  (messages : list DiscordMessage.t) : string :=
  match messages with
  | [] => "No messages found with the given criteria."
  | _ :: _ =>
      header +:+ Utils.nl +:+ Utils.nl
      +:+ Js.join (Utils.nl +:+ Utils.nl)
            (List.map (message_line formatDate) messages)
  end.

End Spec.

(* ================================================================== *)
(** * What the storages maintain *)
(* ================================================================== *)

Module Reach.

(** The entries of a map of the memory storage: no key twice, and each
    value under its own id. *)
Definition keyed {V : Type} (id : V -> string) (m : JsMap.t V) : Prop :=
  JsMap.wf m /\ List.Forall (fun e => fst e = id (snd e)) m.

Definition mem_keyed (s : MemStorage.t) : Prop :=
  keyed DiscordServer.id (MemStorage.discordServers s)
  /\ keyed DiscordChannel.id (MemStorage.discordChannels s)
  /\ keyed DiscordMessage.id (MemStorage.discordMessages s).

(** The rows of a table: each under its own primary key. *)
Definition db_keyed (db : DatabaseStorage.t) : Prop :=
  (forall k row, DatabaseStorage.discordServers db !! k = Some row ->
                 DiscordServer.id row = k)
  /\ (forall k row, DatabaseStorage.discordChannels db !! k = Some row ->
                    DiscordChannel.id row = k)
  /\ (forall k row, DatabaseStorage.discordMessages db !! k = Some row ->
                    DiscordMessage.id row = k).

(** No command log of the memory storage has the id of another, and
    the counter is above them all. *)
Definition mem_log_ids (s : MemStorage.t) : Prop :=
  NoDup (List.map CommandLog.id (MemStorage.commandLogs s))
  /\ forall log, In log (MemStorage.commandLogs s) ->
                 CommandLog.id log < MemStorage.commandLogCurrentId s.

(** The rows of command_logs stand under their id, below the sequence. *)
Definition db_log_ids (db : DatabaseStorage.t) : Prop :=
  forall k row, DatabaseStorage.commandLogs db !! k = Some row ->
                CommandLog.id row = k /\ k < DatabaseStorage.commandLogsSeq db.

(** The usage the status stores is its count of messages. *)
Definition mem_usage_live (s : MemStorage.t) : Prop :=
  BotStatus.storage_usage (MemStorage.botStatusRecord s)
  = BotStatus.messages_count (MemStorage.botStatusRecord s).

Definition db_usage_live (db : DatabaseStorage.t) : Prop :=
  forall status, DatabaseStorage.botStatus db = Some status ->
                 BotStatus.storage_usage status = BotStatus.messages_count status.

End Reach.

(** The ids of the messages that a sequence of calls creates, in the
    order of the calls. *)
Module Created.

Definition message_ids (ops : list Workload.Op) : list string :=
  List.flat_map
    (fun op =>
       match op with
       | Workload.CreateMessage message => [DiscordMessage.id message]
       | _ => []
       end)
    ops.

End Created.

(* ================================================================== *)
(** * The users of both storages *)
(* ================================================================== *)

Module User.
Record t := mk { id : Z; username : string; password : string }.
End User.

Module InsertUser.
Record t := mk { username : string; password : string }.
End InsertUser.

(** server/storage.ts: the users map of MemStorage and its counter,
    which the user methods alone read and write. *)
Module MemUsers.

Record t := mk { users : list (Z * User.t); userCurrentId : Z }.

Definition constructor : t := {| users := []; userCurrentId := 1 |}.

(** [Map.get] and [Map.set] with number keys. *)
Fixpoint get (k : Z) (m : list (Z * User.t)) : option User.t :=
  match m with
  | [] => None
  | (k', v) :: m' => if k' =? k then Some v else get k m'
  end.

Fixpoint set (k : Z) (v : User.t) (m : list (Z * User.t)) : list (Z * User.t) :=
  match m with
  | [] => [(k, v)]
  | (k', v') :: m' => if k' =? k then (k, v) :: m' else (k', v') :: set k v m'
  end.

Definition getUser (id : Z) (s : t) : option User.t := get id (users s).

Definition getUserByUsername (username : string) (s : t) : option User.t :=
  List.find (fun user => String.eqb (User.username user) username)
    (List.map snd (users s)).

Definition createUser (insertUser : InsertUser.t) (s : t) : User.t * t :=
  let id := userCurrentId s in
  let user :=
    User.mk id (InsertUser.username insertUser) (InsertUser.password insertUser) in
  (user, {| users := set id user (users s); userCurrentId := id + 1 |}).

(** The storage after a sequence of createUser calls. *)
Definition created (inserts : list InsertUser.t) : t :=
  List.fold_left (fun s insertUser => snd (createUser insertUser s)) inserts
    constructor.

End MemUsers.

(** server/database-storage.ts: the users table, its serial id and its
    unique username. *)
Module DbUsers.

Record t := mk { users : gmap Z User.t; usersSeq : Z }.

Definition constructor : t := {| users := ∅; usersSeq := 1 |}.

Definition getUser (id : Z) (db : t) : option User.t := users db !! id.

Definition getUserByUsername (username : string) (db : t) : option User.t :=
  List.hd_error
    (List.filter (fun user => String.eqb (User.username user) username)
       (Sql.rows (users db))).

(** The insert takes the next value of the sequence, also when the
    unique constraint on username then rejects the row. *)
Definition createUser (insertUser : InsertUser.t) (db : t) : Result User.t * t :=
  let id := usersSeq db in
  let user :=
    User.mk id (InsertUser.username insertUser) (InsertUser.password insertUser) in
  match getUserByUsername (InsertUser.username insertUser) db with
  | Some _ =>
      (Err "duplicate key value violates unique constraint",
       {| users := users db; usersSeq := id + 1 |})
  | None =>
      (Ok user, {| users := <[id := user]> (users db); usersSeq := id + 1 |})
  end.

Definition created (inserts : list InsertUser.t) : t :=
  List.fold_left (fun db insertUser => snd (createUser insertUser db)) inserts
    constructor.

End DbUsers.

(* ================================================================== *)
(** * server/discord-bot.ts: the event handlers *)
(* ================================================================== *)

(** What the bot reads of the objects that discord.js hands to it. *)
Module Discord.

(** [guild] is [message.guild.id], absent for a direct message. *)
Record Message := mkMessage
  { message_id : string;
    guild : option string;
    message_channel_id : string;
    author_id : string;
    author_username : string;
    author_discriminator : option string;
    author_bot : bool;
    content : string;
    createdAt : Z }.

(** [channel_type] is the number of the channel type. *)
Record Channel := mkChannel
  { channel_id : string;
    channel_name : string;
    channel_type : Z;
    isTextBased : bool;
    isDMBased : bool }.

(** [channels] is the channel cache of the guild after the fetch. *)
Record Guild := mkGuild
  { guild_id : string;
    guild_name : string;
    iconURL : option string;
    channels : list Channel }.

End Discord.

Module Gateway.

Section Handlers.
Variable formatDate : Z -> string.
(** [message.reply(text)]: [None] when the reply is sent, the message of
    the error when it throws. *)
Variable reply : string -> option string.
Context {St : Type} `{IStorage St}.

Definition storedMessage (message : Discord.Message) (guildId : string)
  : DiscordMessage.t :=
  {| DiscordMessage.id := Discord.message_id message;
     DiscordMessage.server_id := guildId;
     DiscordMessage.channel_id := Discord.message_channel_id message;
     DiscordMessage.author_id := Discord.author_id message;
     DiscordMessage.author_username := Discord.author_username message;
     DiscordMessage.author_discriminator :=
       Some (Js.default_to (truthy (Discord.author_discriminator message)) "");
     DiscordMessage.content := Discord.content message;
     DiscordMessage.created_at := Discord.createdAt message |}.

Definition storeMessage (message : Discord.Message) (storage : St) : St :=
  match Discord.guild message with
  | None => storage
  | Some guildId => snd (createMessage (storedMessage message guildId) storage)
  end.

Definition commandLog (message : Discord.Message) (response : string) (now : Z)
  : InsertCommandLog.t :=
  InsertCommandLog.mk (Discord.content message) response now.

(** The replies sent, the error that leaves the method if one does, and
    the storage afterwards.  [now] stands for each clock read. *)
Definition handleCommand (now : Z) (message : Discord.Message)
  (bot : DiscordBot.t) (storage : St) : list string * option string * St :=
  match Js.split_space (Discord.content message) with
  | [] => ([], Some "Cannot read properties of undefined", storage)
  | verb :: args =>
      let command := Js.toLowerCase verb in
      let '(outcome, storage1) :=
        Utils.executeCommand formatDate now command args storage bot in
      (* the try block *)
      let '(sent, thrown, storage2) :=
        match outcome with
        | Err e => ([], Some e, storage1)
        | Ok response =>
            let storage2 :=
              snd (createCommandLog (commandLog message response now) storage1) in
            match reply response with
            | None => ([response], None, storage2)
            | Some e => ([], Some e, storage2)
            end
        end in
      (* the catch block *)
      match thrown with
      | None => (sent, None, storage2)
      | Some e =>
          let response := "Error: " +:+ e in
          match reply response with
          | Some e' => (sent, Some e', storage2)
          | None =>
              (sent ++ [response], None,
               snd (createCommandLog (commandLog message response now) storage2))
          end
      end
  end.

(** The handler of Events.MessageCreate: the replies sent and the
    storage afterwards; an error of handleCommand is caught and printed. *)
Definition onMessageCreate (now : Z) (message : Discord.Message)
  (bot : DiscordBot.t) (storage : St) : list string * St :=
  if Discord.author_bot message then ([], storage)
  else
    let storage1 := storeMessage message storage in
    if Js.startsWith (Discord.content message) "!"
    then
      let '(sent, _, storage2) := handleCommand now message bot storage1 in
      (sent, storage2)
    else ([], storage1).

Definition textChannels (guild : Discord.Guild) : list Discord.Channel :=
  List.filter
    (fun channel => Discord.isTextBased channel && negb (Discord.isDMBased channel))
    (Discord.channels guild).

Definition syncedServer (now : Z) (guild : Discord.Guild) : DiscordServer.t :=
  {| DiscordServer.id := Discord.guild_id guild;
     DiscordServer.name := Discord.guild_name guild;
     DiscordServer.icon := truthy (Discord.iconURL guild);
     DiscordServer.joined_at := now |}.

Definition syncedChannel (guild : Discord.Guild) (channel : Discord.Channel)
  : DiscordChannel.t :=
  {| DiscordChannel.id := Discord.channel_id channel;
     DiscordChannel.server_id := Discord.guild_id guild;
     DiscordChannel.name := Discord.channel_name channel;
     DiscordChannel.type := Js.string_of_Z (Discord.channel_type channel) |}.

(** The body of the loop over the guilds. *)
Definition syncGuild (now : Z) (storage : St) (guild : Discord.Guild) : St :=
  let storage1 := snd (createServer (syncedServer now guild) storage) in
  List.fold_left
    (fun storage channel => snd (createChannel (syncedChannel guild channel) storage))
    (textChannels guild) storage1.

(** [guilds] is the guild cache of the client.  The model follows a sync
    whose fetches and repository calls complete; an error ends the loop
    and is printed. *)
Definition syncServersAndChannels (now : Z) (guilds : list Discord.Guild)
  (storage : St) : St :=
  List.fold_left (syncGuild now) guilds storage.

(** What reaches the storage through the bot: the sync of the
    ClientReady, GuildCreate and ChannelCreate handlers, a message, and
    the hourly cleanup that start sets up; each with the time it runs
    at. *)
Inductive Event : Type :=
| Sync (guilds : list Discord.Guild)
| MessageCreate (message : Discord.Message)
| Cleanup.

Definition handle (bot : DiscordBot.t) (storage : St) (event : Z * Event) : St :=
  match event with
  | (now, Sync guilds) => syncServersAndChannels now guilds storage
  | (now, MessageCreate message) => snd (onMessageCreate now message bot storage)
  | (now, Cleanup) => snd (deleteOldMessages now storage)
  end.

Definition handleAll (bot : DiscordBot.t) (events : list (Z * Event))
  (storage : St) : St :=
  List.fold_left (handle bot) events storage.

End Handlers.

(** The repository calls of one round of the loop of
    syncServersAndChannels. *)
Definition syncGuildCalls (now : Z) (guild : Discord.Guild) : list Workload.Op :=
  Workload.CreateServer (syncedServer now guild)
  :: List.map (fun channel => Workload.CreateChannel (syncedChannel guild channel))
       (textChannels guild).

(** ** start and stop *)

(** The fields of the bot that start and stop write, with the interval
    timers of the process: [intervals] are the handles of the timers that
    run, [nextInterval] the handle the next setInterval returns. *)
Record Process := mkProcess
  { bot : DiscordBot.t;
    cleanupInterval : option Z;
    intervals : list Z;
    nextInterval : Z }.

(** A bot as its constructor leaves it, in a process without timers. *)
Definition constructor : Process :=
  {| bot := DiscordBot.mk None false false;
     cleanupInterval := None;
     intervals := [];
     nextInterval := 1 |}.

Section Lifecycle.
Context {St : Type} `{IStorage St}.

(** [login] is the outcome of [client.login]: [None] when it resolves,
    the message of the error when it rejects.  The result is the error
    that start throws again, if any. *)
Definition start (login : option string) (now : Z) (p : Process) (storage : St)
  : option string * Process * St :=
  match login with
  | None =>
      let startTime := Some now in
      let storage' :=
        snd (updateBotStatus (Workload.online_status 1 startTime) storage) in
      let handle := nextInterval p in
      (None,
       {| bot := DiscordBot.mk startTime true (DiscordBot.clientReady (bot p));
          cleanupInterval := Some handle;
          intervals := handle :: intervals p;
          nextInterval := handle + 1 |},
       storage')
  | Some error =>
      (Some error,
       {| bot :=
            DiscordBot.mk (DiscordBot.startTime (bot p)) false
              (DiscordBot.clientReady (bot p));
          cleanupInterval := cleanupInterval p;
          intervals := intervals p;
          nextInterval := nextInterval p |},
       snd (updateBotStatus (Workload.online_status 0 None) storage))
  end.

Definition clearInterval (handle : Z) (running : list Z) : list Z :=
  List.filter (fun h => negb (h =? handle)) running.

(** [client.destroy()] ends the session: the client is no longer ready. *)
Definition stop (p : Process) (storage : St) : Process * St :=
  let running :=
    match cleanupInterval p with
    | Some handle => clearInterval handle (intervals p)
    | None => intervals p
    end in
  if DiscordBot.isConnected (bot p)
  then
    ({| bot := DiscordBot.mk None false false;
        cleanupInterval := None;
        intervals := running;
        nextInterval := nextInterval p |},
     snd (updateBotStatus (Workload.online_status 0 None) storage))
  else
    ({| bot := bot p;
        cleanupInterval := None;
        intervals := running;
        nextInterval := nextInterval p |},
     storage).

End Lifecycle.

(** What the bot does in its process: the calls of start and stop, and
    the events it handles, each with the time it happens at. *)
Inductive Action : Type :=
| Start (login : option string)
| Stop
| Handle (event : Event).

Section Process.
Variable formatDate : Z -> string.
Variable reply : string -> option string.
Context {St : Type} `{IStorage St}.

Definition act (state : Process * St) (action : Z * Action) : Process * St :=
  match action with
  | (now, Start login) =>
      let '(_, p, storage) := start login now (fst state) (snd state) in
      (p, storage)
  | (_, Stop) => stop (fst state) (snd state)
  | (now, Handle event) =>
      (fst state,
       handle formatDate reply (bot (fst state)) (snd state) (now, event))
  end.

Definition actAll (actions : list (Z * Action)) (state : Process * St)
  : Process * St :=
  List.fold_left act actions state.

End Process.

(** The status row says what the bot says: online with the start time
    of the bot when it is connected, offline without a start time when
    it is not. *)
Definition status_follows (p : Process) (status : option BotStatus.t) : Prop :=
  match status with
  | Some status =>
      if DiscordBot.isConnected (bot p)
      then BotStatus.is_online status = 1
           /\ BotStatus.uptime_started status = DiscordBot.startTime (bot p)
           /\ DiscordBot.startTime (bot p) <> None
      else BotStatus.is_online status = 0
           /\ BotStatus.uptime_started status = None
  | None => False
  end.

End Gateway.

(* ================================================================== *)
(** * server/routes.ts: the read routes *)
(* ================================================================== *)

Module Api.

(** GET /api/messages: the channel name each message of the page is sent
    with. *)
Definition channelName (channels : list DiscordChannel.t)
  (message : DiscordMessage.t) : string :=
  match
    List.find
      (fun c => String.eqb (DiscordChannel.id c) (DiscordMessage.channel_id message))
      channels
  with
  | Some channel => DiscordChannel.name channel
  | None => "unknown-channel"
  end.

Section Routes.
Context {St : Type} `{IStorage St}.

Definition enrich (messages : list DiscordMessage.t) (storage : St)
  : list (DiscordMessage.t * string) :=
  match messages with
  | [] => []
  | _ :: _ =>
      let channels := getChannels None storage in
      List.map (fun message => (message, channelName channels message)) messages
  end.

(** GET /api/stats: the message whose date is sent as oldestMessage;
    [None] stands for N/A. *)
Definition oldestMessage (storage : St) : Result (option DiscordMessage.t) :=
  match getMessages MessageQuery.empty storage with
  | Err e => Err e
  | Ok (_, messageCount) =>
      if 0 <? messageCount
      then
        match
          getMessages
            {| MessageQuery.serverId := None;
               MessageQuery.channelId := None;
               MessageQuery.search := None;
               MessageQuery.limit := Some 1;
               MessageQuery.offset := Some (messageCount - 1) |} storage
        with
        | Err e => Err e
        | Ok (messages, _) => Ok (List.hd_error messages)
        end
      else Ok None
  end.

End Routes.

End Api.

(* ================================================================== *)
(** * server/utils.ts: the exported formatters *)
(* ================================================================== *)

Module UtilsFormat.

(** [uptimeStarted] is the start time of a status row, [now] the clock. *)
Definition formatUptime (now : Z) (uptimeStarted : option Z) : string :=
  match uptimeStarted with
  | None => "0m"
  | Some started =>
      let uptimeMs := now - started in
      let days := DiscordBot.floor_div uptimeMs (1000 * 60 * 60 * 24) in
      let hours :=
        DiscordBot.floor_div (DiscordBot.js_rem uptimeMs (1000 * 60 * 60 * 24))
          (1000 * 60 * 60) in
      let minutes :=
        DiscordBot.floor_div (DiscordBot.js_rem uptimeMs (1000 * 60 * 60))
          (1000 * 60) in
      if 0 <? days then
        Js.string_of_Z days +:+ "d " +:+ Js.string_of_Z hours +:+ "h "
        +:+ Js.string_of_Z minutes +:+ "m"
      else if 0 <? hours then
        Js.string_of_Z hours +:+ "h " +:+ Js.string_of_Z minutes +:+ "m"
      else Js.string_of_Z minutes +:+ "m"
  end.

End UtilsFormat.

(** Sample data for the runs of the event handlers. *)
Module GatewaySample.

(** A message of a person in a channel of a guild. *)
Definition message (content : string) : Discord.Message :=
  Discord.mkMessage "100" (Some "S1") "7" "U1" "alice" None false content 0.

(** A reply that is sent, and one that Discord refuses. *)
Definition delivered (text : string) : option string := None.
Definition refused (text : string) : option string := Some "Missing Permissions".

Definition general : Discord.Channel := Discord.mkChannel "7" "general" 0 true false.
Definition voice : Discord.Channel := Discord.mkChannel "8" "voice" 2 false false.
Definition news : Discord.Channel := Discord.mkChannel "9" "news" 5 true false.

(** A guild with a text channel and a voice channel, and one with a
    news channel and no icon. *)
Definition guild1 : Discord.Guild :=
  Discord.mkGuild "S1" "guild one" (Some "icon.png") [general; voice].
Definition guild2 : Discord.Guild := Discord.mkGuild "S2" "guild two" None [news].

Definition guilds : list Discord.Guild := [guild1; guild2].

End GatewaySample.

(** Unfolds the record updates of the database storage. *)
Ltac db_fields :=
  unfold DatabaseStorage.updateServerCount, DatabaseStorage.updateChannelCount,
    DatabaseStorage.updateMessageCount, DatabaseStorage.update_status,
    DatabaseStorage.set_botStatus, DatabaseStorage.set_servers,
    DatabaseStorage.set_channels, DatabaseStorage.set_messages in *;
  cbn [DatabaseStorage.discordServers DatabaseStorage.discordChannels
       DatabaseStorage.discordMessages DatabaseStorage.botStatus
       DatabaseStorage.commandLogs DatabaseStorage.commandLogsSeq fst snd] in *.

(* ================================================================== *)
(** * Facts about the JavaScript map *)
(* ================================================================== *)

Lemma filter_andb {A} (f g : A -> bool) (l : list A) :
  List.filter f (List.filter g l) = List.filter (fun x => g x && f x) l.
Proof.
  induction l as [|x l IH]; simpl; [reflexivity|].
  destruct (g x); simpl; [|assumption].
  destruct (f x); now rewrite IH.
Qed.

Section JsMapFacts.
Context {V : Type}.
Implicit Types (m : JsMap.t V) (k : string) (v : V).

Lemma JsMap_get_set_eq k v m : JsMap.get k (JsMap.set k v m) = Some v.
Proof.
  induction m as [|[k' v'] m IH]; simpl.
  - now rewrite String.eqb_refl.
  - destruct (String.eqb k' k) eqn:E; simpl.
    + now rewrite String.eqb_refl.
    + now rewrite E.
Qed.

Lemma JsMap_get_set_ne k k' v m :
  k <> k' -> JsMap.get k' (JsMap.set k v m) = JsMap.get k' m.
Proof.
  intros Hne. induction m as [|[k0 v0] m IH]; simpl.
  - destruct (String.eqb_spec k k'); [contradiction | reflexivity].
  - destruct (String.eqb_spec k0 k) as [->|Hk]; simpl.
    + destruct (String.eqb_spec k k'); [contradiction | reflexivity].
    + now rewrite IH.
Qed.

Lemma JsMap_get_None_keys k m :
  JsMap.get k m = None <-> ~ In k (JsMap.keys m).
Proof.
  induction m as [|[k' v'] m IH]; simpl.
  - tauto.
  - destruct (String.eqb_spec k' k) as [->|Hk].
    + split; [discriminate | tauto].
    + rewrite IH. tauto.
Qed.

Lemma JsMap_keys_set k v m :
  JsMap.keys (JsMap.set k v m) =
  match JsMap.get k m with
  | Some _ => JsMap.keys m
  | None => JsMap.keys m ++ [k]
  end.
Proof.
  induction m as [|[k' v'] m IH]; simpl; [reflexivity|].
  destruct (String.eqb_spec k' k) as [->|Hk]; simpl; [reflexivity|].
  rewrite IH. now destruct (JsMap.get k m).
Qed.

Lemma JsMap_wf_set k v m : JsMap.wf m -> JsMap.wf (JsMap.set k v m).
Proof.
  unfold JsMap.wf. intros Hwf. rewrite JsMap_keys_set.
  destruct (JsMap.get k m) eqn:E; [assumption|].
  apply JsMap_get_None_keys in E.
  apply NoDup_app. split; [assumption|]. split.
  - intros x Hx Hin. apply list_elem_of_In in Hx, Hin. simpl in Hin.
    destruct Hin as [->|[]]. contradiction.
  - apply NoDup_singleton.
Qed.

Lemma JsMap_get_In k v m :
  JsMap.wf m -> (JsMap.get k m = Some v <-> In (k, v) m).
Proof.
  unfold JsMap.wf, JsMap.keys.
  induction m as [|[k' v'] m IH]; simpl; intros Hwf.
  - split; [discriminate | tauto].
  - apply NoDup_cons in Hwf as [Hnotin Hwf].
    destruct (String.eqb_spec k' k) as [->|Hk].
    + split.
      * intros [= ->]. now left.
      * intros [[= ->]|Hin]; [reflexivity|].
        exfalso. apply Hnotin. rewrite list_elem_of_In.
        change k with (fst (k, v)). now apply in_map.
    + rewrite (IH Hwf). split; [tauto|].
      intros [[= -> ->]|Hin]; [contradiction | assumption].
Qed.

(** Deleting a list of keys keeps the entries under the other keys. *)
Lemma JsMap_delete_filter k m :
  JsMap.wf m ->
  JsMap.delete k m =
  List.filter (fun e => negb (String.eqb (fst e) k)) m.
Proof.
  unfold JsMap.wf, JsMap.keys.
  induction m as [|[k' v'] m IH]; simpl; intros Hwf; [reflexivity|].
  apply NoDup_cons in Hwf as [Hnotin Hwf].
  destruct (String.eqb_spec k' k) as [->|Hk]; simpl.
  - symmetry. apply forallb_filter_id. apply forallb_forall.
    intros [k1 v1] Hin. simpl.
    destruct (String.eqb_spec k1 k) as [->|]; [|reflexivity].
    exfalso. apply Hnotin. rewrite list_elem_of_In.
    change k with (fst (k, v1)). now apply in_map.
  - now rewrite IH.
Qed.

Lemma JsMap_wf_filter (f : string * V -> bool) m :
  JsMap.wf m -> JsMap.wf (List.filter f m).
Proof.
  unfold JsMap.wf, JsMap.keys.
  induction m as [|e m IH]; simpl; intros Hwf; [assumption|].
  apply NoDup_cons in Hwf as [Hnotin Hwf].
  destruct (f e); simpl; [|now apply IH].
  apply NoDup_cons. split; [|now apply IH].
  intros Hin. apply Hnotin.
  rewrite list_elem_of_In in *. apply in_map_iff in Hin as (x & Hx & Hin).
  apply filter_In in Hin as [Hin _].
  rewrite <- Hx. now apply in_map.
Qed.

Lemma JsMap_delete_all (ks : list string) m :
  JsMap.wf m ->
  List.fold_left (fun m k => JsMap.delete k m) ks m =
  List.filter (fun e => negb (existsb (String.eqb (fst e)) ks)) m.
Proof.
  revert m. induction ks as [|k ks IH]; intros m Hwf; simpl.
  - symmetry. apply forallb_filter_id. now apply forallb_forall.
  - rewrite IH by (rewrite JsMap_delete_filter by assumption;
                   now apply JsMap_wf_filter).
    rewrite JsMap_delete_filter by assumption.
    rewrite filter_andb. apply filter_ext. intros [k1 v1]. simpl.
    now destruct (String.eqb k1 k).
Qed.
End JsMapFacts.

(* ================================================================== *)
(** * Facts about slice and sort *)
(* ================================================================== *)

Lemma slice_from_offset {A} (l : list A) (offset limit : nat) :
  Js.slice l (Z.of_nat offset) (Z.of_nat offset + Z.of_nat limit)
  = firstn limit (skipn offset l).
Proof.
  unfold Js.slice, Js.clamp_index.
  destruct (Z.ltb_spec (Z.of_nat offset) 0); [lia|].
  destruct (Z.ltb_spec (Z.of_nat offset + Z.of_nat limit) 0); [lia|].
  destruct (Nat.le_gt_cases (List.length l) offset) as [Hlen|Hlen].
  - rewrite (skipn_all2 l) by lia. rewrite !firstn_nil.
    rewrite skipn_all2 by lia. now rewrite firstn_nil.
  - replace (Z.to_nat (Z.min (Z.of_nat offset) (Z.of_nat (List.length l))))
      with offset by lia.
    destruct (Nat.le_gt_cases (offset + limit) (List.length l)) as [Hfit|Hfit].
    + f_equal. lia.
    + rewrite (firstn_all2 (n := limit)) by (rewrite length_skipn; lia).
      apply firstn_all2. rewrite length_skipn. lia.
Qed.

Lemma slice_prefix {A} (l : list A) (limit : nat) :
  Js.slice l 0 (Z.of_nat limit) = firstn limit l.
Proof. apply (slice_from_offset l 0 limit). Qed.

Lemma slice_length_le {A} (l : list A) (start stop : Z) :
  0 <= start -> start <= stop ->
  Z.of_nat (List.length (Js.slice l start stop)) <= stop - start.
Proof.
  intros H0 Hle. unfold Js.slice, Js.clamp_index.
  destruct (Z.ltb_spec start 0); [lia|].
  destruct (Z.ltb_spec stop 0); [lia|].
  rewrite length_firstn. lia.
Qed.


Section SortFacts.
Context {A : Type} (key : A -> Z).

Lemma insert_desc_perm x l : Permutation (Js.insert_desc key x l) (x :: l).
Proof.
  induction l as [|y l IH]; simpl; [reflexivity|].
  destruct (key x <? key y); [|reflexivity].
  rewrite IH. apply perm_swap.
Qed.

Lemma sort_desc_perm l : Permutation (Js.sort_desc key l) l.
Proof.
  induction l as [|x l IH]; simpl; [reflexivity|].
  rewrite insert_desc_perm. now constructor.
Qed.

Lemma sort_desc_length l : List.length (Js.sort_desc key l) = List.length l.
Proof. apply Permutation_length, sort_desc_perm. Qed.

Lemma sort_desc_In x l : In x (Js.sort_desc key l) <-> In x l.
Proof.
  split; apply Permutation_in;
    [apply sort_desc_perm | symmetry; apply sort_desc_perm].
Qed.

Lemma insert_desc_sorted x l :
  StronglySorted (Js.desc key) l -> StronglySorted (Js.desc key) (Js.insert_desc key x l).
Proof.
  induction 1 as [|y l Hs IH Hall]; simpl.
  - repeat constructor.
  - destruct (Z.ltb_spec (key x) (key y)).
    + constructor; [assumption|].
      apply List.Forall_forall. intros z Hz.
      apply (Permutation_in _ (insert_desc_perm x l)) in Hz.
      destruct Hz as [<-|Hz]; [unfold Js.desc; lia|].
      rewrite List.Forall_forall in Hall. now apply Hall.
    + constructor; [now constructor|].
      constructor; [assumption|].
      rewrite List.Forall_forall in *. intros z Hz.
      specialize (Hall z Hz). unfold Js.desc in *. lia.
Qed.

Lemma sort_desc_sorted l : StronglySorted (Js.desc key) (Js.sort_desc key l).
Proof.
  induction l as [|x l IH]; simpl; [constructor|].
  now apply insert_desc_sorted.
Qed.

(** Stability: the elements of one key keep their order. *)
Lemma insert_desc_stable k x l :
  List.filter (fun a => key a =? k) (Js.insert_desc key x l)
  = List.filter (fun a => key a =? k) (x :: l).
Proof.
  induction l as [|y l IH]; [reflexivity|].
  cbn [Js.insert_desc].
  destruct (Z.ltb_spec (key x) (key y)); [|reflexivity].
  cbn [List.filter] in *. rewrite IH.
  destruct (Z.eqb_spec (key x) k), (Z.eqb_spec (key y) k);
    try reflexivity; lia.
Qed.

Lemma sort_desc_stable k l :
  List.filter (fun a => key a =? k) (Js.sort_desc key l)
  = List.filter (fun a => key a =? k) l.
Proof.
  induction l as [|x l IH]; [reflexivity|].
  cbn [Js.sort_desc]. rewrite insert_desc_stable.
  cbn [List.filter]. now rewrite IH.
Qed.

(** A list already in descending order is left as it is. *)
Lemma sort_desc_sorted_id l :
  StronglySorted (Js.desc key) l -> Js.sort_desc key l = l.
Proof.
  induction 1 as [|x l Hs IH Hall]; simpl; [reflexivity|].
  rewrite IH. destruct l as [|y l]; [reflexivity|]. simpl.
  apply Forall_inv in Hall. unfold Js.desc in Hall.
  destruct (Z.ltb_spec (key x) (key y)); [lia | reflexivity].
Qed.


End SortFacts.

(* ================================================================== *)
(** * The counters of the status *)
(* ================================================================== *)

Section StatusCounters.
Context {zone : TimeZone} {order : Sql.RowOrder}.

Lemma gmap_alter_size {K} `{Countable K} {V} (f : V -> V) (k : K) (m : gmap K V) :
  size (alter f k m) = size m.
Proof.
  rewrite <- (size_dom (D := gset K) (alter f k m)).
  rewrite dom_alter_L. apply size_dom.
Qed.

Lemma mem_step_counts_live (s : MemStorage.t) (op : Workload.Op) :
  Workload.mem_counts_live s -> Workload.mem_counts_live (Workload.step s op).
Proof.
  unfold Workload.mem_counts_live. intros (Hs & Hc & Hm).
  destruct op; simpl; auto.
Qed.

Lemma db_step_counts_live (db : DatabaseStorage.t) (op : Workload.Op) :
  Workload.db_counts_live db -> Workload.db_counts_live (Workload.step db op).
Proof.
  unfold Workload.db_counts_live. intros (status & Hrow & Hs & Hc & Hm).
  destruct op as [server|channel|message|now|log|is_online uptime_started];
    simpl.
  - unfold DatabaseStorage.createServer, DatabaseStorage.getServer.
    destruct (DatabaseStorage.discordServers db !! DiscordServer.id server) eqn:E;
      simpl.
    + exists status. unfold Sql.count in *. rewrite gmap_alter_size. auto.
    + rewrite Hrow. simpl. eexists. split; [reflexivity|]. simpl. auto.
  - unfold DatabaseStorage.createChannel, DatabaseStorage.getChannel.
    destruct (DatabaseStorage.discordChannels db !! DiscordChannel.id channel) eqn:E;
      simpl.
    + exists status. unfold Sql.count in *. rewrite gmap_alter_size. auto.
    + rewrite Hrow. simpl. eexists. split; [reflexivity|]. simpl. auto.
  - unfold DatabaseStorage.createMessage, DatabaseStorage.getMessage.
    destruct (DatabaseStorage.discordMessages db !! DiscordMessage.id message) eqn:E;
      simpl.
    + exists status. auto.
    + rewrite Hrow. simpl. eexists. split; [reflexivity|]. simpl. auto.
  - rewrite Hrow. simpl. eexists. split; [reflexivity|]. simpl. auto.
  - exists status. auto.
  - unfold DatabaseStorage.update_status. rewrite Hrow. simpl.
    eexists. split; [reflexivity|]. simpl. auto.
Qed.

(** C2. From the state either storage starts in, after every sequence of
    createServer, createChannel, createMessage and deleteOldMessages
    calls (and of the createCommandLog and online-status calls between
    them), servers_count, channels_count and messages_count of the status
    equal the sizes of the three collections. *)
Theorem C2_counts_equal_cardinalities (ops : list Workload.Op) :
  Workload.mem_counts_live (Workload.run ops MemStorage.constructor)
  /\ Workload.db_counts_live (Workload.run ops DatabaseStorage.constructor).
Proof.
  split.
  - assert (Hinit : Workload.mem_counts_live MemStorage.constructor)
      by (repeat split).
    revert Hinit. unfold Workload.run.
    generalize MemStorage.constructor as s.
    induction ops as [|op ops IH]; intros s Hs; simpl; [assumption|].
    apply IH. now apply mem_step_counts_live.
  - assert (Hinit : Workload.db_counts_live DatabaseStorage.constructor)
      by (eexists; repeat split).
    revert Hinit. unfold Workload.run.
    generalize DatabaseStorage.constructor as db.
    induction ops as [|op ops IH]; intros db Hdb; simpl; [assumption|].
    apply IH. now apply db_step_counts_live.
Qed.

End StatusCounters.

(* ================================================================== *)
(** * createMessage, createServer, createChannel on a stored id *)
(* ================================================================== *)

Section StoredIds.
Context {zone : TimeZone} {order : Sql.RowOrder}.

(** The database storage returns the stored message and changes nothing. *)
Lemma db_createMessage_existing (message existing : DiscordMessage.t)
  (db : DatabaseStorage.t) :
  DatabaseStorage.getMessage (DiscordMessage.id message) db = Some existing ->
  DatabaseStorage.createMessage message db = (existing, db).
Proof.
  intros Hex. unfold DatabaseStorage.createMessage. now rewrite Hex.
Qed.

(** A new id is inserted by both storages. *)
Lemma db_createMessage_new (message : DiscordMessage.t) (db : DatabaseStorage.t) :
  DatabaseStorage.getMessage (DiscordMessage.id message) db = None ->
  DatabaseStorage.getMessage (DiscordMessage.id message)
    (snd (DatabaseStorage.createMessage message db)) = Some message.
Proof.
  intros Hnew. unfold DatabaseStorage.createMessage. rewrite Hnew.
  unfold DatabaseStorage.getMessage. simpl. apply lookup_insert_eq.
Qed.

(** The memory storage stores what it is given, stored id or not, and
    keeps one entry per id. *)
Lemma mem_createMessage_stores (message : DiscordMessage.t) (s : MemStorage.t) :
  MemStorage.getMessage (DiscordMessage.id message)
    (snd (MemStorage.createMessage message s)) = Some message.
Proof. apply JsMap_get_set_eq. Qed.

Lemma mem_createMessage_wf (message : DiscordMessage.t) (s : MemStorage.t) :
  JsMap.wf (MemStorage.discordMessages s) ->
  JsMap.wf (MemStorage.discordMessages (snd (MemStorage.createMessage message s))).
Proof. apply JsMap_wf_set. Qed.

(** C1. The memory storage does not keep the stored message: after
    createMessage of a message whose id is stored with other content,
    the record under that id carries the new content (the database
    storage returns the stored record unchanged). *)
Theorem C1_mem_createMessage_overwrites :
  let original := Sample.message "1" "original" 1000 in
  let replay := Sample.message "1" "tampered" 1000 in
  let s1 := snd (MemStorage.createMessage original MemStorage.constructor) in
  let '(returned, s2) := MemStorage.createMessage replay s1 in
  MemStorage.getMessage "1" s1 = Some original
  /\ returned = replay
  /\ MemStorage.getMessage "1" s2 = Some replay
  /\ DiscordMessage.content replay <> DiscordMessage.content original
  /\ List.length (MemStorage.discordMessages s2) = 1%nat
  /\ DatabaseStorage.createMessage replay (Sample.db_with [original])
     = (original, Sample.db_with [original]).
Proof.
  cbv zeta. vm_compute. repeat split; congruence.
Qed.

(** On a stored id the database storage changes name and icon only. *)
Lemma db_createServer_existing (server existing : DiscordServer.t)
  (db : DatabaseStorage.t) :
  DatabaseStorage.getServer (DiscordServer.id server) db = Some existing ->
  let '(row, db') := DatabaseStorage.createServer server db in
  DatabaseStorage.getServer (DiscordServer.id server) db' = Some row
  /\ DiscordServer.id row = DiscordServer.id existing
  /\ DiscordServer.joined_at row = DiscordServer.joined_at existing
  /\ DiscordServer.name row = DiscordServer.name server
  /\ DiscordServer.icon row = DiscordServer.icon server
  /\ (forall id, id <> DiscordServer.id server ->
        DatabaseStorage.getServer id db' = DatabaseStorage.getServer id db)
  /\ DatabaseStorage.botStatus db' = DatabaseStorage.botStatus db.
Proof.
  intros Hex. unfold DatabaseStorage.createServer. rewrite Hex.
  unfold DatabaseStorage.getServer in *. simpl.
  rewrite lookup_alter_eq, Hex. simpl. repeat split.
  intros id Hne. now rewrite lookup_alter_ne.
Qed.

(** On a stored id the database storage changes name and type only. *)
Lemma db_createChannel_existing (channel existing : DiscordChannel.t)
  (db : DatabaseStorage.t) :
  DatabaseStorage.getChannel (DiscordChannel.id channel) db = Some existing ->
  let '(row, db') := DatabaseStorage.createChannel channel db in
  DatabaseStorage.getChannel (DiscordChannel.id channel) db' = Some row
  /\ DiscordChannel.id row = DiscordChannel.id existing
  /\ DiscordChannel.server_id row = DiscordChannel.server_id existing
  /\ DiscordChannel.name row = DiscordChannel.name channel
  /\ DiscordChannel.type row = DiscordChannel.type channel
  /\ (forall id, id <> DiscordChannel.id channel ->
        DatabaseStorage.getChannel id db' = DatabaseStorage.getChannel id db)
  /\ DatabaseStorage.botStatus db' = DatabaseStorage.botStatus db.
Proof.
  intros Hex. unfold DatabaseStorage.createChannel. rewrite Hex.
  unfold DatabaseStorage.getChannel in *. simpl.
  rewrite lookup_alter_eq, Hex. simpl. repeat split.
  intros id Hne. now rewrite lookup_alter_ne.
Qed.

(** C6. The memory storage replaces the whole record of a stored id:
    createServer overwrites joined_at and createChannel overwrites
    server_id (the database storage keeps both). *)
Theorem C6_mem_upsert_replaces_record :
  let first := Sample.server "guild" 1000 in
  let again := Sample.server "guild renamed" 9000 in
  let s1 := snd (MemStorage.createServer first MemStorage.constructor) in
  let s2 := snd (MemStorage.createServer again s1) in
  let c_first := Sample.channel "S1" "general" in
  let c_again := Sample.channel "S2" "general" in
  let t1 := snd (MemStorage.createChannel c_first MemStorage.constructor) in
  let t2 := snd (MemStorage.createChannel c_again t1) in
  let d1 := snd (DatabaseStorage.createServer first DatabaseStorage.constructor) in
  let d2 := snd (DatabaseStorage.createServer again d1) in
  option_map DiscordServer.joined_at (MemStorage.getServer "S1" s1) = Some 1000
  /\ option_map DiscordServer.joined_at (MemStorage.getServer "S1" s2) = Some 9000
  /\ option_map DiscordChannel.server_id (MemStorage.getChannel "7" t1) = Some "S1"
  /\ option_map DiscordChannel.server_id (MemStorage.getChannel "7" t2) = Some "S2"
  /\ option_map DiscordServer.joined_at (DatabaseStorage.getServer "S1" d2)
     = Some 1000.
Proof.
  cbv zeta. vm_compute. repeat split.
Qed.

End StoredIds.

(* ================================================================== *)
(** * Command logs *)
(* ================================================================== *)

Section CommandLogs.
Context {zone : TimeZone} {order : Sql.RowOrder}.

(** The memory storage numbers the logs upwards and keeps 1000 at most. *)
Lemma mem_createCommandLog_id (log : InsertCommandLog.t) (s : MemStorage.t) :
  let '(newLog, s') := MemStorage.createCommandLog log s in
  CommandLog.id newLog = MemStorage.commandLogCurrentId s
  /\ MemStorage.commandLogCurrentId s' = MemStorage.commandLogCurrentId s + 1.
Proof. now unfold MemStorage.createCommandLog. Qed.

Lemma mem_createCommandLog_cap (log : InsertCommandLog.t) (s : MemStorage.t) :
  (List.length (MemStorage.commandLogs
                  (snd (MemStorage.createCommandLog log s))) <= 1000)%nat.
Proof.
  unfold MemStorage.createCommandLog. cbn [snd MemStorage.commandLogs].
  destruct (Z.ltb_spec 1000
              (Z.of_nat (List.length
                 (MemStorage.commandLogs s
                  ++ [CommandLog.of_insert log (MemStorage.commandLogCurrentId s)]))))
    as [Hover|Hfits].
  - pose proof (slice_length_le
                  (Js.sort_desc CommandLog.executed_at
                     (MemStorage.commandLogs s
                      ++ [CommandLog.of_insert log
                            (MemStorage.commandLogCurrentId s)])) 0 1000).
    lia.
  - lia.
Qed.

(** What is kept are the logs with the greatest executed_at. *)
Lemma mem_createCommandLog_keeps_newest (log : InsertCommandLog.t)
  (s : MemStorage.t) :
  let logs :=
    MemStorage.commandLogs s
    ++ [CommandLog.of_insert log (MemStorage.commandLogCurrentId s)] in
  let kept := MemStorage.commandLogs (snd (MemStorage.createCommandLog log s)) in
  (1000 < List.length logs)%nat ->
  exists dropped,
    Permutation (kept ++ dropped) logs
    /\ List.length kept = 1000%nat
    /\ forall a b, In a kept -> In b dropped ->
                   CommandLog.executed_at b <= CommandLog.executed_at a.
Proof.
  intros logs kept Hover. subst kept.
  unfold MemStorage.createCommandLog. cbn [snd MemStorage.commandLogs].
  fold logs.
  destruct (Z.ltb_spec 1000 (Z.of_nat (List.length logs))); [|lia].
  rewrite (slice_prefix _ 1000).
  set (sorted := Js.sort_desc CommandLog.executed_at logs).
  exists (skipn 1000 sorted). split; [|split].
  - rewrite firstn_skipn. apply sort_desc_perm.
  - rewrite length_firstn. unfold sorted. rewrite sort_desc_length. lia.
  - intros a b Ha Hb.
    pose proof (sort_desc_sorted CommandLog.executed_at logs) as Hsorted.
    fold sorted in Hsorted.
    rewrite <- (firstn_skipn 1000 sorted) in Hsorted.
    revert Hsorted Ha Hb.
    generalize (firstn 1000 sorted) as front, (skipn 1000 sorted) as back.
    induction front as [|x front IH]; intros back Hsorted Ha Hb; [destruct Ha|].
    simpl in Hsorted. inversion Hsorted as [|? ? Hrest Hall]; subst.
    destruct Ha as [<-|Ha].
    + rewrite List.Forall_forall in Hall. apply (Hall b).
      apply in_or_app. now right.
    + now apply (IH back).
Qed.

(** getCommandLogs of the memory storage: newest first, [limit] at most. *)
Lemma mem_getCommandLogs_sorted (limit : nat) (s : MemStorage.t) :
  let logs := MemStorage.getCommandLogs (Some (Z.of_nat limit)) s in
  StronglySorted (Js.desc CommandLog.executed_at) logs
  /\ (List.length logs <= limit)%nat
  /\ logs = firstn limit (Js.sort_desc CommandLog.executed_at
                            (MemStorage.commandLogs s)).
Proof.
  unfold MemStorage.getCommandLogs. cbn [Js.default_to].
  rewrite slice_prefix. split; [|split].
  - pose proof (sort_desc_sorted CommandLog.executed_at (MemStorage.commandLogs s))
      as Hsorted.
    rewrite <- (firstn_skipn limit) in Hsorted.
    revert Hsorted.
    generalize (firstn limit
                  (Js.sort_desc CommandLog.executed_at (MemStorage.commandLogs s)))
      as front.
    induction front as [|x front IH]; intros Hsorted; [constructor|].
    simpl in Hsorted. inversion Hsorted as [|? ? Hrest Hall]; subst.
    constructor; [now apply IH|].
    apply Forall_app in Hall. tauto.
  - rewrite length_firstn. lia.
  - reflexivity.
Qed.

(** Ties: the memory storage keeps logs of equal executed_at in the
    order of their ids, through the sort, the cut and the next insert. *)
Lemma In_firstn {A} (n : nat) (l : list A) (x : A) :
  In x (firstn n l) -> In x l.
Proof.
  intros Hin. rewrite <- (firstn_skipn n l). apply in_or_app. now left.
Qed.

Lemma StronglySorted_firstn {A} (R : A -> A -> Prop) (n : nat) (l : list A) :
  StronglySorted R l -> StronglySorted R (firstn n l).
Proof.
  revert n. induction l as [|x l IH]; intros n Hs.
  - rewrite firstn_nil. constructor.
  - destruct n as [|n]; [constructor|]. simpl.
    inversion Hs as [|? ? Hrest Hall]; subst.
    constructor; [now apply IH|].
    rewrite List.Forall_forall in *. intros y Hy.
    apply Hall. eapply In_firstn. exact Hy.
Qed.

Lemma filter_firstn_prefix {A} (f : A -> bool) (n : nat) (l : list A) :
  exists m, List.filter f (firstn n l) = firstn m (List.filter f l).
Proof.
  revert n. induction l as [|x l IH]; intros n.
  - exists 0%nat. now rewrite firstn_nil.
  - destruct n as [|n]; [now exists 0%nat|].
    destruct (IH n) as [m Hm]. simpl.
    destruct (f x).
    + exists (S m). simpl. now rewrite Hm.
    + now exists m.
Qed.

Lemma ties_by_id_sort (logs : list CommandLog.t) :
  Spec.ties_by_id logs ->
  Spec.ties_by_id (Js.sort_desc CommandLog.executed_at logs).
Proof.
  intros Hties t.
  rewrite (sort_desc_stable CommandLog.executed_at t logs). apply Hties.
Qed.

Lemma ties_by_id_firstn (n : nat) (logs : list CommandLog.t) :
  Spec.ties_by_id logs -> Spec.ties_by_id (firstn n logs).
Proof.
  intros Hties t.
  destruct (filter_firstn_prefix
              (fun log => CommandLog.executed_at log =? t) n logs) as [m ->].
  rewrite <- List.firstn_map. apply StronglySorted_firstn, Hties.
Qed.

Lemma StronglySorted_snoc (l : list Z) (x : Z) :
  StronglySorted Z.lt l -> (forall y, In y l -> y < x) ->
  StronglySorted Z.lt (l ++ [x]).
Proof.
  induction 1 as [|y l Hs IH Hall]; intros Hbelow; simpl.
  - repeat constructor.
  - constructor.
    + apply IH. intros z Hz. apply Hbelow. now right.
    + apply Forall_app. split; [assumption|].
      constructor; [|constructor]. apply Hbelow. now left.
Qed.

Lemma ties_by_id_push (logs : list CommandLog.t) (log : CommandLog.t) :
  Spec.ties_by_id logs ->
  (forall old, In old logs -> CommandLog.id old < CommandLog.id log) ->
  Spec.ties_by_id (logs ++ [log]).
Proof.
  intros Hties Hbelow t. rewrite List.filter_app. cbn [List.filter].
  destruct (CommandLog.executed_at log =? t).
  - rewrite List.map_app. cbn [List.map]. apply StronglySorted_snoc; [apply Hties|].
    intros y Hy. apply in_map_iff in Hy as (old & <- & Hold).
    apply filter_In in Hold as [Hold _]. now apply Hbelow.
  - rewrite app_nil_r. apply Hties.
Qed.

Lemma mem_createCommandLog_ordered (log : InsertCommandLog.t) (s : MemStorage.t) :
  Spec.mem_logs_ordered s ->
  Spec.mem_logs_ordered (snd (MemStorage.createCommandLog log s)).
Proof.
  intros [Hids Hties]. unfold Spec.mem_logs_ordered, MemStorage.createCommandLog.
  cbn [snd MemStorage.commandLogs MemStorage.commandLogCurrentId].
  set (newLog := CommandLog.of_insert log (MemStorage.commandLogCurrentId s)).
  assert (Hpush : Spec.ties_by_id (MemStorage.commandLogs s ++ [newLog])).
  { apply ties_by_id_push; [assumption|]. intros old Hold. now apply Hids. }
  assert (Hnew : forall entry, In entry (MemStorage.commandLogs s ++ [newLog]) ->
                               CommandLog.id entry < MemStorage.commandLogCurrentId s + 1).
  { intros entry Hin. apply in_app_or in Hin as [Hin|[<-|[]]].
    - specialize (Hids entry Hin). lia.
    - simpl. lia. }
  destruct (1000 <? Z.of_nat (List.length (MemStorage.commandLogs s ++ [newLog]))).
  - rewrite (slice_prefix _ 1000). split.
    + intros entry Hin. apply Hnew.
      apply In_firstn in Hin. now apply sort_desc_In in Hin.
    + now apply ties_by_id_firstn, ties_by_id_sort.
  - split; assumption.
Qed.

Lemma mem_run_logs_ordered (ops : list Workload.Op) :
  Spec.mem_logs_ordered (Workload.run ops MemStorage.constructor).
Proof.
  assert (Hinit : Spec.mem_logs_ordered MemStorage.constructor).
  { split; [intros log []|]. intros t. constructor. }
  revert Hinit. unfold Workload.run. generalize MemStorage.constructor as s.
  induction ops as [|op ops IH]; intros s Hs; simpl; [assumption|].
  apply IH. destruct op; try exact Hs.
  now apply mem_createCommandLog_ordered.
Qed.

(** In what getCommandLogs of the memory storage returns, logs of equal
    executed_at come in the order of their ids. *)
Lemma mem_getCommandLogs_ties (ops : list Workload.Op) (limit : nat) :
  Spec.ties_by_id
    (MemStorage.getCommandLogs (Some (Z.of_nat limit))
       (Workload.run ops MemStorage.constructor)).
Proof.
  unfold MemStorage.getCommandLogs. cbn [Js.default_to].
  rewrite slice_prefix.
  apply ties_by_id_firstn, ties_by_id_sort, mem_run_logs_ordered.
Qed.

(** C7. The database storage keeps every command log: after 1001
    createCommandLog calls the table holds 1001 rows and getCommandLogs
    returns 1001 entries, where the memory storage holds 1000. *)
Theorem C7_db_createCommandLog_never_trims :
  let db := Workload.run (Sample.logs 1001) DatabaseStorage.constructor in
  let s := Workload.run (Sample.logs 1001) MemStorage.constructor in
  Sql.count (DatabaseStorage.commandLogs db) = 1001
  /\ (exists logs, DatabaseStorage.getCommandLogs (Some 2000) db = Ok logs
                   /\ List.length logs = 1001%nat)
  /\ List.length (MemStorage.commandLogs s) = 1000%nat.
Proof.
  cbv zeta. split; [|split].
  - vm_compute. reflexivity.
  - eexists. split.
    + unfold DatabaseStorage.getCommandLogs, Sql.limit_offset.
      cbn [Js.default_to Z.ltb Z.compare]. reflexivity.
    + change (Z.to_nat 0) with 0%nat.
      rewrite length_firstn, drop_0, sort_desc_length.
      rewrite (Permutation_length (Sql.logOrder_perm _ _)).
      vm_compute. reflexivity.
  - vm_compute. reflexivity.
Qed.

End CommandLogs.

(* ================================================================== *)
(** * deleteOldMessages *)
(* ================================================================== *)

Section Retention.
Context {zone : TimeZone} {order : Sql.RowOrder}.

Section JsMapFilter.
Context {V : Type}.

Lemma JsMap_get_filter (f : string * V -> bool) (k : string) (m : JsMap.t V) :
  JsMap.wf m ->
  JsMap.get k (List.filter f m) =
  match JsMap.get k m with
  | Some v => if f (k, v) then Some v else None
  | None => None
  end.
Proof.
  induction m as [|[k' v'] m IH]; intros Hwf; [reflexivity|].
  pose proof Hwf as Hwf'. unfold JsMap.wf, JsMap.keys in Hwf'. simpl in Hwf'.
  apply NoDup_cons in Hwf' as [Hnotin Hwf'].
  specialize (IH Hwf'). simpl.
  destruct (String.eqb_spec k' k) as [->|Hk].
  - destruct (f (k, v')); simpl.
    + now rewrite String.eqb_refl.
    + rewrite IH.
      assert (JsMap.get k m = None) as ->; [|reflexivity].
      apply JsMap_get_None_keys. now rewrite <- list_elem_of_In.
  - destruct (f (k', v')); simpl; [|assumption].
    destruct (String.eqb_spec k' k); [contradiction | assumption].
Qed.
End JsMapFilter.

(** With a steady clock the cutoff is 14 days of 24 hours before now. *)
Lemma twoWeeksAgo_steady (now : Z) :
  Spec.steady_clock now -> twoWeeksAgo now = now - 14 * day_ms.
Proof. unfold Spec.steady_clock, twoWeeksAgo. cbv zeta. intros ->. lia. Qed.

(** The entries the memory storage keeps are those that are not older
    than the cutoff. *)
Lemma mem_deleteOldMessages_messages (now : Z) (s : MemStorage.t) :
  JsMap.wf (MemStorage.discordMessages s) ->
  MemStorage.discordMessages (snd (MemStorage.deleteOldMessages now s))
  = List.filter (fun e => negb (Spec.older (twoWeeksAgo now) (snd e)))
      (MemStorage.discordMessages s).
Proof.
  intros Hwf. unfold MemStorage.deleteOldMessages.
  cbn [snd MemStorage.set_messages MemStorage.discordMessages].
  rewrite JsMap_delete_all by assumption.
  apply filter_ext_in. intros [k msg] Hin. cbn [fst snd]. f_equal.
  unfold MemStorage.messagesToDelete, Spec.older.
  generalize (twoWeeksAgo now) as cutoff. intros cutoff.
  destruct (DiscordMessage.created_at msg <? cutoff) eqn:Hold.
  - apply existsb_exists. exists k. split; [|apply String.eqb_refl].
    change k with (fst (k, msg)). apply in_map.
    apply filter_In. split; [assumption|]. exact Hold.
  - apply not_true_is_false. intros Hex.
    apply existsb_exists in Hex as (k' & Hin' & Heq).
    apply String.eqb_eq in Heq. subst k'.
    apply in_map_iff in Hin' as ([k' msg'] & Hk & Hin'). simpl in Hk. subst k'.
    apply filter_In in Hin' as [Hin' Hold'].
    apply (JsMap_get_In _ _ _ Hwf) in Hin, Hin'.
    rewrite Hin in Hin'. injection Hin' as <-. congruence.
Qed.

Lemma filter_length_Z {A} (f : A -> bool) (l : list A) :
  Z.of_nat (List.length (List.filter (fun x => negb (f x)) l))
  = Z.of_nat (List.length l) - Z.of_nat (List.length (List.filter f l)).
Proof. pose proof (filter_length f l). lia. Qed.

Lemma filter_map_snd {K V} (f : V -> bool) (l : list (K * V)) :
  List.filter f (List.map snd l)
  = List.map snd (List.filter (fun e => f (snd e)) l).
Proof.
  induction l as [|e l IH]; simpl; [reflexivity|].
  destruct (f (snd e)); simpl; now rewrite IH.
Qed.

(** The size of a filtered table, counted on its rows. *)
Lemma gmap_filter_size {K} `{Countable K} {V} (f : V -> bool) (m : gmap K V) :
  size (filter (fun kv => f kv.2 = true) m)
  = List.length (List.filter f (Sql.rows m)).
Proof.
  rewrite map_filter_alt.
  rewrite map_size_list_to_map.
  - unfold Sql.rows. generalize (map_to_list m) as l.
    induction l as [|e l IH]; [reflexivity|].
    rewrite filter_cons. simpl. destruct (decide (f e.2 = true)) as [Ht|Hf].
    + rewrite Ht. simpl. now rewrite IH.
    + apply not_true_is_false in Hf. now rewrite Hf.
  - pose proof (NoDup_fst_map_to_list m) as Hnd. revert Hnd.
    generalize (map_to_list m) as l.
    induction l as [|e l IH]; intros Hnd; [constructor|].
    rewrite fmap_cons in Hnd. apply NoDup_cons in Hnd as [Hnotin Hnd].
    rewrite filter_cons. destruct (decide (f e.2 = true)); [|now apply IH].
    rewrite fmap_cons. apply NoDup_cons. split; [|now apply IH].
    intros Hin. apply Hnotin.
    apply list_elem_of_fmap in Hin as (x & -> & Hin).
    apply list_elem_of_fmap. exists x. split; [reflexivity|].
    now apply list_elem_of_filter in Hin as [_ Hin].
Qed.

Lemma gmap_filter_complement_size {K} `{Countable K} {V}
  (P : K * V -> Prop) `{!forall x, Decision (P x)} (m : gmap K V) :
  (size (filter P m) + size (filter (fun kv => ~ P kv) m) = size m)%nat.
Proof.
  rewrite <- map_size_disj_union by apply map_disjoint_filter_complement.
  now rewrite map_filter_union_complement.
Qed.

(** The number returned is the number of stored messages that were
    older than the cutoff. *)
Lemma mem_deleteOldMessages_count (now : Z) (s : MemStorage.t) :
  fst (MemStorage.deleteOldMessages now s)
  = Z.of_nat (List.length
                (List.filter (Spec.older (twoWeeksAgo now))
                   (JsMap.values (MemStorage.discordMessages s)))).
Proof.
  unfold MemStorage.deleteOldMessages. cbn [fst].
  unfold MemStorage.messagesToDelete, JsMap.values.
  rewrite filter_map_snd, !length_map. do 2 f_equal.
  apply filter_ext. now intros [k msg].
Qed.

Lemma db_deleteOldMessages_count (now : Z) (db : DatabaseStorage.t) :
  fst (DatabaseStorage.deleteOldMessages now db)
  = Z.of_nat (List.length
                (List.filter (Spec.older (twoWeeksAgo now))
                   (Sql.rows (DatabaseStorage.discordMessages db)))).
Proof.
  unfold DatabaseStorage.deleteOldMessages. cbn [fst].
  change (DatabaseStorage.is_old (twoWeeksAgo now))
    with (Spec.older (twoWeeksAgo now)).
  f_equal. apply gmap_filter_size.
Qed.

(** After a sweep an id answers the message stored under it unless that
    message was older than the cutoff. *)
Lemma mem_getMessage_after_sweep (now : Z) (s : MemStorage.t) (id : string) :
  JsMap.wf (MemStorage.discordMessages s) ->
  MemStorage.getMessage id (snd (MemStorage.deleteOldMessages now s))
  = Spec.kept (twoWeeksAgo now) (MemStorage.getMessage id s).
Proof.
  intros Hwf. unfold MemStorage.getMessage.
  rewrite mem_deleteOldMessages_messages by assumption.
  rewrite JsMap_get_filter by assumption. unfold Spec.kept.
  destruct (JsMap.get id (MemStorage.discordMessages s)) as [msg|];
    [|reflexivity].
  cbn [snd]. now destruct (Spec.older (twoWeeksAgo now) msg).
Qed.

Lemma db_getMessage_after_sweep (now : Z) (db : DatabaseStorage.t) (id : string) :
  DatabaseStorage.getMessage id (snd (DatabaseStorage.deleteOldMessages now db))
  = Spec.kept (twoWeeksAgo now) (DatabaseStorage.getMessage id db).
Proof.
  unfold DatabaseStorage.deleteOldMessages.
  unfold DatabaseStorage.updateMessageCount, DatabaseStorage.update_status,
    DatabaseStorage.set_botStatus, DatabaseStorage.set_messages,
    DatabaseStorage.getMessage.
  cbn [snd DatabaseStorage.discordMessages].
  change (DatabaseStorage.is_old (twoWeeksAgo now))
    with (Spec.older (twoWeeksAgo now)).
  rewrite map_lookup_filter. unfold Spec.kept.
  destruct (DatabaseStorage.discordMessages db !! id) as [msg|]; [|reflexivity].
  simpl. destruct (Spec.older (twoWeeksAgo now) msg).
  - now rewrite option_guard_False by auto.
  - now rewrite option_guard_True by discriminate.
Qed.

(** The collections lose as many messages as the sweep reports. *)
Lemma mem_deleteOldMessages_size (now : Z) (s : MemStorage.t) :
  JsMap.wf (MemStorage.discordMessages s) ->
  JsMap.size (MemStorage.discordMessages
                (snd (MemStorage.deleteOldMessages now s)))
  = JsMap.size (MemStorage.discordMessages s)
    - fst (MemStorage.deleteOldMessages now s).
Proof.
  intros Hwf.
  rewrite mem_deleteOldMessages_count, mem_deleteOldMessages_messages
    by assumption.
  unfold JsMap.size, JsMap.values. rewrite filter_map_snd, length_map.
  apply (filter_length_Z (fun e => Spec.older (twoWeeksAgo now) (snd e))).
Qed.

Lemma db_deleteOldMessages_size (now : Z) (db : DatabaseStorage.t) :
  Sql.count (DatabaseStorage.discordMessages
               (snd (DatabaseStorage.deleteOldMessages now db)))
  = Sql.count (DatabaseStorage.discordMessages db)
    - fst (DatabaseStorage.deleteOldMessages now db).
Proof.
  rewrite db_deleteOldMessages_count.
  unfold DatabaseStorage.deleteOldMessages.
  unfold DatabaseStorage.updateMessageCount, DatabaseStorage.update_status,
    DatabaseStorage.set_botStatus, DatabaseStorage.set_messages.
  cbn [snd DatabaseStorage.discordMessages].
  change (DatabaseStorage.is_old (twoWeeksAgo now))
    with (Spec.older (twoWeeksAgo now)).
  rewrite <- gmap_filter_size. unfold Sql.count.
  pose proof (gmap_filter_complement_size
                (fun kv => Spec.older (twoWeeksAgo now) kv.2 = true)
                (DatabaseStorage.discordMessages db)).
  lia.
Qed.

(** C3 (amended). deleteOldMessages removes the stored messages whose
    created_at is strictly before its cutoff and no other: afterwards
    an id answers the message stored under it if that message is not
    older than the cutoff, and nothing otherwise; the number returned
    is the number of stored messages that were older, which is the
    number the collection lost.  The cutoff is the instant at which the
    clock of the process showed the same time 14 calendar days before.
    Where no clock change lies in between it is now minus 14 days of 24
    hours, and then a message created 15 days, or 14 days and one
    second, before now is older, and one created 14 or 13 days before
    now is not. *)
Theorem C3_deleteOldMessages_calendar (now : Z) (s : MemStorage.t)
  (db : DatabaseStorage.t) :
  JsMap.wf (MemStorage.discordMessages s) ->
  (let '(deleted, s') := MemStorage.deleteOldMessages now s in
   (forall id, MemStorage.getMessage id s'
               = Spec.kept (twoWeeksAgo now) (MemStorage.getMessage id s))
   /\ deleted = Z.of_nat (List.length
                  (List.filter (Spec.older (twoWeeksAgo now))
                     (JsMap.values (MemStorage.discordMessages s))))
   /\ JsMap.size (MemStorage.discordMessages s')
      = JsMap.size (MemStorage.discordMessages s) - deleted)
  /\ (let '(deleted, db') := DatabaseStorage.deleteOldMessages now db in
      (forall id, DatabaseStorage.getMessage id db'
                  = Spec.kept (twoWeeksAgo now)
                      (DatabaseStorage.getMessage id db))
      /\ deleted = Z.of_nat (List.length
                     (List.filter (Spec.older (twoWeeksAgo now))
                        (Sql.rows (DatabaseStorage.discordMessages db))))
      /\ Sql.count (DatabaseStorage.discordMessages db')
         = Sql.count (DatabaseStorage.discordMessages db) - deleted)
  /\ twoWeeksAgo now + offsetOfLocal (now + offsetAt now - 14 * day_ms)
     = now + offsetAt now - 14 * day_ms
  /\ (Spec.steady_clock now ->
      twoWeeksAgo now = now - 14 * day_ms
      /\ forall msg,
           Spec.older (twoWeeksAgo now) msg = Spec.expired now msg
           /\ (DiscordMessage.created_at msg = now - 15 * day_ms ->
               Spec.older (twoWeeksAgo now) msg = true)
           /\ (DiscordMessage.created_at msg = now - 14 * day_ms - 1000 ->
               Spec.older (twoWeeksAgo now) msg = true)
           /\ (DiscordMessage.created_at msg = now - 14 * day_ms ->
               Spec.older (twoWeeksAgo now) msg = false)
           /\ (DiscordMessage.created_at msg = now - 13 * day_ms ->
               Spec.older (twoWeeksAgo now) msg = false)).
Proof.
  intros Hwf. split; [|split; [|split]].
  - pose proof (fun id => mem_getMessage_after_sweep now s id Hwf) as Hget.
    pose proof (mem_deleteOldMessages_count now s) as Hcount.
    pose proof (mem_deleteOldMessages_size now s Hwf) as Hsize.
    destruct (MemStorage.deleteOldMessages now s) as [deleted s'].
    cbn [fst snd] in *. now split; [|split].
  - pose proof (db_getMessage_after_sweep now db) as Hget.
    pose proof (db_deleteOldMessages_count now db) as Hcount.
    pose proof (db_deleteOldMessages_size now db) as Hsize.
    destruct (DatabaseStorage.deleteOldMessages now db) as [deleted db'].
    cbn [fst snd] in *. now split; [|split].
  - unfold twoWeeksAgo. cbv zeta. lia.
  - intros Hsteady. apply twoWeeksAgo_steady in Hsteady.
    split; [exact Hsteady|]. rewrite Hsteady. intros msg.
    unfold Spec.older, Spec.expired, day_ms.
    split; [reflexivity|]. repeat split; intros ->; lia.
Qed.

End Retention.

(** The three messages of the retention scenario, swept at day 20 by a
    process whose clock is UTC. *)
Example retention_scenario :
  fst (MemStorage.deleteOldMessages (zone := Sample.utc) Sample.sweep_time
         (Sample.mem_with Sample.retention_messages)) = 2
  /\ fst (DatabaseStorage.deleteOldMessages (zone := Sample.utc)
            Sample.sweep_time
            (Sample.db_with Sample.retention_messages)) = 2
  /\ List.map DiscordMessage.id
       (fst (MemStorage.getMessages MessageQuery.empty
          (snd (MemStorage.deleteOldMessages (zone := Sample.utc)
                  Sample.sweep_time
                  (Sample.mem_with Sample.retention_messages))))) = ["3"]
  /\ List.map DiscordMessage.id
       (Sql.rows (DatabaseStorage.discordMessages
          (snd (DatabaseStorage.deleteOldMessages (zone := Sample.utc)
                  Sample.sweep_time
                  (Sample.db_with Sample.retention_messages))))) = ["3"].
Proof. vm_compute. repeat split. Qed.

Lemma C3_deleteOldMessages_calendar_witness :
  JsMap.wf (MemStorage.discordMessages (Sample.mem_with Sample.retention_messages))
  /\ Spec.steady_clock (zone := Sample.utc) Sample.sweep_time
  /\ MemStorage.getMessage "1"
       (snd (MemStorage.deleteOldMessages (zone := Sample.utc)
               Sample.sweep_time
               (Sample.mem_with Sample.retention_messages))) = None
  /\ fst (MemStorage.deleteOldMessages (zone := Sample.utc) Sample.sweep_time
            (Sample.mem_with Sample.retention_messages)) = 2
  /\ twoWeeksAgo (zone := Sample.utc) Sample.sweep_time
     = Sample.sweep_time - 14 * day_ms.
Proof.
  assert (Hwf : JsMap.wf (MemStorage.discordMessages
                            (Sample.mem_with Sample.retention_messages))).
  { apply (bool_decide_unpack _). vm_compute. exact I. }
  assert (Hsteady : Spec.steady_clock (zone := Sample.utc) Sample.sweep_time)
    by reflexivity.
  split; [exact Hwf|]. split; [exact Hsteady|].
  pose proof (C3_deleteOldMessages_calendar (zone := Sample.utc)
                Sample.sweep_time _ DatabaseStorage.constructor Hwf)
    as (Hmem & _ & _ & Hclock).
  destruct (MemStorage.deleteOldMessages _ _) as [deleted s'].
  destruct Hmem as (Hget & Hdel & _). split; [|split].
  - cbn [snd]. rewrite Hget. vm_compute. reflexivity.
  - cbn [fst]. rewrite Hdel. vm_compute. reflexivity.
  - exact (proj1 (Hclock Hsteady)).
Defined.

(** Ten days after the clocks of central Europe went back, a message
    created 14 days and one second before the sweep is older than now
    minus 14 days, yet both storages keep it and report no deletion:
    the cutoff is an hour earlier.  Ten days after the clocks went
    forward, a message created 13 days, 23 hours and 30 minutes before
    the sweep is not older than now minus 14 days, yet both storages
    delete it: the cutoff is an hour later. *)
Lemma C3_counterexample :
  (forall msg, In msg Sample.autumn_messages ->
               Spec.expired Sample.autumn_sweep msg = true)
  /\ Spec.retained Sample.autumn_sweep
       (MemStorage.getMessage "1" (Sample.mem_with Sample.autumn_messages))
     = None
  /\ MemStorage.getMessage "1"
       (snd (MemStorage.deleteOldMessages (zone := Sample.berlin)
               Sample.autumn_sweep
               (Sample.mem_with Sample.autumn_messages)))
     = MemStorage.getMessage "1" (Sample.mem_with Sample.autumn_messages)
  /\ MemStorage.getMessage "1" (Sample.mem_with Sample.autumn_messages)
     <> None
  /\ fst (MemStorage.deleteOldMessages (zone := Sample.berlin)
            Sample.autumn_sweep
            (Sample.mem_with Sample.autumn_messages)) = 0
  /\ DatabaseStorage.getMessage "1"
       (snd (DatabaseStorage.deleteOldMessages (zone := Sample.berlin)
               Sample.autumn_sweep
               (Sample.db_with Sample.autumn_messages)))
     = DatabaseStorage.getMessage "1" (Sample.db_with Sample.autumn_messages)
  /\ DatabaseStorage.getMessage "1" (Sample.db_with Sample.autumn_messages)
     <> None
  /\ fst (DatabaseStorage.deleteOldMessages (zone := Sample.berlin)
            Sample.autumn_sweep
            (Sample.db_with Sample.autumn_messages)) = 0
  /\ twoWeeksAgo (zone := Sample.berlin) Sample.autumn_sweep
     = Sample.autumn_sweep - 14 * day_ms - 3600000
  /\ (forall msg, In msg Sample.spring_messages ->
                  Spec.expired Sample.spring_sweep msg = false)
  /\ MemStorage.getMessage "1" (Sample.mem_with Sample.spring_messages)
     <> None
  /\ MemStorage.getMessage "1"
       (snd (MemStorage.deleteOldMessages (zone := Sample.berlin)
               Sample.spring_sweep
               (Sample.mem_with Sample.spring_messages))) = None
  /\ fst (MemStorage.deleteOldMessages (zone := Sample.berlin)
            Sample.spring_sweep
            (Sample.mem_with Sample.spring_messages)) = 1
  /\ DatabaseStorage.getMessage "1"
       (snd (DatabaseStorage.deleteOldMessages (zone := Sample.berlin)
               Sample.spring_sweep
               (Sample.db_with Sample.spring_messages))) = None
  /\ fst (DatabaseStorage.deleteOldMessages (zone := Sample.berlin)
            Sample.spring_sweep
            (Sample.db_with Sample.spring_messages)) = 1
  /\ twoWeeksAgo (zone := Sample.berlin) Sample.spring_sweep
     = Sample.spring_sweep - 14 * day_ms + 3600000.
Proof.
  split; [intros msg [<-|[]]; reflexivity|].
  do 8 (split; [vm_compute; try reflexivity; discriminate|]).
  split; [intros msg [<-|[]]; reflexivity|].
  vm_compute. repeat split; discriminate.
Qed.

(* ================================================================== *)
(** * getUptime *)
(* ================================================================== *)

Section Uptime.
Context {zone : TimeZone} {order : Sql.RowOrder}.

(** C8, as amended. With a start time recorded, an elapsed time of
    [days] days, [hours] hours (below 24), [minutes] minutes (below 60)
    and less than a minute more is printed with all three units when
    days is positive, with hours and minutes when days is zero and hours
    is positive, and with minutes alone otherwise; the units after the
    first are printed also when they are zero.  With no start time the
    answer is the text for zero minutes. *)
Theorem C8_getUptime_units (start days hours minutes rest : Z)
  (connected ready : bool) :
  0 <= days -> 0 <= hours < 24 -> 0 <= minutes < 60 -> 0 <= rest < 60000 ->
  DiscordBot.getUptime
    (start + (days * day_ms + hours * 3600000 + minutes * 60000 + rest))
    (DiscordBot.mk (Some start) connected ready)
  = (if 0 <? days
     then Js.string_of_Z days +:+ "d " +:+ Js.string_of_Z hours +:+ "h "
          +:+ Js.string_of_Z minutes +:+ "m"
     else if 0 <? hours
     then Js.string_of_Z hours +:+ "h " +:+ Js.string_of_Z minutes +:+ "m"
     else Js.string_of_Z minutes +:+ "m")
  /\ DiscordBot.getUptime
       (start + (days * day_ms + hours * 3600000 + minutes * 60000 + rest))
       (DiscordBot.mk None connected ready) = "0m".
Proof.
  intros Hd Hh Hm Hr. split; [|reflexivity].
  unfold DiscordBot.getUptime, DiscordBot.floor_div, DiscordBot.js_rem.
  cbn [DiscordBot.startTime].
  set (elapsed := days * day_ms + hours * 3600000 + minutes * 60000 + rest).
  replace (start + elapsed - start) with elapsed by lia.
  assert (Hnonneg : 0 <= elapsed) by (unfold elapsed, day_ms; lia).
  rewrite !Z.rem_mod_nonneg by lia.
  assert (Hdays : elapsed / (1000 * 60 * 60 * 24) = days).
  { symmetry.
    apply (Z.div_unique elapsed _ days
             (hours * 3600000 + minutes * 60000 + rest));
      unfold elapsed, day_ms; lia. }
  assert (Hday_rem : elapsed mod (1000 * 60 * 60 * 24)
                     = hours * 3600000 + minutes * 60000 + rest).
  { symmetry.
    apply (Z.mod_unique elapsed _ days); unfold elapsed, day_ms; lia. }
  assert (Hhours : (elapsed mod (1000 * 60 * 60 * 24)) / (1000 * 60 * 60) = hours).
  { rewrite Hday_rem. symmetry.
    apply (Z.div_unique _ _ hours (minutes * 60000 + rest)); lia. }
  assert (Hhour_rem : elapsed mod (1000 * 60 * 60) = minutes * 60000 + rest).
  { symmetry.
    apply (Z.mod_unique elapsed _ (days * 24 + hours));
      unfold elapsed, day_ms; lia. }
  assert (Hminutes : (elapsed mod (1000 * 60 * 60)) / (1000 * 60) = minutes).
  { rewrite Hhour_rem. symmetry.
    apply (Z.div_unique _ _ minutes rest); lia. }
  now rewrite Hdays, Hhours, Hminutes.
Qed.

End Uptime.

Lemma C8_getUptime_units_witness :
  DiscordBot.getUptime Sample.uptime_now Sample.bot = "2d 3h 14m".
Proof.
  pose proof (C8_getUptime_units 0 2 3 14 0 true true) as [Hfmt _];
    [lia | lia | lia | lia |].
  exact Hfmt.
Defined.

(** C8 as stated fails: after two days, three hours and fourteen minutes
    the code prints three units, not the largest two. *)
Lemma C8_counterexample :
  DiscordBot.getUptime Sample.uptime_now Sample.bot = "2d 3h 14m"
  /\ Spec.uptime_two_largest 2 3 14 = "2d 3h"
  /\ DiscordBot.getUptime Sample.uptime_now Sample.bot
     <> Spec.uptime_two_largest 2 3 14.
Proof. vm_compute. repeat split. discriminate. Qed.

(* ================================================================== *)
(** * Printing and parsing integers *)
(* ================================================================== *)












(* ================================================================== *)
(** * The clear command *)
(* ================================================================== *)

Section ClearCommand.
Context {zone : TimeZone} {order : Sql.RowOrder}.





End ClearCommand.


(** What the reply names for some arguments. *)
Example clear_days_scenario :
  Utils.clearDays ["7"] = 7
  /\ Utils.clearDays ["7.9"] = 7
  /\ Utils.clearDays ["0x1F"] = 31
  /\ Utils.clearDays [" -3 days"] = -3
  /\ Utils.clearDays ["week"] = 14
  /\ Utils.clearDays [] = 14.
Proof. vm_compute. repeat split. Qed.


(* ================================================================== *)
(** * The messages command *)
(* ================================================================== *)

Section MessagesCommand.
Context {zone : TimeZone} {order : Sql.RowOrder}.

Lemma append_cons (x : ascii) (a b : string) :
  String x a +:+ b = String x (a +:+ b).
Proof. reflexivity. Qed.

Lemma append_assoc (a b c : string) : (a +:+ b) +:+ c = a +:+ b +:+ c.
Proof.
  induction a as [|x a IH]; [reflexivity|].
  rewrite !append_cons. now f_equal.
Qed.

Lemma append_empty_r (a : string) : a +:+ EmptyString = a.
Proof.
  induction a as [|x a IH]; [reflexivity|].
  rewrite append_cons. now f_equal.
Qed.

Lemma substring_all (n : nat) (s : string) :
  (String.length s <= n)%nat -> String.substring 0 n s = s.
Proof.
  revert n. induction s as [|c s IH]; intros n Hn.
  - now destruct n.
  - destruct n as [|n]; simpl in *; [lia|]. rewrite IH; [reflexivity | lia].
Qed.

Lemma substring_length (n : nat) (s : string) :
  (n <= String.length s)%nat -> String.length (String.substring 0 n s) = n.
Proof.
  revert n. induction s as [|c s IH]; intros n Hn.
  - destruct n; simpl in *; [reflexivity | lia].
  - destruct n as [|n]; simpl in *; [reflexivity|]. rewrite IH; lia.
Qed.

(** The line the code prints is the line of the specification. *)
Lemma formatMessage_line (formatDate : Z -> string) (msg : DiscordMessage.t) :
  Utils.formatMessage formatDate msg = Spec.message_line formatDate msg.
Proof.
  unfold Utils.formatMessage, Spec.message_line. do 5 f_equal.
  destruct (Nat.ltb_spec 100 (String.length (DiscordMessage.content msg)));
    destruct (Nat.leb_spec (String.length (DiscordMessage.content msg)) 100);
    try lia; [reflexivity|].
  rewrite substring_all by assumption. apply append_empty_r.
Qed.

Lemma messagesArgs_limit_le (args : list string) :
  snd (Utils.messagesArgs args) <= 20.
Proof.
  destruct args as [|arg0 [|arg1 rest]]; simpl; try lia.
  destruct (Js.parseInt arg1); simpl; lia.
Qed.

Section MessagesReply.
Variable formatDate : Z -> string.
Context {St : Type} `{IStorage St}.

(** The reply is built from what getMessages answers to the query of
    the arguments. *)
Lemma formatMessagesCommand_reply (args : list string) (storage : St)
  (messages : list DiscordMessage.t) (total : Z) :
  getMessages
    (Spec.messages_query (fst (Utils.messagesArgs args))
       (snd (Utils.messagesArgs args))) storage = Ok (messages, total) ->
  exists header,
    Utils.formatMessagesCommand formatDate args storage
    = Ok (Spec.messages_reply formatDate header messages).
Proof.
  intros Hget. unfold Utils.formatMessagesCommand.
  destruct (Utils.messagesArgs args) as [channelId limit].
  cbn [fst snd] in Hget. unfold Spec.messages_query in Hget. rewrite Hget.
  destruct messages as [|msg messages].
  - exists EmptyString. reflexivity.
  - eexists. unfold Spec.messages_reply.
    rewrite (map_ext _ _ (formatMessage_line formatDate)).
    rewrite <- !append_assoc. reflexivity.
Qed.
End MessagesReply.

(** The messages command asks getMessages for 5 messages when it has no
    second argument, and for the smaller of 20 and n when its second
    argument reads as the integer n, so never for more than 20 (20 for
    "50"); a limit that is not negative bounds the number of messages
    in the reply.  The reply has one line per message found: author,
    date, and the content, cut after 100 characters and followed by
    "..." when it is longer. *)
Lemma messages_limit_and_lines (formatDate : Z -> string)
  (args : list string) (s : MemStorage.t) (db : DatabaseStorage.t) :
  let channelId := fst (Utils.messagesArgs args) in
  let limit := snd (Utils.messagesArgs args) in
  ((List.length args <= 1)%nat -> limit = 5)
  /\ (forall n, option_map Js.parseInt (nth_error args 1) = Some (Some n) ->
                limit = Z.min 20 n)
  /\ limit <= 20
  /\ (forall arg0, snd (Utils.messagesArgs [arg0; "50"]) = 20)
  /\ (exists header messages total,
        MemStorage.getMessages (Spec.messages_query channelId limit) s
        = (messages, total)
        /\ (0 <= limit -> (List.length messages <= Z.to_nat limit)%nat)
        /\ Utils.formatMessagesCommand formatDate args s
           = Ok (Spec.messages_reply formatDate header messages))
  /\ (exists header messages total,
        DatabaseStorage.getMessages (Spec.messages_query channelId limit) db
        = Ok (messages, total)
        /\ (0 <= limit -> (List.length messages <= Z.to_nat limit)%nat)
        /\ Utils.formatMessagesCommand formatDate args db
           = Ok (Spec.messages_reply formatDate header messages))
  /\ (forall msg,
        (String.length (DiscordMessage.content msg) <= 100)%nat ->
        Spec.message_line formatDate msg
        = "**" +:+ DiscordMessage.author_username msg +:+ "** ("
          +:+ formatDate (DiscordMessage.created_at msg) +:+ "): "
          +:+ DiscordMessage.content msg)
  /\ (forall msg,
        (100 < String.length (DiscordMessage.content msg))%nat ->
        Spec.message_line formatDate msg
        = "**" +:+ DiscordMessage.author_username msg +:+ "** ("
          +:+ formatDate (DiscordMessage.created_at msg) +:+ "): "
          +:+ String.substring 0 100 (DiscordMessage.content msg) +:+ "..."
        /\ String.length (String.substring 0 100 (DiscordMessage.content msg))
           = 100%nat).
Proof.
  cbv zeta. repeat split.
  - destruct args as [|arg0 [|arg1 rest]]; simpl; intros; try reflexivity; lia.
  - intros n Hn. destruct args as [|arg0 [|arg1 rest]]; try discriminate.
    simpl in Hn. injection Hn as Hn. simpl. now rewrite Hn.
  - apply messagesArgs_limit_le.
  - destruct (MemStorage.getMessages
                (Spec.messages_query (fst (Utils.messagesArgs args))
                   (snd (Utils.messagesArgs args))) s)
      as [messages total] eqn:Hget.
    destruct (formatMessagesCommand_reply formatDate args s messages total)
      as [header Hreply]; [simpl; now rewrite Hget|].
    exists header, messages, total. repeat split; [|exact Hreply].
    intros Hlimit.
    unfold MemStorage.getMessages in Hget. injection Hget as <- _.
    cbn [Spec.messages_query MessageQuery.limit MessageQuery.offset
         Js.default_to].
    match goal with
    | |- (List.length (Js.slice ?l 0 ?stop) <= _)%nat =>
        pose proof (slice_length_le l 0 stop)
    end.
    lia.
  - destruct (DatabaseStorage.getMessages
                (Spec.messages_query (fst (Utils.messagesArgs args))
                   (snd (Utils.messagesArgs args))) db)
      as [[messages total]|e] eqn:Hget.
    + destruct (formatMessagesCommand_reply formatDate args db messages total)
        as [header Hreply]; [exact Hget|].
      exists header, messages, total. repeat split; [|exact Hreply].
      intros Hlimit.
      unfold DatabaseStorage.getMessages, Sql.limit_offset in Hget.
      cbn [Spec.messages_query MessageQuery.limit MessageQuery.offset
           Js.default_to] in Hget.
      destruct (Z.ltb_spec (snd (Utils.messagesArgs args)) 0); [lia|].
      cbn [Z.ltb Z.compare] in Hget. injection Hget as <- _.
      rewrite length_firstn. lia.
    + exfalso.
      unfold DatabaseStorage.getMessages, Sql.limit_offset in Hget.
      cbn [Spec.messages_query MessageQuery.limit MessageQuery.offset
           Js.default_to Z.ltb Z.compare] in Hget.
      discriminate.
  - intros msg Hshort. unfold Spec.message_line.
    now destruct (Nat.leb_spec (String.length (DiscordMessage.content msg)) 100);
      [|lia].
  - unfold Spec.message_line.
    now destruct (Nat.leb_spec (String.length (DiscordMessage.content msg)) 100);
      [lia|].
  - apply substring_length. lia.
Qed.

End MessagesCommand.

(** C10. "Max 20 messages at once", the code says of the count, and so
    the claim; but the code takes the smaller of 20 and the count, and
    a negative count is passed on as it is.  With 30 messages stored in
    channel 7, "!messages <#7> -5" asks getMessages for -5 messages.
    The memory storage then cuts five messages off the end of the
    selection, and the reply shows 25 of 30; the database storage,
    whose statement leaves a negative limit out, answers all 30, and
    the reply shows them. *)
Theorem C10_negative_count_exceeds_20 :
  Utils.messagesArgs ["<#7>"; "-5"] = (Some "7", -5)
  /\ (exists messages,
        MemStorage.getMessages (Spec.messages_query (Some "7") (-5))
          (Sample.mem_with (Sample.numbered 30)) = (messages, 30)
        /\ List.length messages = 25%nat
        /\ Utils.formatMessagesCommand (H := Sample.memStorage)
             Sample.formatDate ["<#7>"; "-5"]
             (Sample.mem_with (Sample.numbered 30))
           = Ok (Spec.messages_reply Sample.formatDate
                   ("**Recent Messages from all channels** "
                    +:+ "(Showing 25 of 30 messages):")
                   messages))
  /\ (exists messages,
        DatabaseStorage.getMessages (order := Sample.scanOrder)
          (Spec.messages_query (Some "7") (-5))
          (Sample.db_with (Sample.numbered 30)) = Ok (messages, 30)
        /\ List.length messages = 30%nat
        /\ Utils.formatMessagesCommand (H := Sample.dbStorage)
             Sample.formatDate ["<#7>"; "-5"]
             (Sample.db_with (Sample.numbered 30))
           = Ok (Spec.messages_reply Sample.formatDate
                   ("**Recent Messages from all channels** "
                    +:+ "(Showing 30 of 30 messages):")
                   messages)).
Proof.
  split; [reflexivity|]. split.
  - eexists. split; [vm_compute; reflexivity|].
    split; vm_compute; reflexivity.
  - eexists. split; [vm_compute; reflexivity|].
    split; vm_compute; reflexivity.
Qed.

(* ================================================================== *)
(** * getMessages *)
(* ================================================================== *)

Section GetMessages.
Context {zone : TimeZone} {order : Sql.RowOrder}.

Lemma prefix_app (p s : string) :
  String.prefix p s = true <-> exists rest, s = p +:+ rest.
Proof.
  revert s. induction p as [|c p IH]; intros s.
  - split; [intros _; now exists s | now destruct s].
  - destruct s as [|x s]; simpl.
    + split; [discriminate | intros [rest Hrest]; discriminate].
    + destruct (ascii_dec c x) as [->|Hne].
      * rewrite IH. split; intros [rest Hrest]; exists rest.
        -- rewrite append_cons. congruence.
        -- rewrite append_cons in Hrest. congruence.
      * split; [discriminate|]. intros [rest Hrest].
        rewrite append_cons in Hrest. congruence.
Qed.

(** [includes] is the test for a substring. *)
Lemma includes_substring (s sub : string) :
  Js.includes s sub = true <-> exists before after, s = before +:+ sub +:+ after.
Proof.
  induction s as [|c s IH].
  - cbn [Js.includes]. rewrite orb_false_r, prefix_app. split.
    + intros [rest Hrest]. now exists EmptyString, rest.
    + intros ([|x before] & after & Heq); [now exists after | discriminate].
  - cbn [Js.includes]. rewrite orb_true_iff, prefix_app, IH. split.
    + intros [[rest Hrest]|(before & after & Heq)].
      * now exists EmptyString, rest.
      * exists (String c before), after. rewrite append_cons. now rewrite Heq.
    + intros ([|x before] & after & Heq).
      * left. now exists after.
      * right. exists before, after. rewrite append_cons in Heq. congruence.
Qed.

Lemma ci_substringb_spec (term text : string) :
  Spec.ci_substringb term text = true <-> Spec.ci_substring term text.
Proof. apply includes_substring. Qed.

(** The test on a message decides what the specification asks of it. *)
Lemma matches_satisfies (options : MessageQuery.t) (msg : DiscordMessage.t) :
  Spec.matches options msg = true <-> Spec.satisfies options msg.
Proof.
  unfold Spec.matches, Spec.satisfies.
  rewrite !andb_true_iff.
  destruct (MessageQuery.serverId options) as [serverId|],
           (MessageQuery.channelId options) as [channelId|],
           (MessageQuery.search options) as [search|];
    rewrite ?orb_true_iff, ?String.eqb_eq, ?ci_substringb_spec;
    split;
    try (intros [[Hs Hc] Hq]; repeat split; intros ? [= <-]; assumption);
    try (intros (Hs & Hc & Hq); repeat split; auto);
    try (intros ? [=]).
Qed.
















End GetMessages.


(** Eight matching messages in pages of five: five, then three, no
    message twice and none left out, and a total of eight both times. *)
Example pagination_scenario :
  List.map DiscordMessage.id
    (fst (MemStorage.getMessages
            (Spec.filters (Some "S1") None None (Some 5%nat) (Some 0%nat))
            (Sample.mem_with (Sample.numbered 8))))
  = ["8"; "7"; "6"; "5"; "4"]
  /\ List.map DiscordMessage.id
       (fst (MemStorage.getMessages
               (Spec.filters (Some "S1") None None (Some 5%nat) (Some 5%nat))
               (Sample.mem_with (Sample.numbered 8))))
     = ["3"; "2"; "1"]
  /\ snd (MemStorage.getMessages
            (Spec.filters (Some "S1") None None (Some 5%nat) (Some 0%nat))
            (Sample.mem_with (Sample.numbered 8))) = 8
  /\ snd (MemStorage.getMessages
            (Spec.filters (Some "S1") None None (Some 5%nat) (Some 5%nat))
            (Sample.mem_with (Sample.numbered 8))) = 8
  /\ DatabaseStorage.getMessages (order := Sample.turningOrder)
       (Spec.filters (Some "S1") None None (Some 5%nat) (Some 5%nat))
       (Sample.db_with (Sample.numbered 8))
     = Ok (fst (MemStorage.getMessages
                  (Spec.filters (Some "S1") None None (Some 5%nat) (Some 5%nat))
                  (Sample.mem_with (Sample.numbered 8))), 8).
Proof. vm_compute. repeat split. Qed.

(** A search term that occurs in the author's name only finds the
    message. *)
Example search_author_scenario :
  List.map DiscordMessage.id
    (fst (MemStorage.getMessages
            (Spec.filters None None (Some "ALICE") None None)
            (Sample.mem_with [Sample.message "1" "hello" 1000])))
  = ["1"].
Proof. reflexivity. Qed.


(* ================================================================== *)
(** * POST /api/execute-command *)
(* ================================================================== *)

Section ExecuteCommand.
Context {zone : TimeZone} {order : Sql.RowOrder}.



Section RouteFacts.
Variable formatDate : Z -> string.
Context {St : Type} `{IStorage St}.

End RouteFacts.

End ExecuteCommand.



(* ================================================================== *)
(** * The states the storages reach *)
(* ================================================================== *)

Section ReachedStates.
Context {zone : TimeZone} {order : Sql.RowOrder}.

(** A property of the first state that every call keeps holds after
    every sequence of calls. *)
Lemma run_invariant {St : Type} `{IStorage St} (P : St -> Prop)
  (ops : list Workload.Op) (storage : St) :
  P storage ->
  (forall s op, P s -> P (Workload.step s op)) ->
  P (Workload.run ops storage).
Proof.
  intros Hinit Hstep. revert storage Hinit. unfold Workload.run.
  induction ops as [|op ops IH]; intros storage Hinit; simpl;
    [assumption|].
  apply IH. now apply Hstep.
Qed.

Lemma keyed_set {V : Type} (id : V -> string) (v : V) (m : JsMap.t V) :
  Reach.keyed id m -> Reach.keyed id (JsMap.set (id v) v m).
Proof.
  intros [Hwf Hall]. split; [now apply JsMap_wf_set|].
  clear Hwf. induction m as [|[k' v'] m IH]; simpl.
  - now repeat constructor.
  - inversion Hall as [|? ? Hhead Htail]; subst.
    destruct (String.eqb k' (id v)); constructor; auto.
Qed.

Lemma keyed_filter {V : Type} (id : V -> string) (f : string * V -> bool)
  (m : JsMap.t V) :
  Reach.keyed id m -> Reach.keyed id (List.filter f m).
Proof.
  intros [Hwf Hall]. split; [now apply JsMap_wf_filter|].
  apply List.Forall_forall. intros e He. apply filter_In in He as [He _].
  rewrite List.Forall_forall in Hall. now apply Hall.
Qed.

Lemma keyed_get {V : Type} (id : V -> string) (k : string) (v : V)
  (m : JsMap.t V) :
  Reach.keyed id m -> JsMap.get k m = Some v -> id v = k.
Proof.
  intros [Hwf Hall] Hget. apply (JsMap_get_In _ _ _ Hwf) in Hget.
  rewrite List.Forall_forall in Hall. now specialize (Hall _ Hget).
Qed.

Lemma mem_step_keyed (s : MemStorage.t) (op : Workload.Op) :
  Reach.mem_keyed s -> Reach.mem_keyed (Workload.step s op).
Proof.
  intros (Hs & Hc & Hm).
  destruct op as [server|channel|message|now|log|is_online uptime_started];
    simpl; repeat split; try apply Hs; try apply Hc; try apply Hm;
    try (now apply keyed_set).
  - rewrite JsMap_delete_all by apply Hm. now apply JsMap_wf_filter, Hm.
  - rewrite JsMap_delete_all by apply Hm.
    now apply (keyed_filter DiscordMessage.id).
Qed.

Lemma mem_run_keyed (ops : list Workload.Op) :
  Reach.mem_keyed (Workload.run ops MemStorage.constructor).
Proof.
  apply run_invariant; [|apply mem_step_keyed].
  repeat split; constructor.
Qed.

Lemma db_step_keyed (db : DatabaseStorage.t) (op : Workload.Op) :
  Reach.db_keyed db -> Reach.db_keyed (Workload.step db op).
Proof.
  intros (Hs & Hc & Hm).
  destruct op as [server|channel|message|now|log|is_online uptime_started];
    simpl.
  - unfold DatabaseStorage.createServer, DatabaseStorage.getServer.
    destruct (DatabaseStorage.discordServers db !! DiscordServer.id server)
      as [existing|] eqn:E; unfold Reach.db_keyed; db_fields;
      repeat split; try assumption.
    + intros k row. rewrite lookup_alter.
      destruct (decide (DiscordServer.id server = k)) as [<-|Hne].
      * rewrite E. simpl. intros [= <-]. simpl. now apply Hs.
      * apply Hs.
    + intros k row. rewrite lookup_insert.
      destruct (decide (DiscordServer.id server = k)) as [<-|Hne].
      * now intros [= <-].
      * apply Hs.
  - unfold DatabaseStorage.createChannel, DatabaseStorage.getChannel.
    destruct (DatabaseStorage.discordChannels db !! DiscordChannel.id channel)
      as [existing|] eqn:E; unfold Reach.db_keyed; db_fields;
      repeat split; try assumption.
    + intros k row. rewrite lookup_alter.
      destruct (decide (DiscordChannel.id channel = k)) as [<-|Hne].
      * rewrite E. simpl. intros [= <-]. simpl. now apply Hc.
      * apply Hc.
    + intros k row. rewrite lookup_insert.
      destruct (decide (DiscordChannel.id channel = k)) as [<-|Hne].
      * now intros [= <-].
      * apply Hc.
  - unfold DatabaseStorage.createMessage, DatabaseStorage.getMessage.
    destruct (DatabaseStorage.discordMessages db !! DiscordMessage.id message)
      as [existing|] eqn:E; unfold Reach.db_keyed; db_fields;
      repeat split; try assumption.
    intros k row. rewrite lookup_insert.
    destruct (decide (DiscordMessage.id message = k)) as [<-|Hne].
    + now intros [= <-].
    + apply Hm.
  - unfold DatabaseStorage.deleteOldMessages, Reach.db_keyed. db_fields.
    repeat split; try assumption.
    intros k row Hrow. apply map_lookup_filter_Some in Hrow as [Hrow _].
    now apply Hm.
  - repeat split; assumption.
  - repeat split; assumption.
Qed.

Lemma db_run_keyed (ops : list Workload.Op) :
  Reach.db_keyed (Workload.run ops DatabaseStorage.constructor).
Proof.
  apply run_invariant; [|apply db_step_keyed].
  repeat split; intros k row Hrow; simpl in Hrow;
    now rewrite lookup_empty in Hrow.
Qed.

(** Every sequence of calls leaves both storages with each server,
    channel and message to be found under its own id, and with no id
    twice among the stored messages. *)
Theorem stored_under_own_id (ops : list Workload.Op) :
  let s := Workload.run ops MemStorage.constructor in
  let db := Workload.run ops DatabaseStorage.constructor in
  (forall id server, MemStorage.getServer id s = Some server ->
                     DiscordServer.id server = id)
  /\ (forall id channel, MemStorage.getChannel id s = Some channel ->
                         DiscordChannel.id channel = id)
  /\ (forall id message, MemStorage.getMessage id s = Some message ->
                         DiscordMessage.id message = id)
  /\ NoDup (List.map DiscordMessage.id
              (JsMap.values (MemStorage.discordMessages s)))
  /\ (forall id server, DatabaseStorage.getServer id db = Some server ->
                        DiscordServer.id server = id)
  /\ (forall id channel, DatabaseStorage.getChannel id db = Some channel ->
                         DiscordChannel.id channel = id)
  /\ (forall id message, DatabaseStorage.getMessage id db = Some message ->
                         DiscordMessage.id message = id)
  /\ NoDup (List.map DiscordMessage.id
              (Sql.rows (DatabaseStorage.discordMessages db))).
Proof.
  cbv zeta.
  destruct (mem_run_keyed ops) as (Hs & Hc & Hm).
  destruct (db_run_keyed ops) as (Hds & Hdc & Hdm).
  repeat split.
  - intros id server. now apply keyed_get.
  - intros id channel. now apply keyed_get.
  - intros id message. now apply keyed_get.
  - destruct Hm as [Hwf Hall]. unfold JsMap.wf, JsMap.keys in Hwf.
    unfold JsMap.values. rewrite List.map_map.
    erewrite map_ext_in; [exact Hwf|].
    intros e He. rewrite List.Forall_forall in Hall. symmetry. now apply Hall.
  - intros id server. apply Hds.
  - intros id channel. apply Hdc.
  - intros id message. apply Hdm.
  - unfold Sql.rows. rewrite List.map_map.
    erewrite map_ext_in; [apply (NoDup_fst_map_to_list
                                   (DatabaseStorage.discordMessages
                                      (Workload.run ops DatabaseStorage.constructor)))|].
    intros [k row] Hin. simpl. apply list_elem_of_In in Hin.
    apply elem_of_map_to_list in Hin. now apply Hdm.
Qed.

End ReachedStates.

(* ================================================================== *)
(** * Create, then look up *)
(* ================================================================== *)

Section CreateLookup.
Context {zone : TimeZone} {order : Sql.RowOrder}.

(** The memory storage answers a created server, channel or message
    with the record it was given, stored id or not, and every other id
    as before; a create touches no other collection. *)
Theorem mem_create_then_lookup (s : MemStorage.t) (server : DiscordServer.t)
  (channel : DiscordChannel.t) (message : DiscordMessage.t) (id : string) :
  MemStorage.getServer id (snd (MemStorage.createServer server s))
  = (if String.eqb (DiscordServer.id server) id then Some server
     else MemStorage.getServer id s)
  /\ MemStorage.getChannel id (snd (MemStorage.createChannel channel s))
     = (if String.eqb (DiscordChannel.id channel) id then Some channel
        else MemStorage.getChannel id s)
  /\ MemStorage.getMessage id (snd (MemStorage.createMessage message s))
     = (if String.eqb (DiscordMessage.id message) id then Some message
        else MemStorage.getMessage id s)
  /\ MemStorage.getChannel id (snd (MemStorage.createServer server s))
     = MemStorage.getChannel id s
  /\ MemStorage.getMessage id (snd (MemStorage.createServer server s))
     = MemStorage.getMessage id s
  /\ MemStorage.getServer id (snd (MemStorage.createChannel channel s))
     = MemStorage.getServer id s
  /\ MemStorage.getMessage id (snd (MemStorage.createChannel channel s))
     = MemStorage.getMessage id s
  /\ MemStorage.getServer id (snd (MemStorage.createMessage message s))
     = MemStorage.getServer id s
  /\ MemStorage.getChannel id (snd (MemStorage.createMessage message s))
     = MemStorage.getChannel id s.
Proof.
  assert (Hset : forall (V : Type) (k : string) (v : V) (m : JsMap.t V),
             JsMap.get id (JsMap.set k v m)
             = if String.eqb k id then Some v else JsMap.get id m).
  { intros V k v m. destruct (String.eqb_spec k id) as [->|Hne].
    - apply JsMap_get_set_eq.
    - now apply JsMap_get_set_ne. }
  repeat split; try reflexivity; apply Hset.
Qed.

Lemma gmap_lookup_alter_cases {V : Type} (f : V -> V) (k id : string)
  (m : gmap string V) :
  alter f k m !! id
  = if String.eqb k id then option_map f (m !! k) else m !! id.
Proof.
  destruct (String.eqb_spec k id) as [->|Hne].
  - rewrite lookup_alter_eq. now destruct (m !! id).
  - now rewrite lookup_alter_ne.
Qed.

Lemma gmap_lookup_insert_cases {V : Type} (v : V) (k id : string)
  (m : gmap string V) :
  <[k := v]> m !! id = if String.eqb k id then Some v else m !! id.
Proof.
  destruct (String.eqb_spec k id) as [->|Hne].
  - apply lookup_insert_eq.
  - now rewrite lookup_insert_ne.
Qed.

(** The database storage answers a created server, channel or message:
    with the record given when its id was new; for a stored id with the
    stored server or channel under the new name and icon (name and
    type), and with the stored message as it was.  Every other id
    answers as before, and a create touches no other table. *)
Theorem db_create_then_lookup (db : DatabaseStorage.t) (server : DiscordServer.t)
  (channel : DiscordChannel.t) (message : DiscordMessage.t) (id : string) :
  DatabaseStorage.getServer id (snd (DatabaseStorage.createServer server db))
  = (if String.eqb (DiscordServer.id server) id
     then Some (fst (DatabaseStorage.createServer server db))
     else DatabaseStorage.getServer id db)
  /\ fst (DatabaseStorage.createServer server db)
     = match DatabaseStorage.getServer (DiscordServer.id server) db with
       | Some existing =>
           DiscordServer.mk (DiscordServer.id existing)
             (DiscordServer.name server) (DiscordServer.icon server)
             (DiscordServer.joined_at existing)
       | None => server
       end
  /\ DatabaseStorage.getChannel id (snd (DatabaseStorage.createChannel channel db))
     = (if String.eqb (DiscordChannel.id channel) id
        then Some (fst (DatabaseStorage.createChannel channel db))
        else DatabaseStorage.getChannel id db)
  /\ fst (DatabaseStorage.createChannel channel db)
     = match DatabaseStorage.getChannel (DiscordChannel.id channel) db with
       | Some existing =>
           DiscordChannel.mk (DiscordChannel.id existing)
             (DiscordChannel.server_id existing)
             (DiscordChannel.name channel) (DiscordChannel.type channel)
       | None => channel
       end
  /\ DatabaseStorage.getMessage id (snd (DatabaseStorage.createMessage message db))
     = (if String.eqb (DiscordMessage.id message) id
        then Some (fst (DatabaseStorage.createMessage message db))
        else DatabaseStorage.getMessage id db)
  /\ fst (DatabaseStorage.createMessage message db)
     = match DatabaseStorage.getMessage (DiscordMessage.id message) db with
       | Some existing => existing
       | None => message
       end
  /\ DatabaseStorage.getChannel id (snd (DatabaseStorage.createServer server db))
     = DatabaseStorage.getChannel id db
  /\ DatabaseStorage.getMessage id (snd (DatabaseStorage.createServer server db))
     = DatabaseStorage.getMessage id db
  /\ DatabaseStorage.getServer id (snd (DatabaseStorage.createChannel channel db))
     = DatabaseStorage.getServer id db
  /\ DatabaseStorage.getMessage id (snd (DatabaseStorage.createChannel channel db))
     = DatabaseStorage.getMessage id db
  /\ DatabaseStorage.getServer id (snd (DatabaseStorage.createMessage message db))
     = DatabaseStorage.getServer id db
  /\ DatabaseStorage.getChannel id (snd (DatabaseStorage.createMessage message db))
     = DatabaseStorage.getChannel id db.
Proof.
  unfold DatabaseStorage.createServer, DatabaseStorage.createChannel,
    DatabaseStorage.createMessage, DatabaseStorage.getServer,
    DatabaseStorage.getChannel, DatabaseStorage.getMessage.
  destruct (DatabaseStorage.discordServers db !! DiscordServer.id server)
    as [s0|] eqn:Es;
  destruct (DatabaseStorage.discordChannels db !! DiscordChannel.id channel)
    as [c0|] eqn:Ec;
  destruct (DatabaseStorage.discordMessages db !! DiscordMessage.id message)
    as [m0|] eqn:Em;
  db_fields; repeat split;
    rewrite ?gmap_lookup_alter_cases, ?gmap_lookup_insert_cases, ?Es, ?Ec, ?Em;
    try reflexivity;
    try (destruct (String.eqb_spec (DiscordMessage.id message) id) as [<-|];
         [now rewrite Em | reflexivity]).
Qed.

End CreateLookup.

(* ================================================================== *)
(** * The sweep, again *)
(* ================================================================== *)

Section SweepAgain.
Context {zone : TimeZone} {order : Sql.RowOrder}.

Lemma In_slice {A} (l : list A) (start stop : Z) (x : A) :
  In x (Js.slice l start stop) -> In x l.
Proof.
  unfold Js.slice. intros Hin. apply In_firstn in Hin.
  rewrite <- (firstn_skipn (Z.to_nat (Js.clamp_index (Z.of_nat (List.length l)) start)) l).
  apply in_or_app. now right.
Qed.

(** What getMessages returns is stored. *)
Lemma mem_getMessages_stored (options : MessageQuery.t) (s : MemStorage.t)
  (msg : DiscordMessage.t) :
  In msg (fst (MemStorage.getMessages options s)) ->
  In msg (JsMap.values (MemStorage.discordMessages s)).
Proof.
  unfold MemStorage.getMessages. cbn [fst]. intros Hin.
  apply In_slice, sort_desc_In in Hin.
  destruct (truthy (MessageQuery.search options));
    [apply filter_In in Hin as [Hin _]|];
    (destruct (truthy (MessageQuery.channelId options));
     [apply filter_In in Hin as [Hin _]|]);
    (destruct (truthy (MessageQuery.serverId options));
     [apply filter_In in Hin as [Hin _]|]);
    exact Hin.
Qed.

Lemma db_getMessages_stored (options : MessageQuery.t) (db : DatabaseStorage.t)
  (page : list DiscordMessage.t) (total : Z) (msg : DiscordMessage.t) :
  DatabaseStorage.getMessages options db = Ok (page, total) ->
  In msg page ->
  In msg (Sql.rows (DatabaseStorage.discordMessages db)).
Proof.
  unfold DatabaseStorage.getMessages, Sql.limit_offset. intros Hget Hin.
  destruct (_ <? 0); [discriminate|].
  injection Hget as <- _.
  assert (Hrest : In msg
            (skipn (Z.to_nat (Js.default_to (MessageQuery.offset options) 0))
               (Js.sort_desc DiscordMessage.created_at
                  (Sql.tieOrder options
                     (List.filter (DatabaseStorage.conditions options)
                        (Sql.rows (DatabaseStorage.discordMessages db))))))).
  { destruct (_ <? 0); [exact Hin | now apply In_firstn in Hin]. }
  assert (Hsorted : In msg (Js.sort_desc DiscordMessage.created_at
                     (Sql.tieOrder options
                        (List.filter (DatabaseStorage.conditions options)
                           (Sql.rows (DatabaseStorage.discordMessages db)))))).
  { rewrite <- (firstn_skipn
                  (Z.to_nat (Js.default_to (MessageQuery.offset options) 0))).
    apply in_or_app. now right. }
  apply sort_desc_In in Hsorted.
  apply (Permutation_in _ (Sql.tieOrder_perm _ _)) in Hsorted.
  now apply filter_In in Hsorted as [Hsorted _].
Qed.

Lemma db_rows_In {V : Type} (m : gmap string V) (row : V) :
  In row (Sql.rows m) <-> exists k, m !! k = Some row.
Proof.
  unfold Sql.rows. rewrite in_map_iff. split.
  - intros ([k v] & <- & Hin). exists k.
    apply list_elem_of_In in Hin. now apply elem_of_map_to_list in Hin.
  - intros [k Hk]. exists (k, row). split; [reflexivity|].
    apply list_elem_of_In. now apply elem_of_map_to_list.
Qed.

(** After a sweep no query returns a message created before the cutoff
    of the sweep, which with a steady clock is 14 days of 24 hours
    before the time of the sweep. *)
Theorem swept_messages_are_recent (now : Z) (options : MessageQuery.t)
  (s : MemStorage.t) (db : DatabaseStorage.t) (msg : DiscordMessage.t) :
  JsMap.wf (MemStorage.discordMessages s) ->
  (In msg (fst (MemStorage.getMessages options
                  (snd (MemStorage.deleteOldMessages now s)))) ->
   twoWeeksAgo now <= DiscordMessage.created_at msg
   /\ (Spec.steady_clock now ->
       now - 14 * day_ms <= DiscordMessage.created_at msg))
  /\ (forall page total,
        DatabaseStorage.getMessages options
          (snd (DatabaseStorage.deleteOldMessages now db)) = Ok (page, total) ->
        In msg page ->
        twoWeeksAgo now <= DiscordMessage.created_at msg
        /\ (Spec.steady_clock now ->
            now - 14 * day_ms <= DiscordMessage.created_at msg)).
Proof.
  intros Hwf.
  assert (Hsteady : twoWeeksAgo now <= DiscordMessage.created_at msg ->
                    twoWeeksAgo now <= DiscordMessage.created_at msg
                    /\ (Spec.steady_clock now ->
                        now - 14 * day_ms <= DiscordMessage.created_at msg)).
  { intros Hcut. split; [exact Hcut|]. intros Hclock.
    now rewrite <- (twoWeeksAgo_steady now Hclock). }
  split.
  - intros Hin. apply Hsteady. apply mem_getMessages_stored in Hin.
    rewrite mem_deleteOldMessages_messages in Hin by assumption.
    unfold JsMap.values in Hin. apply in_map_iff in Hin as (e & <- & Hin).
    apply filter_In in Hin as [_ Hrecent].
    unfold Spec.older in Hrecent. apply negb_true_iff in Hrecent. lia.
  - intros page total Hget Hin. apply Hsteady.
    apply (db_getMessages_stored _ _ _ _ _ Hget) in Hin.
    apply db_rows_In in Hin as [k Hk].
    unfold DatabaseStorage.deleteOldMessages in Hk. db_fields.
    apply map_lookup_filter_Some in Hk as [_ Hrecent]. simpl in Hrecent.
    unfold DatabaseStorage.is_old in Hrecent.
    destruct (Z.ltb_spec (DiscordMessage.created_at msg) (twoWeeksAgo now));
      [now contradiction Hrecent | assumption].
Qed.

Lemma merge_counts_twice (status : BotStatus.t) (count usage : Z) :
  BotStatus.merge
    (BotStatus.merge status
       (BotStatus.mk_partial None None None None None (Some count) (Some usage)))
    (BotStatus.mk_partial None None None None None (Some count) (Some usage))
  = BotStatus.merge status
      (BotStatus.mk_partial None None None None None (Some count) (Some usage)).
Proof. reflexivity. Qed.

(** With steady clocks the cutoff does not move forward when the time
    does not. *)
Lemma twoWeeksAgo_steady_le (now1 now2 : Z) :
  Spec.steady_clock now1 -> Spec.steady_clock now2 -> now2 <= now1 ->
  twoWeeksAgo now2 <= twoWeeksAgo now1.
Proof.
  intros H1 H2 Hle. rewrite !twoWeeksAgo_steady by assumption. lia.
Qed.

(** A sweep whose cutoff is not after the cutoff of the last sweep
    deletes nothing and leaves the storage as it is.  Such is a sweep
    at the time of the last one, and with steady clocks one at a time
    not after it. *)
Theorem sweep_again_deletes_nothing (now1 now2 : Z) (s : MemStorage.t)
  (db : DatabaseStorage.t) :
  JsMap.wf (MemStorage.discordMessages s) ->
  twoWeeksAgo now2 <= twoWeeksAgo now1 ->
  MemStorage.deleteOldMessages now2 (snd (MemStorage.deleteOldMessages now1 s))
  = (0, snd (MemStorage.deleteOldMessages now1 s))
  /\ DatabaseStorage.deleteOldMessages now2
       (snd (DatabaseStorage.deleteOldMessages now1 db))
     = (0, snd (DatabaseStorage.deleteOldMessages now1 db)).
Proof.
  intros Hwf Hle. split.
  - assert (Hnone :
      MemStorage.messagesToDelete (twoWeeksAgo now2)
        (MemStorage.discordMessages (snd (MemStorage.deleteOldMessages now1 s)))
      = []).
    { rewrite mem_deleteOldMessages_messages by assumption.
      unfold MemStorage.messagesToDelete. rewrite filter_andb.
      replace (List.filter _ (MemStorage.discordMessages s)) with
        (@nil (string * DiscordMessage.t)); [reflexivity|].
      symmetry. clear Hwf. unfold Spec.older.
      induction (MemStorage.discordMessages s) as [|[k msg] m IH];
        [reflexivity|].
      cbn [List.filter snd].
      destruct (Z.ltb_spec (DiscordMessage.created_at msg) (twoWeeksAgo now1));
        destruct (Z.ltb_spec (DiscordMessage.created_at msg) (twoWeeksAgo now2));
        simpl; try assumption; lia. }
    unfold MemStorage.deleteOldMessages at 1. rewrite Hnone. reflexivity.
  - set (kept := fun kv : string * DiscordMessage.t =>
                   DatabaseStorage.is_old (twoWeeksAgo now1) kv.2 <> true).
    assert (Hkept : forall k msg,
              filter kept (DatabaseStorage.discordMessages db) !! k = Some msg ->
              DatabaseStorage.is_old (twoWeeksAgo now2) msg <> true).
    { intros k msg Hk. apply map_lookup_filter_Some in Hk as [_ Hrecent].
      unfold kept in Hrecent. simpl in Hrecent.
      unfold DatabaseStorage.is_old in *.
      destruct (Z.ltb_spec (DiscordMessage.created_at msg) (twoWeeksAgo now1));
        [now contradiction Hrecent|].
      destruct (Z.ltb_spec (DiscordMessage.created_at msg) (twoWeeksAgo now2));
        [lia | discriminate]. }
    assert (Hsame :
      filter (fun kv : string * DiscordMessage.t =>
                DatabaseStorage.is_old (twoWeeksAgo now2) kv.2 <> true)
        (filter kept (DatabaseStorage.discordMessages db))
      = filter kept (DatabaseStorage.discordMessages db)).
    { apply map_filter_id. intros k msg Hk. simpl. now apply (Hkept k). }
    assert (Hzero :
      size (filter (fun kv : string * DiscordMessage.t =>
                      DatabaseStorage.is_old (twoWeeksAgo now2) kv.2 = true)
              (filter kept (DatabaseStorage.discordMessages db))) = 0%nat).
    { pose proof (gmap_filter_complement_size
                    (fun kv : string * DiscordMessage.t =>
                       DatabaseStorage.is_old (twoWeeksAgo now2) kv.2 = true)
                    (filter kept (DatabaseStorage.discordMessages db))) as Hsum.
      cbv beta in Hsum. rewrite Hsame in Hsum. lia. }
    unfold DatabaseStorage.deleteOldMessages. db_fields. fold kept.
    rewrite Hsame, Hzero. f_equal. f_equal.
    destruct (DatabaseStorage.botStatus db) as [status|]; reflexivity.
Qed.

End SweepAgain.

Lemma swept_messages_are_recent_witness :
  JsMap.wf (MemStorage.discordMessages (Sample.mem_with Sample.retention_messages))
  /\ In (Sample.message "3" "thirteen days" (Sample.sweep_time - 13 * day_ms))
       (fst (MemStorage.getMessages MessageQuery.empty
               (snd (MemStorage.deleteOldMessages (zone := Sample.utc)
                       Sample.sweep_time
                       (Sample.mem_with Sample.retention_messages)))))
  /\ Spec.steady_clock (zone := Sample.utc) Sample.sweep_time
  /\ twoWeeksAgo (zone := Sample.utc) Sample.sweep_time
     <= DiscordMessage.created_at
          (Sample.message "3" "thirteen days" (Sample.sweep_time - 13 * day_ms))
  /\ Sample.sweep_time - 14 * day_ms
     <= DiscordMessage.created_at
          (Sample.message "3" "thirteen days" (Sample.sweep_time - 13 * day_ms)).
Proof.
  assert (Hwf : JsMap.wf (MemStorage.discordMessages
                            (Sample.mem_with Sample.retention_messages))).
  { apply (bool_decide_unpack _). vm_compute. exact I. }
  assert (Hin :
    In (Sample.message "3" "thirteen days" (Sample.sweep_time - 13 * day_ms))
       (fst (MemStorage.getMessages MessageQuery.empty
               (snd (MemStorage.deleteOldMessages (zone := Sample.utc)
                       Sample.sweep_time
                       (Sample.mem_with Sample.retention_messages)))))).
  { vm_compute. left. reflexivity. }
  assert (Hsteady : Spec.steady_clock (zone := Sample.utc) Sample.sweep_time)
    by reflexivity.
  split; [exact Hwf|]. split; [exact Hin|]. split; [exact Hsteady|].
  pose proof (proj1 (swept_messages_are_recent (zone := Sample.utc)
                       (order := Sample.scanOrder)
                       Sample.sweep_time MessageQuery.empty
                       _ DatabaseStorage.constructor _ Hwf) Hin)
    as [Hcut Hdays].
  split; [exact Hcut | exact (Hdays Hsteady)].
Defined.

Lemma sweep_again_deletes_nothing_witness :
  JsMap.wf (MemStorage.discordMessages
              (Sample.mem_with Sample.retention_messages))
  /\ twoWeeksAgo (zone := Sample.utc) Sample.sweep_time
     <= twoWeeksAgo (zone := Sample.utc) Sample.sweep_time
  /\ MemStorage.deleteOldMessages (zone := Sample.utc) Sample.sweep_time
       (snd (MemStorage.deleteOldMessages (zone := Sample.utc)
               Sample.sweep_time
               (Sample.mem_with Sample.retention_messages)))
     = (0, snd (MemStorage.deleteOldMessages (zone := Sample.utc)
                  Sample.sweep_time
                  (Sample.mem_with Sample.retention_messages))).
Proof.
  assert (Hwf : JsMap.wf (MemStorage.discordMessages
                            (Sample.mem_with Sample.retention_messages))).
  { apply (bool_decide_unpack _). vm_compute. exact I. }
  assert (Hle : twoWeeksAgo (zone := Sample.utc) Sample.sweep_time
                <= twoWeeksAgo (zone := Sample.utc) Sample.sweep_time)
    by apply Z.le_refl.
  split; [exact Hwf|]. split; [exact Hle|].
  exact (proj1 (sweep_again_deletes_nothing (zone := Sample.utc)
                  Sample.sweep_time Sample.sweep_time
                  (Sample.mem_with Sample.retention_messages)
                  DatabaseStorage.constructor Hwf Hle)).
Defined.

(** Why the cutoffs are compared and not the times: a second before the
    clocks of central Europe went back the cutoff is later than a second
    after, and a sweep then deletes a message that the sweep two seconds
    later has kept. *)
Example sweep_across_clock_change :
  Sample.clocksBack - 1000 <= Sample.clocksBack + 1000
  /\ fst (MemStorage.deleteOldMessages (zone := Sample.berlin)
            (Sample.clocksBack + 1000)
            (Sample.mem_with
               [Sample.message "1" "fourteen days and half an hour"
                  (Sample.clocksBack - 14 * day_ms - 1800000)])) = 0
  /\ fst (MemStorage.deleteOldMessages (zone := Sample.berlin)
            (Sample.clocksBack - 1000)
            (snd (MemStorage.deleteOldMessages (zone := Sample.berlin)
                    (Sample.clocksBack + 1000)
                    (Sample.mem_with
                       [Sample.message "1" "fourteen days and half an hour"
                          (Sample.clocksBack - 14 * day_ms - 1800000)]))))
     = 1.
Proof. vm_compute. split; [discriminate | split; reflexivity]. Qed.

(* ================================================================== *)
(** * Listing and looking up *)
(* ================================================================== *)

Section Listing.
Context {zone : TimeZone} {order : Sql.RowOrder}.

Lemma mem_values_In {V : Type} (id : V -> string) (m : JsMap.t V) (v : V) :
  Reach.keyed id m ->
  (In v (JsMap.values m) <-> JsMap.get (id v) m = Some v).
Proof.
  intros [Hwf Hall]. rewrite (JsMap_get_In _ _ _ Hwf).
  unfold JsMap.values. rewrite in_map_iff. split.
  - intros ([k v'] & Hv & Hin). simpl in Hv. subst v'.
    rewrite List.Forall_forall in Hall. specialize (Hall _ Hin).
    simpl in Hall. now subst k.
  - intros Hin. now exists (id v, v).
Qed.

Lemma db_rows_In_keyed {V : Type} (id : V -> string) (m : gmap string V) (v : V) :
  (forall k row, m !! k = Some row -> id row = k) ->
  (In v (Sql.rows m) <-> m !! id v = Some v).
Proof.
  intros Hkeyed. rewrite db_rows_In. split.
  - intros [k Hk]. now rewrite (Hkeyed _ _ Hk).
  - intros Hv. now exists (id v).
Qed.

(** In every state the storages reach, getChannels with a server id
    lists the stored channels of that server and no other, and without
    one (or with the empty string) all stored channels: a channel is
    listed when getChannel answers its id with it. *)
Theorem getChannels_lists_stored (ops : list Workload.Op) (serverId : string)
  (channel : DiscordChannel.t) :
  serverId <> EmptyString ->
  let s := Workload.run ops MemStorage.constructor in
  let db := Workload.run ops DatabaseStorage.constructor in
  (In channel (MemStorage.getChannels (Some serverId) s)
   <-> MemStorage.getChannel (DiscordChannel.id channel) s = Some channel
       /\ DiscordChannel.server_id channel = serverId)
  /\ (In channel (MemStorage.getChannels None s)
      <-> MemStorage.getChannel (DiscordChannel.id channel) s = Some channel)
  /\ MemStorage.getChannels (Some EmptyString) s = MemStorage.getChannels None s
  /\ (In channel (DatabaseStorage.getChannels (Some serverId) db)
      <-> DatabaseStorage.getChannel (DiscordChannel.id channel) db = Some channel
          /\ DiscordChannel.server_id channel = serverId)
  /\ (In channel (DatabaseStorage.getChannels None db)
      <-> DatabaseStorage.getChannel (DiscordChannel.id channel) db = Some channel)
  /\ DatabaseStorage.getChannels (Some EmptyString) db
     = DatabaseStorage.getChannels None db.
Proof.
  intros Hne. cbv zeta.
  destruct (mem_run_keyed ops) as (_ & Hc & _).
  destruct (db_run_keyed ops) as (_ & Hdc & _).
  unfold MemStorage.getChannels, DatabaseStorage.getChannels,
    MemStorage.getChannel, DatabaseStorage.getChannel.
  assert (Htruthy : truthy (Some serverId) = Some serverId)
    by (destruct serverId; [contradiction | reflexivity]).
  rewrite Htruthy. cbn [truthy].
  split_and!; try reflexivity.
  - rewrite filter_In, (mem_values_In DiscordChannel.id) by assumption.
    now rewrite String.eqb_eq.
  - now apply (mem_values_In DiscordChannel.id).
  - rewrite filter_In, (db_rows_In_keyed DiscordChannel.id) by assumption.
    now rewrite String.eqb_eq.
  - now apply (db_rows_In_keyed DiscordChannel.id).
Qed.

End Listing.

Lemma getChannels_lists_stored_witness :
  In (Sample.channel "S1" "general")
    (MemStorage.getChannels (Some "S1")
       (Workload.run (H := Sample.memStorage)
          [Workload.CreateChannel (Sample.channel "S1" "general")]
          MemStorage.constructor))
  <-> MemStorage.getChannel "7"
        (Workload.run (H := Sample.memStorage)
          [Workload.CreateChannel (Sample.channel "S1" "general")]
           MemStorage.constructor)
      = Some (Sample.channel "S1" "general")
      /\ DiscordChannel.server_id (Sample.channel "S1" "general") = "S1".
Proof.
  refine (proj1 (getChannels_lists_stored (zone := Sample.utc) (order := Sample.scanOrder)
                   [Workload.CreateChannel (Sample.channel "S1" "general")]
                   "S1" (Sample.channel "S1" "general") _)).
  discriminate.
Defined.

(* ================================================================== *)
(** * The counters, the total and the usage *)
(* ================================================================== *)

Section Totals.
Context {zone : TimeZone} {order : Sql.RowOrder}.

Lemma db_conditions_empty (msg : DiscordMessage.t) :
  DatabaseStorage.conditions MessageQuery.empty msg = true.
Proof. reflexivity. Qed.

Lemma filter_all {A} (f : A -> bool) (l : list A) :
  (forall x, f x = true) -> List.filter f l = l.
Proof.
  intros Hall. apply forallb_filter_id. apply forallb_forall. auto.
Qed.

Lemma mem_total_unfiltered (s : MemStorage.t) :
  snd (MemStorage.getMessages MessageQuery.empty s)
  = JsMap.size (MemStorage.discordMessages s).
Proof.
  unfold MemStorage.getMessages. cbn [snd truthy MessageQuery.empty
    MessageQuery.serverId MessageQuery.channelId MessageQuery.search].
  rewrite sort_desc_length. unfold JsMap.size, JsMap.values.
  now rewrite length_map.
Qed.

Lemma db_total_unfiltered (db : DatabaseStorage.t) :
  exists page,
    DatabaseStorage.getMessages MessageQuery.empty db
    = Ok (page, Sql.count (DatabaseStorage.discordMessages db)).
Proof.
  unfold DatabaseStorage.getMessages.
  rewrite (filter_all _ _ db_conditions_empty).
  cbn [MessageQuery.empty MessageQuery.limit MessageQuery.offset Js.default_to].
  unfold Sql.limit_offset. cbn [Z.ltb Z.compare]. eexists. do 2 f_equal.
  unfold Sql.count, Sql.rows. now rewrite length_map, length_map_to_list.
Qed.

Lemma mem_run_usage_live (ops : list Workload.Op) :
  Reach.mem_usage_live (Workload.run ops MemStorage.constructor).
Proof.
  apply run_invariant; [reflexivity|].
  intros s op Hs. destruct op; try exact Hs; reflexivity.
Qed.

Lemma db_run_usage_live (ops : list Workload.Op) :
  Reach.db_usage_live (Workload.run ops DatabaseStorage.constructor).
Proof.
  apply run_invariant; [now intros status [= <-]|].
  intros db op Hdb. unfold Reach.db_usage_live in *.
  destruct op as [server|channel|message|now|log|is_online uptime_started];
    simpl.
  - unfold DatabaseStorage.createServer.
    destruct (DatabaseStorage.getServer _ db); db_fields; [exact Hdb|].
    intros status Hstatus.
    destruct (DatabaseStorage.botStatus db) as [old|] eqn:E; [|discriminate].
    injection Hstatus as <-. simpl. now apply Hdb.
  - unfold DatabaseStorage.createChannel.
    destruct (DatabaseStorage.getChannel _ db); db_fields; [exact Hdb|].
    intros status Hstatus.
    destruct (DatabaseStorage.botStatus db) as [old|] eqn:E; [|discriminate].
    injection Hstatus as <-. simpl. now apply Hdb.
  - unfold DatabaseStorage.createMessage.
    destruct (DatabaseStorage.getMessage _ db); db_fields; [exact Hdb|].
    intros status Hstatus.
    destruct (DatabaseStorage.botStatus db) as [old|] eqn:E; [|discriminate].
    now injection Hstatus as <-.
  - unfold DatabaseStorage.deleteOldMessages. db_fields.
    intros status Hstatus.
    destruct (DatabaseStorage.botStatus db) as [old|] eqn:E; [|discriminate].
    now injection Hstatus as <-.
  - exact Hdb.
  - db_fields. intros status Hstatus.
    destruct (DatabaseStorage.botStatus db) as [old|] eqn:E; [|discriminate].
    injection Hstatus as <-. simpl. now apply Hdb.
Qed.

Lemma mem_run_counts_live (ops : list Workload.Op) :
  Workload.mem_counts_live (Workload.run ops MemStorage.constructor).
Proof.
  apply run_invariant; [repeat split|].
  intros s op. apply mem_step_counts_live.
Qed.

Lemma db_run_counts_live (ops : list Workload.Op) :
  Workload.db_counts_live (Workload.run ops DatabaseStorage.constructor).
Proof.
  apply run_invariant; [eexists; repeat split|].
  intros s op. apply db_step_counts_live.
Qed.

(** In every state the storages reach, the total of a getMessages
    without filters, the messages_count of the status and its
    storage_usage are one number: the stats command prints it as Total
    Messages and as Storage Usage. *)
Theorem total_count_usage_agree (ops : list Workload.Op) :
  let s := Workload.run ops MemStorage.constructor in
  let db := Workload.run ops DatabaseStorage.constructor in
  (snd (MemStorage.getMessages MessageQuery.empty s)
   = BotStatus.messages_count (MemStorage.botStatusRecord s)
   /\ BotStatus.storage_usage (MemStorage.botStatusRecord s)
      = BotStatus.messages_count (MemStorage.botStatusRecord s))
  /\ exists status page,
       DatabaseStorage.getBotStatus db = Some status
       /\ DatabaseStorage.getMessages MessageQuery.empty db
          = Ok (page, BotStatus.messages_count status)
       /\ BotStatus.storage_usage status = BotStatus.messages_count status.
Proof.
  cbv zeta. split.
  - destruct (mem_run_counts_live ops) as (_ & _ & Hm).
    split; [|apply mem_run_usage_live].
    now rewrite mem_total_unfiltered, Hm.
  - destruct (db_run_counts_live ops) as (status & Hrow & _ & _ & Hm).
    destruct (db_total_unfiltered (Workload.run ops DatabaseStorage.constructor))
      as [page Hpage].
    exists status, page. split; [exact Hrow|]. split.
    + now rewrite Hpage, Hm.
    + now apply (db_run_usage_live ops).
Qed.

End Totals.

(* ================================================================== *)
(** * The ids and the order of the command logs *)
(* ================================================================== *)

Section LogOrder.
Context {zone : TimeZone} {order : Sql.RowOrder}.

Lemma NoDup_map_firstn {A B} (f : A -> B) (n : nat) (l : list A) :
  NoDup (List.map f l) -> NoDup (List.map f (firstn n l)).
Proof.
  intros Hnodup. rewrite <- List.firstn_map.
  eapply sublist_NoDup; [exact Hnodup | apply sublist_take].
Qed.

Lemma mem_createCommandLog_log_ids (log : InsertCommandLog.t) (s : MemStorage.t) :
  Reach.mem_log_ids s ->
  Reach.mem_log_ids (snd (MemStorage.createCommandLog log s)).
Proof.
  intros [Hnodup Hbelow].
  unfold Reach.mem_log_ids, MemStorage.createCommandLog.
  cbn [snd MemStorage.commandLogs MemStorage.commandLogCurrentId].
  set (newLog := CommandLog.of_insert log (MemStorage.commandLogCurrentId s)).
  assert (Hall : NoDup (List.map CommandLog.id (MemStorage.commandLogs s ++ [newLog]))).
  { rewrite List.map_app. apply NoDup_app. split; [assumption|]. split.
    - intros x Hx Hnew. apply list_elem_of_In in Hx, Hnew.
      apply in_map_iff in Hx as (old & <- & Hold).
      simpl in Hnew. destruct Hnew as [Hnew|[]].
      specialize (Hbelow old Hold). simpl in Hnew. lia.
    - apply NoDup_singleton. }
  assert (Hnew : forall entry, In entry (MemStorage.commandLogs s ++ [newLog]) ->
                               CommandLog.id entry < MemStorage.commandLogCurrentId s + 1).
  { intros entry Hin. apply in_app_or in Hin as [Hin|[<-|[]]].
    - specialize (Hbelow entry Hin). lia.
    - simpl. lia. }
  destruct (1000 <? Z.of_nat (List.length (MemStorage.commandLogs s ++ [newLog]))).
  - rewrite (slice_prefix _ 1000). split.
    + apply NoDup_map_firstn.
      rewrite (Permutation_map CommandLog.id
                 (sort_desc_perm CommandLog.executed_at
                    (MemStorage.commandLogs s ++ [newLog]))).
      exact Hall.
    + intros entry Hin. apply Hnew.
      apply In_firstn in Hin. now apply sort_desc_In in Hin.
  - split; assumption.
Qed.

Lemma mem_run_log_ids (ops : list Workload.Op) :
  Reach.mem_log_ids (Workload.run ops MemStorage.constructor).
Proof.
  apply run_invariant.
  - split; [constructor | intros log []].
  - intros s op Hs. destruct op; try exact Hs.
    now apply mem_createCommandLog_log_ids.
Qed.

Lemma db_run_log_ids (ops : list Workload.Op) :
  Reach.db_log_ids (Workload.run ops DatabaseStorage.constructor).
Proof.
  apply run_invariant.
  - intros k row Hrow. simpl in Hrow. now rewrite lookup_empty in Hrow.
  - intros db op Hdb.
    destruct op as [server|channel|message|now|log|is_online uptime_started];
      simpl.
    + unfold DatabaseStorage.createServer.
      now destruct (DatabaseStorage.getServer _ db).
    + unfold DatabaseStorage.createChannel.
      now destruct (DatabaseStorage.getChannel _ db).
    + unfold DatabaseStorage.createMessage.
      now destruct (DatabaseStorage.getMessage _ db).
    + exact Hdb.
    + intros k row. unfold DatabaseStorage.createCommandLog. db_fields.
      rewrite lookup_insert.
      destruct (decide (DatabaseStorage.commandLogsSeq db = k)) as [<-|Hne].
      * intros [= <-]. simpl. split; [reflexivity | lia].
      * intros Hrow. destruct (Hdb k row Hrow). split; [assumption | lia].
    + exact Hdb.
Qed.

(** In every state the storages reach, createCommandLog gives the new
    log an id above the id of every log that is stored, also after the
    memory storage has dropped logs: no id is used twice. *)
Theorem command_log_ids_fresh (ops : list Workload.Op) (log : InsertCommandLog.t) :
  let s := Workload.run ops MemStorage.constructor in
  let db := Workload.run ops DatabaseStorage.constructor in
  (forall old, In old (MemStorage.commandLogs s) ->
               CommandLog.id old < CommandLog.id (fst (MemStorage.createCommandLog log s)))
  /\ NoDup (List.map CommandLog.id
              (MemStorage.commandLogs (snd (MemStorage.createCommandLog log s))))
  /\ (forall old, In old (Sql.rows (DatabaseStorage.commandLogs db)) ->
                  CommandLog.id old
                  < CommandLog.id (fst (DatabaseStorage.createCommandLog log db)))
  /\ NoDup (List.map CommandLog.id
              (Sql.rows (DatabaseStorage.commandLogs
                           (snd (DatabaseStorage.createCommandLog log db))))).
Proof.
  cbv zeta. split_and!.
  - apply (mem_run_log_ids ops).
  - apply mem_createCommandLog_log_ids, mem_run_log_ids.
  - intros old Hold. unfold Sql.rows in Hold.
    apply in_map_iff in Hold as ([k row] & <- & Hin).
    apply list_elem_of_In in Hin. apply elem_of_map_to_list in Hin.
    cbn [snd]. destruct (db_run_log_ids ops k row Hin) as [-> Hlt]. exact Hlt.
  - pose proof (db_run_log_ids (ops ++ [Workload.CreateCommandLog log])) as Hids.
    unfold Workload.run in Hids. rewrite fold_left_app in Hids.
    cbn [List.fold_left Workload.step createCommandLog DatabaseStorage_IStorage]
      in Hids.
    unfold Sql.rows. rewrite List.map_map.
    erewrite map_ext_in; [apply NoDup_fst_map_to_list|].
    intros [k row] Hin. simpl. apply list_elem_of_In in Hin.
    apply elem_of_map_to_list in Hin. now destruct (Hids k row Hin).
Qed.

Lemma sorted_front_newest {A} (key : A -> Z) (n : nat) (l : list A) (a b : A) :
  StronglySorted (Js.desc key) l ->
  In a (firstn n l) -> In b (skipn n l) -> key b <= key a.
Proof.
  intros Hsorted Ha Hb. rewrite <- (firstn_skipn n l) in Hsorted.
  revert Hsorted Ha Hb.
  generalize (firstn n l) as front, (skipn n l) as back.
  induction front as [|x front IH]; intros back Hsorted Ha Hb; [destruct Ha|].
  simpl in Hsorted. inversion Hsorted as [|? ? Hrest Hall]; subst.
  destruct Ha as [<-|Ha].
  - rewrite List.Forall_forall in Hall. apply (Hall b).
    apply in_or_app. now right.
  - now apply (IH back).
Qed.

Lemma front_or_back {A} (n : nat) (l : list A) (x : A) :
  In x l -> In x (firstn n l) \/ In x (skipn n l).
Proof.
  intros Hin. rewrite <- (firstn_skipn n l) in Hin. now apply in_app_or.
Qed.

(** getCommandLogs returns stored logs, [limit] at most (100 when not
    given), and the newest ones: a stored log that is not returned was
    not executed after any that is.  For a negative limit the database
    storage, whose statement leaves such a limit out, returns every
    stored log, the newest first. *)
Theorem getCommandLogs_newest (limit : nat) (s : MemStorage.t)
  (db : DatabaseStorage.t) :
  let logs := MemStorage.getCommandLogs (Some (Z.of_nat limit)) s in
  ((List.length logs <= limit)%nat
   /\ (forall a, In a logs -> In a (MemStorage.commandLogs s))
   /\ (forall a b, In a logs -> In b (MemStorage.commandLogs s) -> ~ In b logs ->
                   CommandLog.executed_at b <= CommandLog.executed_at a)
   /\ MemStorage.getCommandLogs None s = MemStorage.getCommandLogs (Some 100) s)
  /\ (exists rows,
        DatabaseStorage.getCommandLogs (Some (Z.of_nat limit)) db = Ok rows
        /\ (List.length rows <= limit)%nat
        /\ StronglySorted (Js.desc CommandLog.executed_at) rows
        /\ (forall a, In a rows -> In a (Sql.rows (DatabaseStorage.commandLogs db)))
        /\ (forall a b, In a rows ->
                        In b (Sql.rows (DatabaseStorage.commandLogs db)) ->
                        ~ In b rows ->
                        CommandLog.executed_at b <= CommandLog.executed_at a))
  /\ DatabaseStorage.getCommandLogs None db
     = DatabaseStorage.getCommandLogs (Some 100) db
  /\ forall p,
       exists rows,
         DatabaseStorage.getCommandLogs (Some (Z.neg p)) db = Ok rows
         /\ Permutation rows (Sql.rows (DatabaseStorage.commandLogs db))
         /\ StronglySorted (Js.desc CommandLog.executed_at) rows.
Proof.
  cbv zeta. split_and!; try reflexivity.
  - apply mem_getCommandLogs_sorted.
  - intros a. unfold MemStorage.getCommandLogs. cbn [Js.default_to].
    rewrite slice_prefix. intros Ha. apply In_firstn in Ha.
    now apply sort_desc_In in Ha.
  - intros a b. unfold MemStorage.getCommandLogs. cbn [Js.default_to].
    rewrite slice_prefix. intros Ha Hb Hnot.
    apply (sort_desc_In CommandLog.executed_at) in Hb.
    destruct (front_or_back limit _ _ Hb) as [Hfront|Hback];
      [contradiction|].
    eapply sorted_front_newest; [apply sort_desc_sorted | exact Ha | exact Hback].
  - unfold DatabaseStorage.getCommandLogs, Sql.limit_offset.
    cbn [Js.default_to].
    destruct (Z.ltb_spec (Z.of_nat limit) 0); [lia|]. cbn [Z.ltb Z.compare skipn].
    rewrite Nat2Z.id.
    set (sorted := Js.sort_desc CommandLog.executed_at
                     (Sql.logOrder (Z.of_nat limit)
                        (Sql.rows (DatabaseStorage.commandLogs db)))).
    exists (firstn limit sorted). split_and!.
    + reflexivity.
    + rewrite length_firstn. lia.
    + apply StronglySorted_firstn, sort_desc_sorted.
    + intros a Ha. apply In_firstn in Ha. apply sort_desc_In in Ha.
      now apply (Permutation_in _ (Sql.logOrder_perm _ _)) in Ha.
    + intros a b Ha Hb Hnot.
      apply (Permutation_in _ (Permutation_sym (Sql.logOrder_perm
                                                  (Z.of_nat limit) _))) in Hb.
      apply (sort_desc_In CommandLog.executed_at) in Hb. fold sorted in Hb.
      destruct (front_or_back limit _ _ Hb) as [Hfront|Hback];
        [contradiction|].
      eapply sorted_front_newest; [apply sort_desc_sorted | exact Ha | exact Hback].
  - intros p.
    exists (Js.sort_desc CommandLog.executed_at
              (Sql.logOrder (Z.neg p)
                 (Sql.rows (DatabaseStorage.commandLogs db)))).
    split; [reflexivity|]. split.
    + rewrite sort_desc_perm. apply Sql.logOrder_perm.
    + apply sort_desc_sorted.
Qed.

End LogOrder.

(* ================================================================== *)
(** * Users *)
(* ================================================================== *)

Section Users.
Context {zone : TimeZone} {order : Sql.RowOrder}.

Lemma MemUsers_get_set (k id : Z) (v : User.t) (m : list (Z * User.t)) :
  MemUsers.get id (MemUsers.set k v m)
  = if k =? id then Some v else MemUsers.get id m.
Proof.
  induction m as [|[k' v'] m IH]; simpl.
  - reflexivity.
  - destruct (Z.eqb_spec k' k) as [->|Hk]; simpl.
    + now destruct (Z.eqb_spec k id).
    + rewrite IH. destruct (Z.eqb_spec k' id) as [->|];
        [|reflexivity].
      destruct (Z.eqb_spec k id); [congruence | reflexivity].
Qed.

Lemma MemUsers_set_fresh (k : Z) (v : User.t) (m : list (Z * User.t)) :
  MemUsers.get k m = None -> MemUsers.set k v m = m ++ [(k, v)].
Proof.
  induction m as [|[k' v'] m IH]; simpl; [reflexivity|].
  destruct (k' =? k); [discriminate|]. intros Hnone. now rewrite IH.
Qed.

Lemma MemUsers_created_ind (P : MemUsers.t -> Prop) :
  P MemUsers.constructor ->
  (forall s insertUser, P s -> P (snd (MemUsers.createUser insertUser s))) ->
  forall inserts, P (MemUsers.created inserts).
Proof.
  intros Hinit Hstep inserts. unfold MemUsers.created.
  revert Hinit. generalize MemUsers.constructor as s.
  induction inserts as [|ins inserts IH]; intros s Hs; simpl; [assumption|].
  apply IH. now apply Hstep.
Qed.

Lemma MemUsers_created_fresh (inserts : list InsertUser.t) (id : Z) :
  MemUsers.userCurrentId (MemUsers.created inserts) <= id ->
  MemUsers.getUser id (MemUsers.created inserts) = None.
Proof.
  revert id.
  apply (MemUsers_created_ind
           (fun s => forall id, MemUsers.userCurrentId s <= id ->
                                MemUsers.getUser id s = None)).
  - reflexivity.
  - intros s ins Hs id. unfold MemUsers.getUser, MemUsers.createUser in *.
    cbn [snd MemUsers.users MemUsers.userCurrentId]. intros Hid.
    rewrite MemUsers_get_set.
    destruct (Z.eqb_spec (MemUsers.userCurrentId s) id); [lia|].
    apply Hs. lia.
Qed.

Lemma find_app_last {A} (f : A -> bool) (l : list A) (x : A) :
  List.find f (l ++ [x])
  = match List.find f l with
    | Some y => Some y
    | None => if f x then Some x else None
    end.
Proof.
  induction l as [|y l IH]; simpl; [reflexivity|].
  now destruct (f y).
Qed.

(** The memory storage gives each new user the next id, which no user
    has; the user is then found under that id, and the users before
    under theirs.  It does not look at the username: a lookup by a
    username that was taken keeps answering the user who had it
    first. *)
Theorem mem_createUser_then_lookup (inserts : list InsertUser.t)
  (insertUser : InsertUser.t) (id : Z) :
  let s := MemUsers.created inserts in
  let user := fst (MemUsers.createUser insertUser s) in
  let s' := snd (MemUsers.createUser insertUser s) in
  User.id user = MemUsers.userCurrentId s
  /\ User.username user = InsertUser.username insertUser
  /\ User.password user = InsertUser.password insertUser
  /\ MemUsers.getUser (User.id user) s = None
  /\ MemUsers.getUser id s'
     = (if User.id user =? id then Some user else MemUsers.getUser id s)
  /\ MemUsers.getUserByUsername (InsertUser.username insertUser) s'
     = match MemUsers.getUserByUsername (InsertUser.username insertUser) s with
       | Some first => Some first
       | None => Some user
       end.
Proof.
  cbv zeta.
  assert (Hfresh : MemUsers.getUser (MemUsers.userCurrentId (MemUsers.created inserts))
                     (MemUsers.created inserts) = None)
    by (apply MemUsers_created_fresh; lia).
  split_and!; try reflexivity.
  - exact Hfresh.
  - unfold MemUsers.getUser, MemUsers.createUser.
    cbn [fst snd MemUsers.users User.id]. apply MemUsers_get_set.
  - unfold MemUsers.getUserByUsername, MemUsers.createUser.
    cbn [fst snd MemUsers.users].
    rewrite MemUsers_set_fresh by exact Hfresh.
    rewrite List.map_app. cbn [List.map snd].
    rewrite find_app_last. cbn [User.username].
    now rewrite String.eqb_refl.
Qed.

Lemma DbUsers_created_ind (P : DbUsers.t -> Prop) :
  P DbUsers.constructor ->
  (forall db insertUser, P db -> P (snd (DbUsers.createUser insertUser db))) ->
  forall inserts, P (DbUsers.created inserts).
Proof.
  intros Hinit Hstep inserts. unfold DbUsers.created.
  revert Hinit. generalize DbUsers.constructor as db.
  induction inserts as [|ins inserts IH]; intros db Hdb; simpl; [assumption|].
  apply IH. now apply Hstep.
Qed.

Lemma DbUsers_created_fresh (inserts : list InsertUser.t) (id : Z) :
  DbUsers.usersSeq (DbUsers.created inserts) <= id ->
  DbUsers.getUser id (DbUsers.created inserts) = None.
Proof.
  revert id.
  apply (DbUsers_created_ind
           (fun db => forall id, DbUsers.usersSeq db <= id ->
                                 DbUsers.getUser id db = None)).
  - intros id _. apply lookup_empty.
  - intros db ins Hdb id. unfold DbUsers.getUser, DbUsers.createUser in *.
    destruct (DbUsers.getUserByUsername _ db);
      cbn [snd DbUsers.users DbUsers.usersSeq]; intros Hid.
    + apply Hdb. lia.
    + rewrite lookup_insert_ne by lia. apply Hdb. lia.
Qed.

Lemma find_unique {A} (f : A -> bool) (l : list A) (x : A) :
  In x l -> f x = true -> (forall y, In y l -> f y = true -> y = x) ->
  List.find f l = Some x.
Proof.
  intros Hin Hfx Huniq.
  destruct (List.find f l) as [y|] eqn:Hfind.
  - apply find_some in Hfind as [Hy Hfy]. f_equal. now apply Huniq.
  - now rewrite (find_none _ _ Hfind x Hin) in Hfx.
Qed.

Lemma hd_error_filter_find {A} (f : A -> bool) (l : list A) :
  List.hd_error (List.filter f l) = List.find f l.
Proof.
  induction l as [|x l IH]; simpl; [reflexivity|].
  now destruct (f x).
Qed.

Lemma db_rows_In_Z {V : Type} (m : gmap Z V) (row : V) :
  In row (Sql.rows m) <-> exists k, m !! k = Some row.
Proof.
  unfold Sql.rows. rewrite in_map_iff. split.
  - intros ([k v] & <- & Hin). exists k.
    apply list_elem_of_In in Hin. now apply elem_of_map_to_list in Hin.
  - intros [k Hk]. exists (k, row). split; [reflexivity|].
    apply list_elem_of_In. now apply elem_of_map_to_list.
Qed.

(** The database storage rejects a new user when a user has the
    username, and then stores nothing; otherwise the user gets an id
    that no user has and is found under that id and under the username,
    and the users before are found as before. *)
Theorem db_createUser_then_lookup (inserts : list InsertUser.t)
  (insertUser : InsertUser.t) (id : Z) :
  let db := DbUsers.created inserts in
  let db' := snd (DbUsers.createUser insertUser db) in
  match fst (DbUsers.createUser insertUser db) with
  | Ok user =>
      DbUsers.getUserByUsername (InsertUser.username insertUser) db = None
      /\ User.username user = InsertUser.username insertUser
      /\ User.password user = InsertUser.password insertUser
      /\ DbUsers.getUser (User.id user) db = None
      /\ DbUsers.getUser id db'
         = (if User.id user =? id then Some user else DbUsers.getUser id db)
      /\ DbUsers.getUserByUsername (InsertUser.username insertUser) db'
         = Some user
  | Err _ =>
      (exists taken,
         DbUsers.getUserByUsername (InsertUser.username insertUser) db
         = Some taken)
      /\ DbUsers.getUser id db' = DbUsers.getUser id db
      /\ DbUsers.getUserByUsername (InsertUser.username insertUser) db'
         = DbUsers.getUserByUsername (InsertUser.username insertUser) db
  end.
Proof.
  cbv zeta.
  assert (Hfresh : DbUsers.getUser (DbUsers.usersSeq (DbUsers.created inserts))
                     (DbUsers.created inserts) = None)
    by (apply DbUsers_created_fresh; lia).
  set (db := DbUsers.created inserts) in *.
  unfold DbUsers.createUser.
  destruct (DbUsers.getUserByUsername (InsertUser.username insertUser) db)
    as [taken|] eqn:Hname; cbn [fst snd].
  - split_and!; [now exists taken | reflexivity | exact Hname].
  - split_and!; try reflexivity.
    + exact Hfresh.
    + unfold DbUsers.getUser. cbn [DbUsers.users User.id].
      destruct (Z.eqb_spec (DbUsers.usersSeq db) id) as [<-|Hne].
      * apply lookup_insert_eq.
      * now apply lookup_insert_ne.
    + unfold DbUsers.getUserByUsername in *. cbn [DbUsers.users].
      rewrite hd_error_filter_find in *. apply find_unique.
      * apply db_rows_In_Z. exists (DbUsers.usersSeq db). apply lookup_insert_eq.
      * cbn [User.username]. apply String.eqb_refl.
      * intros other Hother Hsame.
        apply db_rows_In_Z in Hother as [k Hk].
        rewrite lookup_insert in Hk.
        destruct (decide (DbUsers.usersSeq db = k)); [now injection Hk|].
        assert (Hin : In other (Sql.rows (DbUsers.users db)))
          by (apply db_rows_In_Z; now exists k).
        now rewrite (find_none _ _ Hname other Hin) in Hsame.
Qed.

End Users.

(* ================================================================== *)
(** * The commands *)
(* ================================================================== *)

Section CommandEffects.
Context {zone : TimeZone} {order : Sql.RowOrder}.

(** Of the commands only clear writes to the storage: any other verb,
    known or not, hands back the storage it was given, whatever the
    storage implementation; a verb that is none of the four is answered
    with the unknown-command error. *)
Theorem executeCommand_writes_only_on_clear {St : Type} `{IStorage St}
  (formatDate : Z -> string) (now : Z) (command : string) (args : list string)
  (storage : St) (bot : DiscordBot.t) :
  command <> "!clear" ->
  snd (Utils.executeCommand formatDate now command args storage bot) = storage
  /\ (command <> "!help" -> command <> "!messages" -> command <> "!stats" ->
      fst (Utils.executeCommand formatDate now command args storage bot)
      = Err "Unknown command. Type !help for a list of commands").
Proof.
  intros Hclear. unfold Utils.executeCommand.
  destruct (String.eqb_spec command "!help") as [|Hhelp];
    [split; [reflexivity | congruence]|].
  destruct (String.eqb_spec command "!messages") as [|Hmessages];
    [split; [reflexivity | congruence]|].
  destruct (String.eqb_spec command "!stats") as [|Hstats];
    [split; [reflexivity | congruence]|].
  destruct (String.eqb_spec command "!clear") as [|_]; [contradiction|].
  split; reflexivity.
Qed.

Lemma take_digits_app (ds rest : string) :
  Js.all_digits ds = true ->
  Utils.take_digits (ds +:+ String ">" rest) = (ds, String ">" rest).
Proof.
  induction ds as [|c ds IH]; intros Hall.
  - reflexivity.
  - cbn [Js.all_digits] in Hall. apply andb_true_iff in Hall as [Hc Hds].
    rewrite append_cons. cbn [Utils.take_digits]. rewrite Hc.
    now rewrite (IH Hds).
Qed.

Lemma is_digit_not_lt (c : ascii) (s : string) :
  Js.is_digit c = true -> Utils.mention_here (String c s) = None.
Proof.
  intros Hc. unfold Utils.mention_here.
  destruct c as [[] [] [] [] [] [] [] []]; try reflexivity; discriminate.
Qed.

Lemma channelMatch_digits (ds : string) :
  Js.all_digits ds = true -> Utils.channelMatch ds = None.
Proof.
  induction ds as [|c ds IH]; intros Hall.
  - reflexivity.
  - cbn [Js.all_digits] in Hall. apply andb_true_iff in Hall as [Hc Hds].
    cbn [Utils.channelMatch]. rewrite (is_digit_not_lt c ds Hc).
    now apply IH.
Qed.

(** The messages command takes its channel from a mention: the argument
    <#id> selects the channel id.  A bare id is no channel reference,
    and as the first argument it is not read as the count either: the
    command then lists five messages of all channels. *)
Theorem messages_channel_is_a_mention (id : string) :
  id <> EmptyString -> Js.all_digits id = true ->
  Utils.messagesArgs ["<#" +:+ id +:+ ">"] = (Some id, 5)
  /\ Utils.messagesArgs [id] = (None, 5).
Proof.
  intros Hne Hall. unfold Utils.messagesArgs. split.
  - rewrite !append_cons. change (EmptyString +:+ id +:+ ">") with (id +:+ ">").
    destruct id as [|d ds]; [contradiction|].
    cbn [Utils.channelMatch]. unfold Utils.mention_here.
    rewrite (take_digits_app (String d ds) EmptyString Hall). reflexivity.
  - now rewrite (channelMatch_digits id Hall).
Qed.

End CommandEffects.

Lemma executeCommand_writes_only_on_clear_witness :
  snd (Utils.executeCommand (H := Sample.memStorage) Sample.formatDate 0 "!ping" []
         MemStorage.constructor Sample.bot) = MemStorage.constructor
  /\ fst (Utils.executeCommand (H := Sample.memStorage) Sample.formatDate 0 "!ping" []
            MemStorage.constructor Sample.bot)
     = Err "Unknown command. Type !help for a list of commands".
Proof.
  destruct (executeCommand_writes_only_on_clear (H := Sample.memStorage)
              Sample.formatDate 0 "!ping" []
              MemStorage.constructor Sample.bot) as [Hstorage Hunknown];
    [discriminate|].
  split; [exact Hstorage | apply Hunknown; discriminate].
Defined.

Lemma messages_channel_is_a_mention_witness :
  Utils.messagesArgs ["<#" +:+ "1234" +:+ ">"] = (Some "1234", 5)
  /\ Utils.messagesArgs ["1234"] = (None, 5).
Proof.
  apply (messages_channel_is_a_mention "1234").
  - discriminate.
  - reflexivity.
Defined.

(* ================================================================== *)
(** * The read routes *)
(* ================================================================== *)

Section ReadRoutes.
Context {zone : TimeZone} {order : Sql.RowOrder}.

Lemma sorted_last_least {A} (key : A -> Z) (l : list A) (m : A) :
  StronglySorted (Js.desc key) l ->
  nth_error l (List.length l - 1) = Some m ->
  forall x, In x l -> key m <= key x.
Proof.
  induction 1 as [|y l Hsorted IH Hall]; intros Hlast x Hx.
  - destruct Hx.
  - destruct l as [|z l].
    + simpl in Hlast. injection Hlast as <-. destruct Hx as [<-|[]]. lia.
    + replace (List.length (y :: z :: l) - 1)%nat
        with (S (List.length (z :: l) - 1)) in Hlast by (simpl; lia).
      cbn [nth_error] in Hlast. specialize (IH Hlast).
      destruct Hx as [<-|Hx]; [|now apply IH].
      apply nth_error_In in Hlast.
      rewrite List.Forall_forall in Hall. apply (Hall m Hlast).
Qed.

Lemma hd_firstn_skipn {A} (l : list A) (k : nat) :
  List.hd_error (firstn 1 (skipn k l)) = nth_error l k.
Proof.
  revert l. induction k as [|k IH]; intros [|x l]; try reflexivity.
  apply IH.
Qed.

Lemma slice_last {A} (l : list A) :
  0 < Z.of_nat (List.length l) ->
  List.hd_error
    (Js.slice l (Z.of_nat (List.length l) - 1) (Z.of_nat (List.length l) - 1 + 1))
  = nth_error l (List.length l - 1).
Proof.
  intros Hpos.
  replace (Z.of_nat (List.length l) - 1) with (Z.of_nat (List.length l - 1)) by lia.
  change 1 with (Z.of_nat 1).
  rewrite (slice_from_offset l (List.length l - 1) 1). apply hd_firstn_skipn.
Qed.

Lemma limit_offset_last {A} (l : list A) :
  0 < Z.of_nat (List.length l) ->
  Sql.limit_offset 1 (Z.of_nat (List.length l) - 1) l
  = Ok (firstn 1 (skipn (List.length l - 1) l)).
Proof.
  intros Hpos. unfold Sql.limit_offset. cbn [Z.ltb Z.compare].
  destruct (Z.ltb_spec (Z.of_nat (List.length l) - 1) 0); [lia|].
  do 3 f_equal. lia.
Qed.

Lemma sorted_last_is_oldest (l : list DiscordMessage.t) :
  0 < Z.of_nat (List.length l) ->
  exists oldest,
    nth_error (Js.sort_desc DiscordMessage.created_at l) (List.length l - 1)
    = Some oldest
    /\ In oldest l
    /\ forall msg, In msg l ->
         DiscordMessage.created_at oldest <= DiscordMessage.created_at msg.
Proof.
  intros Hpos.
  destruct (nth_error (Js.sort_desc DiscordMessage.created_at l) (List.length l - 1))
    as [oldest|] eqn:Hnth.
  - exists oldest. split; [reflexivity|]. split.
    + apply nth_error_In in Hnth. now apply sort_desc_In in Hnth.
    + intros msg Hmsg.
      apply (sorted_last_least DiscordMessage.created_at
               (Js.sort_desc DiscordMessage.created_at l)).
      * apply sort_desc_sorted.
      * now rewrite sort_desc_length.
      * now apply sort_desc_In.
  - apply nth_error_None in Hnth. rewrite sort_desc_length in Hnth. lia.
Qed.

(** The oldest message of GET /api/stats: the route asks for the page of
    one message at offset total - 1, and what it gets is a stored
    message that no stored message is older than; it is N/A exactly when
    no message is stored.  For both storages, in every state. *)
Theorem stats_oldest_message (s : MemStorage.t) (db : DatabaseStorage.t) :
  match Api.oldestMessage s with
  | Ok (Some oldest) =>
      In oldest (JsMap.values (MemStorage.discordMessages s))
      /\ forall msg, In msg (JsMap.values (MemStorage.discordMessages s)) ->
           DiscordMessage.created_at oldest <= DiscordMessage.created_at msg
  | Ok None => MemStorage.discordMessages s = []
  | Err _ => False
  end
  /\ match Api.oldestMessage db with
     | Ok (Some oldest) =>
         In oldest (Sql.rows (DatabaseStorage.discordMessages db))
         /\ forall msg, In msg (Sql.rows (DatabaseStorage.discordMessages db)) ->
              DiscordMessage.created_at oldest <= DiscordMessage.created_at msg
     | Ok None => DatabaseStorage.discordMessages db = ∅
     | Err _ => False
     end.
Proof.
  split.
  - unfold Api.oldestMessage. cbn [getMessages MemStorage_IStorage].
    pose proof (mem_total_unfiltered s) as Htotal.
    destruct (MemStorage.getMessages MessageQuery.empty s) as [page total].
    cbn [snd] in Htotal. subst total. unfold JsMap.size.
    destruct (Z.ltb_spec 0 (Z.of_nat (List.length (MemStorage.discordMessages s))))
      as [Hpos|Hzero].
    + unfold MemStorage.getMessages.
      cbn [truthy MessageQuery.serverId MessageQuery.channelId MessageQuery.search
           MessageQuery.limit MessageQuery.offset Js.default_to].
      assert (Hlen : List.length
                       (Js.sort_desc DiscordMessage.created_at
                          (JsMap.values (MemStorage.discordMessages s)))
                     = List.length (MemStorage.discordMessages s))
        by (rewrite sort_desc_length; apply length_map).
      rewrite <- Hlen, slice_last by lia. rewrite Hlen.
      assert (Hvalues : 0 < Z.of_nat
                (List.length (JsMap.values (MemStorage.discordMessages s))))
        by (unfold JsMap.values; rewrite length_map; lia).
      destruct (sorted_last_is_oldest _ Hvalues) as (oldest & Hnth & Hin & Hleast).
      unfold JsMap.values in Hnth at 2. rewrite length_map in Hnth.
      rewrite Hnth. now split.
    + destruct (MemStorage.discordMessages s); [reflexivity|]. simpl in Hzero. lia.
  - unfold Api.oldestMessage. cbn [getMessages DatabaseStorage_IStorage].
    destruct (db_total_unfiltered db) as [page ->]. unfold Sql.count.
    destruct (Z.ltb_spec 0 (Z.of_nat (size (DatabaseStorage.discordMessages db))))
      as [Hpos|Hzero].
    + unfold DatabaseStorage.getMessages.
      rewrite (filter_all (DatabaseStorage.conditions _)) by reflexivity.
      cbn [MessageQuery.limit MessageQuery.offset Js.default_to].
      set (taken := Sql.tieOrder _
                      (Sql.rows (DatabaseStorage.discordMessages db))).
      assert (Hperm : Permutation taken
                        (Sql.rows (DatabaseStorage.discordMessages db)))
        by apply Sql.tieOrder_perm.
      assert (Hrows : List.length taken
                      = size (DatabaseStorage.discordMessages db)).
      { rewrite (Permutation_length Hperm). unfold Sql.rows.
        now rewrite length_map, length_map_to_list. }
      assert (Hlen : List.length
                       (Js.sort_desc DiscordMessage.created_at taken)
                     = size (DatabaseStorage.discordMessages db))
        by now rewrite sort_desc_length.
      rewrite <- Hlen, limit_offset_last by lia. rewrite hd_firstn_skipn, Hlen.
      assert (Hpos' : 0 < Z.of_nat (List.length taken)) by lia.
      destruct (sorted_last_is_oldest _ Hpos') as (oldest & Hnth & Hin & Hleast).
      rewrite Hrows in Hnth. rewrite Hnth. split.
      * now apply (Permutation_in _ Hperm).
      * intros msg Hmsg. apply Hleast.
        now apply (Permutation_in _ (Permutation_sym Hperm)).
    + apply map_size_empty_iff. lia.
Qed.

Lemma find_values_get {V : Type} (id : V -> string) (k : string) (m : JsMap.t V) :
  Reach.keyed id m ->
  List.find (fun v => String.eqb (id v) k) (JsMap.values m) = JsMap.get k m.
Proof.
  intros [_ Hall]. induction Hall as [|[k' v] m Hhead Htail IH]; [reflexivity|].
  cbn [fst snd] in Hhead. subst k'. cbn [JsMap.values List.map snd List.find JsMap.get].
  destruct (String.eqb (id v) k); [reflexivity | exact IH].
Qed.

Lemma find_rows_lookup {V : Type} (id : V -> string) (k : string) (m : gmap string V) :
  (forall k row, m !! k = Some row -> id row = k) ->
  List.find (fun v => String.eqb (id v) k) (Sql.rows m) = m !! k.
Proof.
  intros Hkeyed.
  destruct (List.find (fun v => String.eqb (id v) k) (Sql.rows m)) as [v|] eqn:Hfind.
  - apply find_some in Hfind as [Hin Hid].
    apply String.eqb_eq in Hid. subst k.
    symmetry. now apply (db_rows_In_keyed id m v Hkeyed).
  - destruct (m !! k) as [v|] eqn:Hk; [|reflexivity].
    assert (Hin : In v (Sql.rows m)) by (apply db_rows_In; now exists k).
    pose proof (find_none _ _ Hfind v Hin) as Hno. cbv beta in Hno.
    rewrite (Hkeyed _ _ Hk), String.eqb_refl in Hno. discriminate.
Qed.

(** The channel name that GET /api/messages sends with a message is the
    name of the channel stored under the message's channel_id, and
    unknown-channel when none is: the search through the list of all
    channels finds what the lookup by id finds, in every state that
    repository calls lead to, for both storages. *)
Theorem channel_name_is_lookup (ops : list Workload.Op)
  (message : DiscordMessage.t) :
  let s := Workload.run ops MemStorage.constructor in
  let db := Workload.run ops DatabaseStorage.constructor in
  Api.channelName (MemStorage.getChannels None s) message
  = match MemStorage.getChannel (DiscordMessage.channel_id message) s with
    | Some channel => DiscordChannel.name channel
    | None => "unknown-channel"
    end
  /\ Api.channelName (DatabaseStorage.getChannels None db) message
     = match DatabaseStorage.getChannel (DiscordMessage.channel_id message) db with
       | Some channel => DiscordChannel.name channel
       | None => "unknown-channel"
       end.
Proof.
  cbv zeta. split.
  - destruct (mem_run_keyed ops) as (_ & Hchannels & _).
    unfold Api.channelName, MemStorage.getChannels, MemStorage.getChannel.
    cbn [truthy]. now rewrite (find_values_get DiscordChannel.id _ _ Hchannels).
  - destruct (db_run_keyed ops) as (_ & Hchannels & _).
    unfold Api.channelName, DatabaseStorage.getChannels, DatabaseStorage.getChannel.
    cbn [truthy]. now rewrite (find_rows_lookup DiscordChannel.id _ _ Hchannels).
Qed.

End ReadRoutes.

(* ================================================================== *)
(** * The event handlers of the bot *)
(* ================================================================== *)

Section BotEvents.
Context {zone : TimeZone} {order : Sql.RowOrder}.

Section GatewayRuns.
Context {St : Type} `{IStorage St}.
Variable formatDate : Z -> string.
Variable reply : string -> option string.

Lemma run_app (ops1 ops2 : list Workload.Op) (storage : St) :
  Workload.run (ops1 ++ ops2) storage
  = Workload.run ops2 (Workload.run ops1 storage).
Proof. unfold Workload.run. apply fold_left_app. Qed.

Lemma executeCommand_is_run (now : Z) (command : string) (args : list string)
  (storage : St) (bot : DiscordBot.t) :
  exists ops,
    snd (Utils.executeCommand formatDate now command args storage bot)
    = Workload.run ops storage.
Proof.
  unfold Utils.executeCommand.
  destruct (String.eqb command "!help"); [now exists []|].
  destruct (String.eqb command "!messages"); [now exists []|].
  destruct (String.eqb command "!stats"); [now exists []|].
  destruct (String.eqb command "!clear"); [|now exists []].
  exists [Workload.DeleteOldMessages now]. unfold Utils.formatClearCommand.
  cbn [Workload.run List.fold_left Workload.step].
  now destruct (deleteOldMessages now storage).
Qed.

Lemma handleCommand_is_run (now : Z) (message : Discord.Message)
  (bot : DiscordBot.t) (storage : St) :
  exists ops,
    snd (Gateway.handleCommand formatDate reply now message bot storage)
    = Workload.run ops storage.
Proof.
  unfold Gateway.handleCommand.
  destruct (Js.split_space (Discord.content message)) as [|verb args];
    [now exists []|].
  destruct (executeCommand_is_run now (Js.toLowerCase verb) args storage bot)
    as [ops Hops].
  destruct (Utils.executeCommand formatDate now (Js.toLowerCase verb) args storage bot)
    as [outcome storage1].
  cbn [snd] in Hops. subst storage1.
  destruct outcome as [response|e].
  - destruct (reply response) as [e|].
    + destruct (reply ("Error: " +:+ e)).
      * exists (ops ++ [Workload.CreateCommandLog
                          (Gateway.commandLog message response now)]).
        now rewrite run_app.
      * exists (ops ++ [Workload.CreateCommandLog
                          (Gateway.commandLog message response now);
                        Workload.CreateCommandLog
                          (Gateway.commandLog message ("Error: " +:+ e) now)]).
        now rewrite run_app.
    + exists (ops ++ [Workload.CreateCommandLog
                        (Gateway.commandLog message response now)]).
      now rewrite run_app.
  - destruct (reply ("Error: " +:+ e)).
    + now exists ops.
    + exists (ops ++ [Workload.CreateCommandLog
                        (Gateway.commandLog message ("Error: " +:+ e) now)]).
      now rewrite run_app.
Qed.

Lemma storeMessage_is_run (message : Discord.Message) (storage : St) :
  exists ops, Gateway.storeMessage message storage = Workload.run ops storage.
Proof.
  unfold Gateway.storeMessage. destruct (Discord.guild message) as [guildId|].
  - now exists [Workload.CreateMessage (Gateway.storedMessage message guildId)].
  - now exists [].
Qed.

Lemma onMessageCreate_is_run (now : Z) (message : Discord.Message)
  (bot : DiscordBot.t) (storage : St) :
  exists ops,
    snd (Gateway.onMessageCreate formatDate reply now message bot storage)
    = Workload.run ops storage.
Proof.
  unfold Gateway.onMessageCreate.
  destruct (Discord.author_bot message); [now exists []|].
  destruct (storeMessage_is_run message storage) as [ops1 ->].
  destruct (Js.startsWith (Discord.content message) "!"); [|now exists ops1].
  destruct (handleCommand_is_run now message bot (Workload.run ops1 storage))
    as [ops2 Hops2].
  destruct (Gateway.handleCommand formatDate reply now message bot
              (Workload.run ops1 storage)) as [[sent thrown] storage2].
  cbn [snd] in *. subst storage2. exists (ops1 ++ ops2). now rewrite run_app.
Qed.

Lemma syncGuild_is_run (now : Z) (guild : Discord.Guild) (storage : St) :
  Gateway.syncGuild now storage guild
  = Workload.run (Gateway.syncGuildCalls now guild) storage.
Proof.
  unfold Gateway.syncGuild, Gateway.syncGuildCalls, Workload.run.
  cbn [List.fold_left Workload.step].
  generalize (snd (createServer (Gateway.syncedServer now guild) storage)) as s.
  induction (Gateway.textChannels guild) as [|channel channels IH]; intros s;
    [reflexivity|].
  cbn [List.fold_left List.map Workload.step]. apply IH.
Qed.

Lemma syncServersAndChannels_is_run (now : Z) (guilds : list Discord.Guild)
  (storage : St) :
  Gateway.syncServersAndChannels now guilds storage
  = Workload.run (List.concat (List.map (Gateway.syncGuildCalls now) guilds)) storage.
Proof.
  unfold Gateway.syncServersAndChannels. revert storage.
  induction guilds as [|guild guilds IH]; intros storage; [reflexivity|].
  cbn [List.fold_left List.map List.concat].
  now rewrite run_app, IH, syncGuild_is_run.
Qed.

Lemma handleAll_is_run (bot : DiscordBot.t) (events : list (Z * Gateway.Event))
  (storage : St) :
  exists ops,
    Gateway.handleAll formatDate reply bot events storage
    = Workload.run ops storage.
Proof.
  unfold Gateway.handleAll. revert storage.
  induction events as [|[now event] events IH]; intros storage; [now exists []|].
  cbn [List.fold_left].
  assert (Hstep : exists ops,
             Gateway.handle formatDate reply bot storage (now, event)
             = Workload.run ops storage).
  { destruct event as [guilds|message|]; cbn [Gateway.handle].
    - eexists. apply syncServersAndChannels_is_run.
    - apply onMessageCreate_is_run.
    - now exists [Workload.DeleteOldMessages now]. }
  destruct Hstep as [ops1 ->].
  destruct (IH (Workload.run ops1 storage)) as [ops2 ->].
  exists (ops1 ++ ops2). now rewrite run_app.
Qed.

End GatewayRuns.

(** Whatever syncs, messages, commands and hourly cleanups the bot
    handles, with replies that are sent or fail, the counts of the
    status equal the sizes of the collections afterwards and every
    record stands under its own id, in both storages: the handlers
    change the storage through repository calls only. *)
Theorem gateway_keeps_counts_and_keys (formatDate : Z -> string)
  (reply : string -> option string) (bot : DiscordBot.t)
  (events : list (Z * Gateway.Event)) :
  let s := Gateway.handleAll formatDate reply bot events MemStorage.constructor in
  let db :=
    Gateway.handleAll formatDate reply bot events DatabaseStorage.constructor in
  Workload.mem_counts_live s /\ Reach.mem_keyed s
  /\ Workload.db_counts_live db /\ Reach.db_keyed db.
Proof.
  cbv zeta.
  destruct (handleAll_is_run formatDate reply bot events MemStorage.constructor)
    as [ops1 ->].
  destruct (handleAll_is_run formatDate reply bot events DatabaseStorage.constructor)
    as [ops2 ->].
  split_and!.
  - apply mem_run_counts_live.
  - apply mem_run_keyed.
  - apply db_run_counts_live.
  - apply db_run_keyed.
Qed.

(** A command typed in Discord and the same text posted to
    /api/execute-command do the same to the storage and answer with the
    same text, when the verb is in lower case, the client is ready and
    the reply is sent: the reply in Discord is the response of the route,
    or Error: and the message the route reports with status 500. *)
Theorem discord_and_route_agree {St : Type} `{IStorage St}
  (formatDate : Z -> string) (reply : string -> option string) (now : Z)
  (message : Discord.Message) (bot : DiscordBot.t) (storage : St)
  (verb : string) (args : list string) :
  Js.split_space (Discord.content message) = verb :: args ->
  Js.toLowerCase verb = verb ->
  Js.startsWith verb "!" = true ->
  DiscordBot.clientReady bot = true ->
  (forall text, reply text = None) ->
  let discord := Gateway.handleCommand formatDate reply now message bot storage in
  let route :=
    Routes.executeCommandRoute formatDate now (Some (Discord.content message))
      (Some bot) storage in
  snd discord = snd route /\ snd (fst discord) = None
  /\ match Routes.json (fst route) with
     | Routes.response text =>
         fst (fst discord) = [text] /\ Routes.status (fst route) = 200
     | Routes.message text =>
         exists e, text = "Error executing command: " +:+ e
                   /\ fst (fst discord) = ["Error: " +:+ e]
                   /\ Routes.status (fst route) = 500
     end.
Proof.
  intros Hsplit Hlower Hbang Hready Hreply. cbv zeta.
  unfold Gateway.handleCommand, Routes.executeCommandRoute.
  rewrite Hsplit, Hlower, Hbang, Hready. cbn [negb].
  destruct (Utils.executeCommand formatDate now verb args storage bot)
    as [[response|e] storage1].
  - rewrite Hreply. unfold Gateway.commandLog.
    destruct (createCommandLog _ storage1) as [log storage2].
    cbn [fst snd Routes.json Routes.status]. auto.
  - rewrite Hreply. unfold Gateway.commandLog.
    destruct (createCommandLog _ storage1) as [log storage2].
    cbn [fst snd Routes.json Routes.status app]. split_and!; try reflexivity.
    now exists e.
Qed.

Lemma toLowerCase_help_bang (verb : string) :
  Js.toLowerCase verb = "!help" -> Js.startsWith verb "!" = true.
Proof.
  destruct verb as [|c verb]; [discriminate|].
  cbn [Js.toLowerCase]. intros [= Hc _].
  unfold Js.startsWith. cbn [String.prefix].
  destruct c as [[] [] [] [] [] [] [] []]; try discriminate Hc.
  destruct verb; reflexivity.
Qed.

(** The bot folds the case of the verb, the route does not: a help
    command written with a capital letter is answered with the command
    list in Discord, and with status 500 and the unknown-command error
    by the route; both log it. *)
Theorem discord_folds_case_route_does_not {St : Type} `{IStorage St}
  (formatDate : Z -> string) (reply : string -> option string) (now : Z)
  (message : Discord.Message) (bot : DiscordBot.t) (storage : St)
  (verb : string) (args : list string) :
  Js.split_space (Discord.content message) = verb :: args ->
  Js.toLowerCase verb = "!help" ->
  verb <> "!help" ->
  DiscordBot.clientReady bot = true ->
  (forall text, reply text = None) ->
  Gateway.handleCommand formatDate reply now message bot storage
  = ([Utils.formatHelpCommand], None,
     snd (createCommandLog
            (InsertCommandLog.mk (Discord.content message)
               Utils.formatHelpCommand now) storage))
  /\ Routes.executeCommandRoute formatDate now (Some (Discord.content message))
       (Some bot) storage
     = (Routes.mk 500
          (Routes.message
             "Error executing command: Unknown command. Type !help for a list of commands"),
        snd (createCommandLog
               (InsertCommandLog.mk (Discord.content message)
                  "Error: Unknown command. Type !help for a list of commands" now)
               storage)).
Proof.
  intros Hsplit Hlower Hne Hready Hreply.
  assert (Hverb : forall known, Js.toLowerCase known = known -> known <> "!help" ->
                                String.eqb verb known = false).
  { intros known Hknown Hother. apply String.eqb_neq. intros ->. congruence. }
  split.
  - unfold Gateway.handleCommand. rewrite Hsplit, Hlower.
    unfold Utils.executeCommand. cbn [String.eqb Ascii.eqb Bool.eqb andb].
    now rewrite Hreply.
  - unfold Routes.executeCommandRoute.
    rewrite Hsplit, (toLowerCase_help_bang verb Hlower), Hready. cbn [negb].
    unfold Utils.executeCommand.
    rewrite (proj2 (String.eqb_neq verb "!help") Hne).
    rewrite !Hverb by (reflexivity || discriminate).
    destruct (createCommandLog _ storage) as [log storage2] eqn:Hlog.
    cbn [snd]. reflexivity.
Qed.

(** When no reply can be sent, a command that ran is logged once, with
    its response, and a command that failed is not logged at all: the
    error of the reply leaves handleCommand before the second
    createCommandLog. *)
Theorem unsent_reply_and_the_log {St : Type} `{IStorage St}
  (formatDate : Z -> string) (reply : string -> option string) (now : Z)
  (message : Discord.Message) (bot : DiscordBot.t) (storage : St)
  (verb : string) (args : list string) :
  Js.split_space (Discord.content message) = verb :: args ->
  (forall text, reply text <> None) ->
  let ran :=
    Utils.executeCommand formatDate now (Js.toLowerCase verb) args storage bot in
  let discord := Gateway.handleCommand formatDate reply now message bot storage in
  fst (fst discord) = [] /\ snd (fst discord) <> None
  /\ snd discord
     = match fst ran with
       | Ok response =>
           snd (createCommandLog
                  (InsertCommandLog.mk (Discord.content message) response now)
                  (snd ran))
       | Err _ => snd ran
       end.
Proof.
  intros Hsplit Hreply. cbv zeta. unfold Gateway.handleCommand. rewrite Hsplit.
  destruct (Utils.executeCommand formatDate now (Js.toLowerCase verb) args storage bot)
    as [[response|e] storage1].
  - destruct (reply response) as [e|] eqn:Hfirst; [|now apply Hreply in Hfirst].
    destruct (reply ("Error: " +:+ e)) as [e'|] eqn:Hsecond;
      [|now apply Hreply in Hsecond].
    now split_and!.
  - destruct (reply ("Error: " +:+ e)) as [e'|] eqn:Hsecond;
      [|now apply Hreply in Hsecond].
    now split_and!.
Qed.

End BotEvents.

Lemma discord_and_route_agree_witness :
  snd (Gateway.handleCommand (H := Sample.memStorage) Sample.formatDate GatewaySample.delivered 0
         (GatewaySample.message "!help") Sample.bot MemStorage.constructor)
  = snd (Routes.executeCommandRoute (H := Sample.memStorage) Sample.formatDate 0 (Some "!help")
           (Some Sample.bot) MemStorage.constructor)
  /\ fst (fst (Gateway.handleCommand (H := Sample.memStorage) Sample.formatDate GatewaySample.delivered 0
                 (GatewaySample.message "!help") Sample.bot MemStorage.constructor))
     = [Utils.formatHelpCommand].
Proof.
  destruct (discord_and_route_agree (H := Sample.memStorage) Sample.formatDate GatewaySample.delivered 0
              (GatewaySample.message "!help") Sample.bot MemStorage.constructor
              "!help" [])
    as (Hstorage & _ & Hsent); try reflexivity.
  split; [exact Hstorage | exact (proj1 Hsent)].
Defined.

Lemma discord_folds_case_route_does_not_witness :
  Gateway.handleCommand (H := Sample.memStorage) Sample.formatDate GatewaySample.delivered 0
    (GatewaySample.message "!Help") Sample.bot MemStorage.constructor
  = ([Utils.formatHelpCommand], None,
     snd (createCommandLog (IStorage := Sample.memStorage)
            (InsertCommandLog.mk "!Help" Utils.formatHelpCommand 0)
            MemStorage.constructor))
  /\ Routes.executeCommandRoute (H := Sample.memStorage) Sample.formatDate 0 (Some "!Help")
       (Some Sample.bot) MemStorage.constructor
     = (Routes.mk 500
          (Routes.message
             "Error executing command: Unknown command. Type !help for a list of commands"),
        snd (createCommandLog (IStorage := Sample.memStorage)
               (InsertCommandLog.mk "!Help"
                  "Error: Unknown command. Type !help for a list of commands" 0)
               MemStorage.constructor)).
Proof.
  apply (discord_folds_case_route_does_not (H := Sample.memStorage) Sample.formatDate
           GatewaySample.delivered 0 (GatewaySample.message "!Help")
           Sample.bot MemStorage.constructor "!Help" []);
    try reflexivity.
  discriminate.
Defined.

Lemma unsent_reply_and_the_log_witness :
  snd (Gateway.handleCommand (H := Sample.memStorage) Sample.formatDate GatewaySample.refused 0
         (GatewaySample.message "!ping") Sample.bot MemStorage.constructor)
  = MemStorage.constructor.
Proof.
  destruct (unsent_reply_and_the_log (H := Sample.memStorage) Sample.formatDate GatewaySample.refused 0
              (GatewaySample.message "!ping") Sample.bot MemStorage.constructor
              "!ping" [])
    as (_ & _ & Hstorage); [reflexivity | discriminate | exact Hstorage].
Defined.

(* ================================================================== *)
(** * syncServersAndChannels *)
(* ================================================================== *)

Section Sync.
Context {zone : TimeZone} {order : Sql.RowOrder}.

(** The sync over a storage of which only this is known: how a lookup
    answers after createServer and createChannel.  [upServer] and
    [upChannel] give the record stored for a record created, from what
    was stored under its id. *)
Section SyncLaws.
Context {St : Type} `{IStorage St}.
Variable upServer : DiscordServer.t -> option DiscordServer.t -> DiscordServer.t.
Variable upChannel : DiscordChannel.t -> option DiscordChannel.t -> DiscordChannel.t.
Hypothesis server_after_createServer :
  forall k server storage,
    getServer k (snd (createServer server storage))
    = if String.eqb (DiscordServer.id server) k
      then Some (upServer server (getServer k storage))
      else getServer k storage.
Hypothesis server_after_createChannel :
  forall k channel storage,
    getServer k (snd (createChannel channel storage)) = getServer k storage.
Hypothesis channel_after_createChannel :
  forall k channel storage,
    getChannel k (snd (createChannel channel storage))
    = if String.eqb (DiscordChannel.id channel) k
      then Some (upChannel channel (getChannel k storage))
      else getChannel k storage.
Hypothesis channel_after_createServer :
  forall k server storage,
    getChannel k (snd (createServer server storage)) = getChannel k storage.

Lemma syncChannels_getServer (guild : Discord.Guild)
  (channels : list Discord.Channel) (storage : St) (k : string) :
  getServer k
    (List.fold_left
       (fun storage channel =>
          snd (createChannel (Gateway.syncedChannel guild channel) storage))
       channels storage)
  = getServer k storage.
Proof.
  revert storage. induction channels as [|channel channels IH]; intros storage;
    [reflexivity|].
  cbn [List.fold_left]. now rewrite IH, server_after_createChannel.
Qed.

Lemma syncGuild_getServer (now : Z) (guild : Discord.Guild) (storage : St)
  (k : string) :
  getServer k (Gateway.syncGuild now storage guild)
  = if String.eqb (Discord.guild_id guild) k
    then Some (upServer (Gateway.syncedServer now guild) (getServer k storage))
    else getServer k storage.
Proof.
  unfold Gateway.syncGuild.
  now rewrite syncChannels_getServer, server_after_createServer.
Qed.

Lemma sync_getServer_other (now : Z) (guilds : list Discord.Guild)
  (storage : St) (k : string) :
  ~ In k (List.map Discord.guild_id guilds) ->
  getServer k (Gateway.syncServersAndChannels now guilds storage)
  = getServer k storage.
Proof.
  unfold Gateway.syncServersAndChannels. revert storage.
  induction guilds as [|guild guilds IH]; intros storage Hk; [reflexivity|].
  cbn [List.fold_left]. cbn [List.map In] in Hk.
  rewrite IH by tauto. rewrite syncGuild_getServer.
  destruct (String.eqb_spec (Discord.guild_id guild) k); [tauto | reflexivity].
Qed.

Lemma sync_getServer (now : Z) (guilds : list Discord.Guild) (storage : St)
  (guild : Discord.Guild) :
  NoDup (List.map Discord.guild_id guilds) -> In guild guilds ->
  getServer (Discord.guild_id guild)
    (Gateway.syncServersAndChannels now guilds storage)
  = Some (upServer (Gateway.syncedServer now guild)
            (getServer (Discord.guild_id guild) storage)).
Proof.
  revert storage. induction guilds as [|first guilds IH];
    intros storage Hnodup Hin; [destruct Hin|].
  cbn [List.map] in Hnodup. apply NoDup_cons in Hnodup as [Hfresh Hnodup].
  rewrite list_elem_of_In in Hfresh.
  change (Gateway.syncServersAndChannels now (first :: guilds) storage)
    with (Gateway.syncServersAndChannels now guilds
            (Gateway.syncGuild now storage first)).
  destruct Hin as [->|Hin].
  - rewrite sync_getServer_other by exact Hfresh.
    now rewrite syncGuild_getServer, String.eqb_refl.
  - rewrite (IH _ Hnodup Hin), syncGuild_getServer.
    destruct (String.eqb_spec (Discord.guild_id first) (Discord.guild_id guild))
      as [Heq|]; [|reflexivity].
    exfalso. apply Hfresh. rewrite Heq. now apply in_map.
Qed.

Lemma syncChannels_getChannel_other (guild : Discord.Guild)
  (channels : list Discord.Channel) (storage : St) (k : string) :
  ~ In k (List.map Discord.channel_id channels) ->
  getChannel k
    (List.fold_left
       (fun storage channel =>
          snd (createChannel (Gateway.syncedChannel guild channel) storage))
       channels storage)
  = getChannel k storage.
Proof.
  revert storage. induction channels as [|channel channels IH];
    intros storage Hk; [reflexivity|].
  cbn [List.fold_left]. cbn [List.map In] in Hk.
  rewrite IH by tauto. rewrite channel_after_createChannel.
  cbn [Gateway.syncedChannel DiscordChannel.id].
  destruct (String.eqb_spec (Discord.channel_id channel) k);
    [tauto | reflexivity].
Qed.

Lemma syncChannels_getChannel (guild : Discord.Guild)
  (channels : list Discord.Channel) (storage : St) (channel : Discord.Channel) :
  NoDup (List.map Discord.channel_id channels) -> In channel channels ->
  getChannel (Discord.channel_id channel)
    (List.fold_left
       (fun storage channel =>
          snd (createChannel (Gateway.syncedChannel guild channel) storage))
       channels storage)
  = Some (upChannel (Gateway.syncedChannel guild channel)
            (getChannel (Discord.channel_id channel) storage)).
Proof.
  revert storage. induction channels as [|first channels IH];
    intros storage Hnodup Hin; [destruct Hin|].
  cbn [List.map] in Hnodup. apply NoDup_cons in Hnodup as [Hfresh Hnodup].
  rewrite list_elem_of_In in Hfresh. cbn [List.fold_left].
  destruct Hin as [->|Hin].
  - rewrite syncChannels_getChannel_other by exact Hfresh.
    rewrite channel_after_createChannel.
    cbn [Gateway.syncedChannel DiscordChannel.id]. now rewrite String.eqb_refl.
  - rewrite (IH _ Hnodup Hin), channel_after_createChannel.
    cbn [Gateway.syncedChannel DiscordChannel.id].
    destruct (String.eqb_spec (Discord.channel_id first) (Discord.channel_id channel))
      as [Heq|]; [|reflexivity].
    exfalso. apply Hfresh. rewrite Heq. now apply in_map.
Qed.

Lemma syncGuild_getChannel_other (now : Z) (guild : Discord.Guild)
  (storage : St) (k : string) :
  ~ In k (List.map Discord.channel_id (Gateway.textChannels guild)) ->
  getChannel k (Gateway.syncGuild now storage guild) = getChannel k storage.
Proof.
  intros Hk. unfold Gateway.syncGuild.
  now rewrite syncChannels_getChannel_other, channel_after_createServer.
Qed.

Lemma syncGuild_getChannel (now : Z) (guild : Discord.Guild) (storage : St)
  (channel : Discord.Channel) :
  NoDup (List.map Discord.channel_id (Gateway.textChannels guild)) ->
  In channel (Gateway.textChannels guild) ->
  getChannel (Discord.channel_id channel) (Gateway.syncGuild now storage guild)
  = Some (upChannel (Gateway.syncedChannel guild channel)
            (getChannel (Discord.channel_id channel) storage)).
Proof.
  intros Hnodup Hin. unfold Gateway.syncGuild.
  now rewrite (syncChannels_getChannel _ _ _ _ Hnodup Hin),
    channel_after_createServer.
Qed.

Lemma sync_getChannel_other (now : Z) (guilds : list Discord.Guild)
  (storage : St) (k : string) :
  ~ In k (List.map Discord.channel_id
            (List.concat (List.map Gateway.textChannels guilds))) ->
  getChannel k (Gateway.syncServersAndChannels now guilds storage)
  = getChannel k storage.
Proof.
  unfold Gateway.syncServersAndChannels. revert storage.
  induction guilds as [|guild guilds IH]; intros storage Hk; [reflexivity|].
  cbn [List.fold_left]. cbn [List.map List.concat] in Hk.
  rewrite List.map_app, in_app_iff in Hk.
  rewrite IH by tauto. apply syncGuild_getChannel_other. tauto.
Qed.

Lemma sync_getChannel (now : Z) (guilds : list Discord.Guild) (storage : St)
  (guild : Discord.Guild) (channel : Discord.Channel) :
  NoDup (List.map Discord.channel_id
           (List.concat (List.map Gateway.textChannels guilds))) ->
  In guild guilds -> In channel (Gateway.textChannels guild) ->
  getChannel (Discord.channel_id channel)
    (Gateway.syncServersAndChannels now guilds storage)
  = Some (upChannel (Gateway.syncedChannel guild channel)
            (getChannel (Discord.channel_id channel) storage)).
Proof.
  revert storage. induction guilds as [|first guilds IH];
    intros storage Hnodup Hguild Hchannel; [destruct Hguild|].
  cbn [List.map List.concat] in Hnodup. rewrite List.map_app in Hnodup.
  apply NoDup_app in Hnodup as (Hfirst & Hdisjoint & Hrest).
  change (Gateway.syncServersAndChannels now (first :: guilds) storage)
    with (Gateway.syncServersAndChannels now guilds
            (Gateway.syncGuild now storage first)).
  destruct Hguild as [->|Hguild].
  - rewrite sync_getChannel_other.
    + now apply syncGuild_getChannel.
    + intros Hin. apply (Hdisjoint (Discord.channel_id channel)).
      * apply list_elem_of_In. now apply in_map.
      * now apply list_elem_of_In.
  - rewrite (IH _ Hrest Hguild Hchannel). do 2 f_equal.
    apply syncGuild_getChannel_other. intros Hin.
    apply (Hdisjoint (Discord.channel_id channel)).
    + now apply list_elem_of_In.
    + apply list_elem_of_In, in_map, in_concat.
      exists (Gateway.textChannels guild). split; [now apply in_map | exact Hchannel].
Qed.

End SyncLaws.

Lemma JsMap_get_set_cases {V : Type} (k id : string) (v : V) (m : JsMap.t V) :
  JsMap.get id (JsMap.set k v m)
  = if String.eqb k id then Some v else JsMap.get id m.
Proof.
  destruct (String.eqb_spec k id) as [->|Hne].
  - apply JsMap_get_set_eq.
  - now apply JsMap_get_set_ne.
Qed.

Lemma db_server_after_createServer (k : string) (server : DiscordServer.t)
  (db : DatabaseStorage.t) :
  DatabaseStorage.getServer k (snd (DatabaseStorage.createServer server db))
  = if String.eqb (DiscordServer.id server) k
    then Some match DatabaseStorage.getServer k db with
              | Some row => DatabaseStorage.set_name_icon server row
              | None => server
              end
    else DatabaseStorage.getServer k db.
Proof.
  unfold DatabaseStorage.createServer, DatabaseStorage.getServer.
  destruct (DatabaseStorage.discordServers db !! DiscordServer.id server)
    as [existing|] eqn:Hid; db_fields;
    rewrite ?gmap_lookup_alter_cases, ?gmap_lookup_insert_cases;
    destruct (String.eqb_spec (DiscordServer.id server) k) as [<-|];
    try reflexivity; now rewrite Hid.
Qed.

Lemma db_channel_after_createChannel (k : string) (channel : DiscordChannel.t)
  (db : DatabaseStorage.t) :
  DatabaseStorage.getChannel k (snd (DatabaseStorage.createChannel channel db))
  = if String.eqb (DiscordChannel.id channel) k
    then Some match DatabaseStorage.getChannel k db with
              | Some row => DatabaseStorage.set_name_type channel row
              | None => channel
              end
    else DatabaseStorage.getChannel k db.
Proof.
  unfold DatabaseStorage.createChannel, DatabaseStorage.getChannel.
  destruct (DatabaseStorage.discordChannels db !! DiscordChannel.id channel)
    as [existing|] eqn:Hid; db_fields;
    rewrite ?gmap_lookup_alter_cases, ?gmap_lookup_insert_cases;
    destruct (String.eqb_spec (DiscordChannel.id channel) k) as [<-|];
    try reflexivity; now rewrite Hid.
Qed.

Lemma db_server_after_createChannel (k : string) (channel : DiscordChannel.t)
  (db : DatabaseStorage.t) :
  DatabaseStorage.getServer k (snd (DatabaseStorage.createChannel channel db))
  = DatabaseStorage.getServer k db.
Proof.
  unfold DatabaseStorage.createChannel, DatabaseStorage.getServer.
  now destruct (DatabaseStorage.getChannel (DiscordChannel.id channel) db).
Qed.

Lemma db_channel_after_createServer (k : string) (server : DiscordServer.t)
  (db : DatabaseStorage.t) :
  DatabaseStorage.getChannel k (snd (DatabaseStorage.createServer server db))
  = DatabaseStorage.getChannel k db.
Proof.
  unfold DatabaseStorage.createServer, DatabaseStorage.getChannel.
  now destruct (DatabaseStorage.getServer (DiscordServer.id server) db).
Qed.

(** After a sync every guild of the cache is stored under its id, and
    every text channel of its guilds under its own: in the memory
    storage as the record of the sync, with the server's joined_at set
    to the time of the sync; in the database storage with the name and
    icon (name and type) of the sync on the row that was there, which
    keeps its joined_at (its server), and as the record of the sync when
    the id was new.  The ids of the cache are distinct. *)
Theorem sync_stores_the_cache (now : Z) (guilds : list Discord.Guild)
  (s : MemStorage.t) (db : DatabaseStorage.t)
  (guild : Discord.Guild) (channel : Discord.Channel) :
  NoDup (List.map Discord.guild_id guilds) ->
  NoDup (List.map Discord.channel_id
           (List.concat (List.map Gateway.textChannels guilds))) ->
  In guild guilds ->
  In channel (Gateway.textChannels guild) ->
  MemStorage.getServer (Discord.guild_id guild)
    (Gateway.syncServersAndChannels now guilds s)
  = Some (Gateway.syncedServer now guild)
  /\ MemStorage.getChannel (Discord.channel_id channel)
       (Gateway.syncServersAndChannels now guilds s)
     = Some (Gateway.syncedChannel guild channel)
  /\ DatabaseStorage.getServer (Discord.guild_id guild)
       (Gateway.syncServersAndChannels now guilds db)
     = Some match DatabaseStorage.getServer (Discord.guild_id guild) db with
            | Some row =>
                DiscordServer.mk (DiscordServer.id row) (Discord.guild_name guild)
                  (truthy (Discord.iconURL guild)) (DiscordServer.joined_at row)
            | None => Gateway.syncedServer now guild
            end
  /\ DatabaseStorage.getChannel (Discord.channel_id channel)
       (Gateway.syncServersAndChannels now guilds db)
     = Some match DatabaseStorage.getChannel (Discord.channel_id channel) db with
            | Some row =>
                DiscordChannel.mk (DiscordChannel.id row)
                  (DiscordChannel.server_id row) (Discord.channel_name channel)
                  (Js.string_of_Z (Discord.channel_type channel))
            | None => Gateway.syncedChannel guild channel
            end.
Proof.
  intros Hguilds Hchannels Hguild Hchannel. split_and!.
  - apply (@sync_getServer MemStorage.t MemStorage_IStorage
             (fun server _ => server));
      try assumption; intros; try reflexivity.
    apply JsMap_get_set_cases.
  - apply (@sync_getChannel MemStorage.t MemStorage_IStorage
             (fun channel _ => channel));
      try assumption; intros; try reflexivity.
    apply JsMap_get_set_cases.
  - exact (@sync_getServer DatabaseStorage.t DatabaseStorage_IStorage
             (fun server stored =>
                match stored with
                | Some row => DatabaseStorage.set_name_icon server row
                | None => server
                end)
             db_server_after_createServer db_server_after_createChannel
             now guilds db guild Hguilds Hguild).
  - exact (@sync_getChannel DatabaseStorage.t DatabaseStorage_IStorage
             (fun channel stored =>
                match stored with
                | Some row => DatabaseStorage.set_name_type channel row
                | None => channel
                end)
             db_channel_after_createChannel db_channel_after_createServer
             now guilds db guild channel Hchannels Hguild Hchannel).
Qed.

End Sync.

Lemma sync_stores_the_cache_witness :
  MemStorage.getServer "S1"
    (Gateway.syncServersAndChannels (H := Sample.memStorage) 5000 GatewaySample.guilds MemStorage.constructor)
  = Some (DiscordServer.mk "S1" "guild one" (Some "icon.png") 5000)
  /\ MemStorage.getChannel "7"
       (Gateway.syncServersAndChannels (H := Sample.memStorage) 5000 GatewaySample.guilds
          MemStorage.constructor)
     = Some (DiscordChannel.mk "7" "S1" "general" "0").
Proof.
  destruct (sync_stores_the_cache (zone := Sample.utc) (order := Sample.scanOrder)
              5000 GatewaySample.guilds MemStorage.constructor
              DatabaseStorage.constructor GatewaySample.guild1
              GatewaySample.general)
    as (Hserver & Hchannel & _).
  - apply (bool_decide_unpack _). vm_compute. exact I.
  - apply (bool_decide_unpack _). vm_compute. exact I.
  - left. reflexivity.
  - left. reflexivity.
  - split; [exact Hserver | exact Hchannel].
Defined.

(* ================================================================== *)
(** * Channels and their servers *)
(* ================================================================== *)

Section ChannelServers.
Context {zone : TimeZone} {order : Sql.RowOrder}.

Section MessagePath.
Context {St : Type} `{IStorage St}.
Variable formatDate : Z -> string.
Variable reply : string -> option string.
Variable P : St -> Prop.
Hypothesis createMessage_keeps :
  forall message storage, P storage -> P (snd (createMessage message storage)).
Hypothesis deleteOldMessages_keeps :
  forall now storage, P storage -> P (snd (deleteOldMessages now storage)).
Hypothesis createCommandLog_keeps :
  forall log storage, P storage -> P (snd (createCommandLog log storage)).

Lemma executeCommand_keeps (now : Z) (command : string) (args : list string)
  (storage : St) (bot : DiscordBot.t) :
  P storage ->
  P (snd (Utils.executeCommand formatDate now command args storage bot)).
Proof.
  intros HP. unfold Utils.executeCommand.
  destruct (String.eqb command "!help"); [exact HP|].
  destruct (String.eqb command "!messages"); [exact HP|].
  destruct (String.eqb command "!stats"); [exact HP|].
  destruct (String.eqb command "!clear"); [|exact HP].
  unfold Utils.formatClearCommand.
  pose proof (deleteOldMessages_keeps now storage HP) as Hswept.
  now destruct (deleteOldMessages now storage).
Qed.

Lemma handleCommand_keeps (now : Z) (message : Discord.Message)
  (bot : DiscordBot.t) (storage : St) :
  P storage ->
  P (snd (Gateway.handleCommand formatDate reply now message bot storage)).
Proof.
  intros HP. unfold Gateway.handleCommand.
  destruct (Js.split_space (Discord.content message)) as [|verb args];
    [exact HP|].
  pose proof (executeCommand_keeps now (Js.toLowerCase verb) args storage bot HP)
    as Hran.
  destruct (Utils.executeCommand formatDate now (Js.toLowerCase verb) args storage bot)
    as [[response|e] storage1]; cbn [snd] in Hran.
  - destruct (reply response) as [e|].
    + destruct (reply ("Error: " +:+ e)); cbn [snd]; auto.
    + cbn [snd]. auto.
  - destruct (reply ("Error: " +:+ e)); cbn [snd]; auto.
Qed.

Lemma onMessageCreate_keeps (now : Z) (message : Discord.Message)
  (bot : DiscordBot.t) (storage : St) :
  P storage ->
  P (snd (Gateway.onMessageCreate formatDate reply now message bot storage)).
Proof.
  intros HP. unfold Gateway.onMessageCreate.
  destruct (Discord.author_bot message); [exact HP|].
  assert (Hstored : P (Gateway.storeMessage message storage)).
  { unfold Gateway.storeMessage. destruct (Discord.guild message); auto. }
  destruct (Js.startsWith (Discord.content message) "!"); [|exact Hstored].
  pose proof (handleCommand_keeps now message bot _ Hstored) as Hhandled.
  now destruct (Gateway.handleCommand formatDate reply now message bot
                  (Gateway.storeMessage message storage)) as [[sent thrown] storage2].
Qed.

End MessagePath.

Lemma JsMap_values_set_In {V : Type} (k : string) (v x : V) (m : JsMap.t V) :
  In x (JsMap.values (JsMap.set k v m)) -> x = v \/ In x (JsMap.values m).
Proof.
  induction m as [|[k' v'] m IH]; cbn [JsMap.set JsMap.values List.map snd In].
  - intros [<-|[]]. now left.
  - destruct (String.eqb k' k); cbn [List.map snd In].
    + intros [<-|Hin]; [now left | right; now right].
    + intros [<-|Hin]; [right; now left|].
      destruct (IH Hin) as [->|Hx]; [now left | right; now right].
Qed.

Lemma mem_syncGuild_keeps_servers_of_channels (now : Z) (guild : Discord.Guild)
  (s : MemStorage.t) :
  (forall channel, In channel (MemStorage.getChannels None s) ->
     MemStorage.getServer (DiscordChannel.server_id channel) s <> None) ->
  forall channel,
    In channel (MemStorage.getChannels None (Gateway.syncGuild now s guild)) ->
    MemStorage.getServer (DiscordChannel.server_id channel)
      (Gateway.syncGuild now s guild) <> None.
Proof.
  intros Hs. unfold Gateway.syncGuild.
  set (s1 := snd (createServer (Gateway.syncedServer now guild) s)).
  assert (Hs1 : (forall channel, In channel (MemStorage.getChannels None s1) ->
                   MemStorage.getServer (DiscordChannel.server_id channel) s1 <> None)
                /\ MemStorage.getServer (Discord.guild_id guild) s1 <> None).
  { split.
    - intros channel Hin. specialize (Hs channel Hin).
      unfold s1, MemStorage.getServer in *.
      cbn [createServer MemStorage_IStorage MemStorage.createServer snd
           MemStorage.discordServers].
      rewrite JsMap_get_set_cases. now destruct (String.eqb _ _).
    - unfold s1, MemStorage.getServer.
      cbn [createServer MemStorage_IStorage MemStorage.createServer snd
           MemStorage.discordServers Gateway.syncedServer DiscordServer.id].
      now rewrite JsMap_get_set_eq. }
  revert Hs1. generalize s1 as s2. clear s1 Hs.
  induction (Gateway.textChannels guild) as [|first channels IH];
    intros s2 [Hchannels Hguild]; [exact Hchannels|].
  cbn [List.fold_left]. apply IH. split; [|exact Hguild].
  intros channel Hin.
  cbn [createChannel MemStorage_IStorage MemStorage.createChannel snd] in Hin |- *.
  unfold MemStorage.getChannels, MemStorage.getServer in *.
  cbn [truthy MemStorage.discordChannels MemStorage.discordServers] in Hin |- *.
  apply JsMap_values_set_In in Hin as [->|Hin]; [exact Hguild | now apply Hchannels].
Qed.

Lemma db_syncGuild_keeps_servers_of_channels (now : Z) (guild : Discord.Guild)
  (db : DatabaseStorage.t) :
  (forall channel, In channel (DatabaseStorage.getChannels None db) ->
     DatabaseStorage.getServer (DiscordChannel.server_id channel) db <> None) ->
  forall channel,
    In channel (DatabaseStorage.getChannels None (Gateway.syncGuild now db guild)) ->
    DatabaseStorage.getServer (DiscordChannel.server_id channel)
      (Gateway.syncGuild now db guild) <> None.
Proof.
  intros Hdb. unfold Gateway.syncGuild.
  set (db1 := snd (createServer (Gateway.syncedServer now guild) db)).
  assert (Hdb1 : (forall channel,
                    In channel (DatabaseStorage.getChannels None db1) ->
                    DatabaseStorage.getServer (DiscordChannel.server_id channel) db1
                    <> None)
                 /\ DatabaseStorage.getServer (Discord.guild_id guild) db1 <> None).
  { unfold db1. cbn [createServer DatabaseStorage_IStorage]. split.
    - intros channel Hin.
      rewrite db_server_after_createServer.
      assert (Hin' : In channel (DatabaseStorage.getChannels None db)).
      { revert Hin. unfold DatabaseStorage.getChannels, DatabaseStorage.createServer.
        now destruct (DatabaseStorage.getServer _ db). }
      specialize (Hdb channel Hin'). now destruct (String.eqb _ _).
    - rewrite db_server_after_createServer.
      cbn [Gateway.syncedServer DiscordServer.id]. now rewrite String.eqb_refl. }
  revert Hdb1. generalize db1 as db2. clear db1 Hdb.
  induction (Gateway.textChannels guild) as [|first channels IH];
    intros db2 [Hchannels Hguild]; [exact Hchannels|].
  cbn [List.fold_left]. apply IH. cbn [createChannel DatabaseStorage_IStorage].
  split; [|now rewrite db_server_after_createChannel].
  intros channel Hin. rewrite db_server_after_createChannel.
  unfold DatabaseStorage.getChannels in Hin, Hchannels. cbn [truthy] in Hin, Hchannels.
  apply db_rows_In in Hin as [k Hk].
  change (DatabaseStorage.discordChannels ?x !! k)
    with (DatabaseStorage.getChannel k x) in Hk.
  rewrite db_channel_after_createChannel in Hk.
  cbn [Gateway.syncedChannel DiscordChannel.id] in Hk.
  destruct (String.eqb (Discord.channel_id first) k).
  - injection Hk as <-.
    destruct (DatabaseStorage.getChannel k db2) as [row|] eqn:Hrow.
    + cbn [DatabaseStorage.set_name_type DiscordChannel.server_id].
      apply Hchannels. apply db_rows_In. now exists k.
    + exact Hguild.
  - apply Hchannels. apply db_rows_In. now exists k.
Qed.

(** Whatever the bot handles, every stored channel belongs to a stored
    server, in both storages: a sync stores the guild before its
    channels, the database keeps the server of a channel it knows, and
    neither messages, commands nor the cleanup touch servers or
    channels. *)
Theorem channels_have_servers (formatDate : Z -> string)
  (reply : string -> option string) (bot : DiscordBot.t)
  (events : list (Z * Gateway.Event)) :
  let s := Gateway.handleAll formatDate reply bot events MemStorage.constructor in
  let db :=
    Gateway.handleAll formatDate reply bot events DatabaseStorage.constructor in
  (forall channel, In channel (MemStorage.getChannels None s) ->
     MemStorage.getServer (DiscordChannel.server_id channel) s <> None)
  /\ (forall channel, In channel (DatabaseStorage.getChannels None db) ->
        DatabaseStorage.getServer (DiscordChannel.server_id channel) db <> None).
Proof.
  cbv zeta. unfold Gateway.handleAll. split.
  - assert (Hinit : forall channel,
               In channel (MemStorage.getChannels None MemStorage.constructor) ->
               MemStorage.getServer (DiscordChannel.server_id channel)
                 MemStorage.constructor <> None) by (intros channel []).
    revert Hinit. generalize MemStorage.constructor as s.
    induction events as [|[now event] events IH]; intros s Hs; [exact Hs|].
    cbn [List.fold_left]. apply IH. destruct event as [guilds|message|];
      cbn [Gateway.handle].
    + unfold Gateway.syncServersAndChannels. revert s Hs.
      induction guilds as [|guild guilds IHg]; intros s Hs; [exact Hs|].
      cbn [List.fold_left]. apply IHg.
      now apply mem_syncGuild_keeps_servers_of_channels.
    + apply (onMessageCreate_keeps formatDate reply
               (fun s => forall channel,
                    In channel (MemStorage.getChannels None s) ->
                    MemStorage.getServer (DiscordChannel.server_id channel) s
                    <> None)); auto.
    + exact Hs.
  - assert (Hinit : forall channel,
               In channel (DatabaseStorage.getChannels None DatabaseStorage.constructor) ->
               DatabaseStorage.getServer (DiscordChannel.server_id channel)
                 DatabaseStorage.constructor <> None).
    { intros channel Hin. apply db_rows_In in Hin as [k Hk].
      cbn in Hk. now rewrite lookup_empty in Hk. }
    revert Hinit. generalize DatabaseStorage.constructor as db.
    induction events as [|[now event] events IH]; intros db Hdb; [exact Hdb|].
    cbn [List.fold_left]. apply IH. destruct event as [guilds|message|];
      cbn [Gateway.handle].
    + unfold Gateway.syncServersAndChannels. revert db Hdb.
      induction guilds as [|guild guilds IHg]; intros db Hdb; [exact Hdb|].
      cbn [List.fold_left]. apply IHg.
      now apply db_syncGuild_keeps_servers_of_channels.
    + apply (onMessageCreate_keeps formatDate reply
               (fun db => forall channel,
                    In channel (DatabaseStorage.getChannels None db) ->
                    DatabaseStorage.getServer (DiscordChannel.server_id channel) db
                    <> None)); auto.
      * intros msg db0 Hdb0. cbn [createMessage DatabaseStorage_IStorage].
        unfold DatabaseStorage.createMessage.
        now destruct (DatabaseStorage.getMessage _ db0).
    + exact Hdb.
Qed.

Lemma db_createServer_same (server row : DiscordServer.t) (db : DatabaseStorage.t) :
  DatabaseStorage.getServer (DiscordServer.id server) db = Some row ->
  DiscordServer.name row = DiscordServer.name server ->
  DiscordServer.icon row = DiscordServer.icon server ->
  snd (DatabaseStorage.createServer server db) = db.
Proof.
  intros Hrow Hname Hicon. unfold DatabaseStorage.createServer. rewrite Hrow.
  cbn [snd]. unfold DatabaseStorage.getServer in Hrow.
  rewrite alter_id.
  - now destruct db.
  - intros row' Hrow'. rewrite Hrow in Hrow'. injection Hrow' as <-.
    destruct row. cbn in *. now subst.
Qed.

Lemma db_createChannel_same (channel row : DiscordChannel.t)
  (db : DatabaseStorage.t) :
  DatabaseStorage.getChannel (DiscordChannel.id channel) db = Some row ->
  DiscordChannel.name row = DiscordChannel.name channel ->
  DiscordChannel.type row = DiscordChannel.type channel ->
  snd (DatabaseStorage.createChannel channel db) = db.
Proof.
  intros Hrow Hname Htype. unfold DatabaseStorage.createChannel. rewrite Hrow.
  cbn [snd]. unfold DatabaseStorage.getChannel in Hrow.
  rewrite alter_id.
  - now destruct db.
  - intros row' Hrow'. rewrite Hrow in Hrow'. injection Hrow' as <-.
    destruct row. cbn in *. now subst.
Qed.

Lemma db_sync_fixed (now : Z) (guilds : list Discord.Guild)
  (db : DatabaseStorage.t) :
  (forall guild, In guild guilds ->
     exists row,
       DatabaseStorage.getServer (Discord.guild_id guild) db = Some row
       /\ DiscordServer.name row = Discord.guild_name guild
       /\ DiscordServer.icon row = truthy (Discord.iconURL guild)) ->
  (forall guild channel,
     In guild guilds -> In channel (Gateway.textChannels guild) ->
     exists row,
       DatabaseStorage.getChannel (Discord.channel_id channel) db = Some row
       /\ DiscordChannel.name row = Discord.channel_name channel
       /\ DiscordChannel.type row = Js.string_of_Z (Discord.channel_type channel)) ->
  Gateway.syncServersAndChannels now guilds db = db.
Proof.
  unfold Gateway.syncServersAndChannels.
  induction guilds as [|guild guilds IH]; intros Hservers Hchannels;
    [reflexivity|].
  cbn [List.fold_left].
  assert (Hguild : Gateway.syncGuild now db guild = db).
  { unfold Gateway.syncGuild. cbn [createServer createChannel DatabaseStorage_IStorage].
    destruct (Hservers guild (or_introl eq_refl)) as (row & Hrow & Hname & Hicon).
    rewrite (db_createServer_same (Gateway.syncedServer now guild) row db Hrow Hname Hicon).
    assert (Hall : forall channel, In channel (Gateway.textChannels guild) ->
               exists row,
                 DatabaseStorage.getChannel (Discord.channel_id channel) db = Some row
                 /\ DiscordChannel.name row = Discord.channel_name channel
                 /\ DiscordChannel.type row
                    = Js.string_of_Z (Discord.channel_type channel))
      by (intros channel Hin; apply (Hchannels guild channel); [now left | exact Hin]).
    induction (Gateway.textChannels guild) as [|channel channels IHc];
      [reflexivity|].
    cbn [List.fold_left].
    destruct (Hall channel (or_introl eq_refl)) as (crow & Hcrow & Hcname & Hctype).
    rewrite (db_createChannel_same (Gateway.syncedChannel guild channel) crow db
               Hcrow Hcname Hctype).
    apply IHc. intros c Hc. apply Hall. now right. }
  rewrite Hguild. apply IH.
  - intros g Hg. apply Hservers. now right.
  - intros g c Hg Hc. apply (Hchannels g c); [now right | exact Hc].
Qed.

(** In the database storage a sync with the cache of the sync before
    changes nothing, at whatever time it runs: every server keeps the
    joined_at of its first sync. *)
Theorem db_sync_again_changes_nothing (now1 now2 : Z)
  (guilds : list Discord.Guild) (db : DatabaseStorage.t) :
  NoDup (List.map Discord.guild_id guilds) ->
  NoDup (List.map Discord.channel_id
           (List.concat (List.map Gateway.textChannels guilds))) ->
  Gateway.syncServersAndChannels now2 guilds
    (Gateway.syncServersAndChannels now1 guilds db)
  = Gateway.syncServersAndChannels now1 guilds db.
Proof.
  intros Hguilds Hchannels. apply db_sync_fixed.
  - intros guild Hguild.
    pose proof (@sync_getServer DatabaseStorage.t DatabaseStorage_IStorage
                  (fun server stored =>
                     match stored with
                     | Some row => DatabaseStorage.set_name_icon server row
                     | None => server
                     end)
                  db_server_after_createServer db_server_after_createChannel
                  now1 guilds db guild Hguilds Hguild) as Hrow.
    cbn [getServer DatabaseStorage_IStorage] in Hrow.
    eexists. split; [exact Hrow|].
    now destruct (DatabaseStorage.getServer (Discord.guild_id guild) db).
  - intros guild channel Hguild Hchannel.
    pose proof (@sync_getChannel DatabaseStorage.t DatabaseStorage_IStorage
                  (fun channel stored =>
                     match stored with
                     | Some row => DatabaseStorage.set_name_type channel row
                     | None => channel
                     end)
                  db_channel_after_createChannel db_channel_after_createServer
                  now1 guilds db guild channel Hchannels Hguild Hchannel) as Hrow.
    cbn [getChannel DatabaseStorage_IStorage] in Hrow.
    eexists. split; [exact Hrow|].
    now destruct (DatabaseStorage.getChannel (Discord.channel_id channel) db).
Qed.

End ChannelServers.

Lemma db_sync_again_changes_nothing_witness :
  Gateway.syncServersAndChannels (H := Sample.dbStorage) 9000 GatewaySample.guilds
    (Gateway.syncServersAndChannels (H := Sample.dbStorage) 5000 GatewaySample.guilds
       DatabaseStorage.constructor)
  = Gateway.syncServersAndChannels (H := Sample.dbStorage) 5000 GatewaySample.guilds
      DatabaseStorage.constructor.
Proof.
  apply (db_sync_again_changes_nothing (zone := Sample.utc) (order := Sample.scanOrder)
           5000 9000 GatewaySample.guilds
           DatabaseStorage.constructor).
  - apply (bool_decide_unpack _). vm_compute. exact I.
  - apply (bool_decide_unpack _). vm_compute. exact I.
Defined.

(* ================================================================== *)
(** * start and stop *)
(* ================================================================== *)

Section StartStop.
Context {zone : TimeZone} {order : Sql.RowOrder}.

(** A second stop does nothing: the bot, the timers and the storage are
    as the first stop left them, whatever the storage. *)
Theorem stop_twice_is_stop {St : Type} `{IStorage St} (p : Gateway.Process)
  (storage : St) :
  Gateway.stop (fst (Gateway.stop p storage)) (snd (Gateway.stop p storage))
  = Gateway.stop p storage.
Proof.
  destruct (DiscordBot.isConnected (Gateway.bot p)) eqn:Hconnected;
    unfold Gateway.stop; rewrite Hconnected;
    cbn [fst snd Gateway.bot Gateway.cleanupInterval Gateway.intervals
         Gateway.nextInterval DiscordBot.isConnected];
    rewrite ?Hconnected; reflexivity.
Qed.

Lemma clearInterval_fresh (handle : Z) (running : list Z) :
  ~ In handle running -> Gateway.clearInterval handle running = running.
Proof.
  intros Hfresh. unfold Gateway.clearInterval.
  apply forallb_filter_id, forallb_forall. intros h Hh.
  destruct (Z.eqb_spec h handle) as [->|]; [contradiction | reflexivity].
Qed.

(** start sets up the hourly cleanup and stop clears it: after start and
    stop the timers that run are those that ran before.  But stop
    clears the timer of the last start only: after two starts and a stop
    the cleanup of the first start still runs, and the bot holds no
    handle to it. *)
Theorem stop_clears_the_last_timer {St : Type} `{IStorage St}
  (p : Gateway.Process) (storage : St) (now1 now2 : Z) :
  ~ In (Gateway.nextInterval p) (Gateway.intervals p) ->
  let started := Gateway.start None now1 p storage in
  let restarted :=
    Gateway.start None now2 (snd (fst started)) (snd started) in
  Gateway.intervals
    (fst (Gateway.stop (snd (fst started)) (snd started)))
  = Gateway.intervals p
  /\ In (Gateway.nextInterval p)
       (Gateway.intervals
          (fst (Gateway.stop (snd (fst restarted)) (snd restarted))))
  /\ Gateway.cleanupInterval
       (fst (Gateway.stop (snd (fst restarted)) (snd restarted)))
     = None.
Proof.
  intros Hfresh. cbv zeta. unfold Gateway.start, Gateway.stop.
  cbn [fst snd Gateway.bot Gateway.cleanupInterval Gateway.intervals
       Gateway.nextInterval DiscordBot.isConnected].
  split_and!.
  - unfold Gateway.clearInterval at 1. cbn [List.filter].
    rewrite Z.eqb_refl. cbn [negb]. now apply clearInterval_fresh.
  - unfold Gateway.clearInterval. cbn [List.filter].
    rewrite Z.eqb_refl. cbn [negb].
    destruct (Z.eqb_spec (Gateway.nextInterval p) (Gateway.nextInterval p + 1));
      [lia|]. cbn [negb]. now left.
  - reflexivity.
Qed.

(** A start that fails after one that succeeded leaves the start time
    in place: the bot then says it is not connected and the status row
    says offline without a start time, while getUptime goes on
    counting from the old start; a stop does not reset it either. *)
Theorem failed_restart_keeps_uptime (p : Gateway.Process) (s : MemStorage.t)
  (error : string) (now later started : Z) :
  DiscordBot.startTime (Gateway.bot p) = Some started ->
  let failed := Gateway.start (Some error) now p s in
  let stopped := Gateway.stop (snd (fst failed)) (snd failed) in
  fst (fst failed) = Some error
  /\ DiscordBot.isConnectedToDiscord (Gateway.bot (snd (fst failed))) = false
  /\ (exists status,
        MemStorage.getBotStatus (snd failed) = Some status
        /\ BotStatus.is_online status = 0
        /\ BotStatus.uptime_started status = None)
  /\ DiscordBot.getUptime later (Gateway.bot (snd (fst failed)))
     = DiscordBot.getUptime later (DiscordBot.mk (Some started) true true)
  /\ DiscordBot.getUptime later (Gateway.bot (fst stopped))
     = DiscordBot.getUptime later (DiscordBot.mk (Some started) true true).
Proof.
  intros Hstart. cbv zeta. unfold Gateway.start, Gateway.stop.
  cbn [fst snd Gateway.bot DiscordBot.isConnected DiscordBot.isConnectedToDiscord].
  split_and!; try reflexivity.
  - eexists. split; [reflexivity|]. split; reflexivity.
  - unfold DiscordBot.getUptime. cbn [DiscordBot.startTime]. now rewrite Hstart.
  - unfold DiscordBot.getUptime. cbn [DiscordBot.startTime]. now rewrite Hstart.
Qed.

Section HandlePath.
Context {St : Type} `{IStorage St}.
Variable formatDate : Z -> string.
Variable reply : string -> option string.
Variable P : St -> Prop.
Hypothesis createServer_keeps :
  forall server storage, P storage -> P (snd (createServer server storage)).
Hypothesis createChannel_keeps :
  forall channel storage, P storage -> P (snd (createChannel channel storage)).
Hypothesis createMessage_keeps :
  forall message storage, P storage -> P (snd (createMessage message storage)).
Hypothesis deleteOldMessages_keeps :
  forall now storage, P storage -> P (snd (deleteOldMessages now storage)).
Hypothesis createCommandLog_keeps :
  forall log storage, P storage -> P (snd (createCommandLog log storage)).

Lemma handle_keeps (bot : DiscordBot.t) (storage : St)
  (event : Z * Gateway.Event) :
  P storage -> P (Gateway.handle formatDate reply bot storage event).
Proof.
  intros HP. destruct event as [now [guilds|message|]]; cbn [Gateway.handle].
  - unfold Gateway.syncServersAndChannels. revert storage HP.
    induction guilds as [|guild guilds IH]; intros storage HP; [exact HP|].
    cbn [List.fold_left]. apply IH. unfold Gateway.syncGuild.
    pose proof (createServer_keeps (Gateway.syncedServer now guild) storage HP)
      as Hserver.
    revert Hserver.
    generalize (snd (createServer (Gateway.syncedServer now guild) storage)) as s.
    induction (Gateway.textChannels guild) as [|channel channels IHc];
      intros s Hs; [exact Hs|].
    cbn [List.fold_left]. apply IHc. now apply createChannel_keeps.
  - now apply onMessageCreate_keeps.
  - now apply deleteOldMessages_keeps.
Qed.

End HandlePath.

Lemma mem_handle_keeps_online (formatDate : Z -> string)
  (reply : string -> option string) (bot : DiscordBot.t) (s : MemStorage.t)
  (event : Z * Gateway.Event) (is_online : Z) (uptime_started : option Z) :
  BotStatus.is_online (MemStorage.botStatusRecord s) = is_online
  /\ BotStatus.uptime_started (MemStorage.botStatusRecord s) = uptime_started ->
  BotStatus.is_online
    (MemStorage.botStatusRecord (Gateway.handle formatDate reply bot s event))
  = is_online
  /\ BotStatus.uptime_started
       (MemStorage.botStatusRecord (Gateway.handle formatDate reply bot s event))
     = uptime_started.
Proof.
  apply (handle_keeps formatDate reply
           (fun s => BotStatus.is_online (MemStorage.botStatusRecord s) = is_online
                     /\ BotStatus.uptime_started (MemStorage.botStatusRecord s)
                        = uptime_started));
    intros x s0 Hs0; exact Hs0.
Qed.

Lemma db_update_status_keeps_online (counts : BotStatus.partial)
  (db : DatabaseStorage.t) (is_online : Z) (uptime_started : option Z) :
  BotStatus.p_is_online counts = None ->
  BotStatus.p_uptime_started counts = None ->
  (exists status,
     DatabaseStorage.botStatus db = Some status
     /\ BotStatus.is_online status = is_online
     /\ BotStatus.uptime_started status = uptime_started) ->
  exists status,
    DatabaseStorage.botStatus (DatabaseStorage.update_status counts db)
    = Some status
    /\ BotStatus.is_online status = is_online
    /\ BotStatus.uptime_started status = uptime_started.
Proof.
  intros Honline Huptime (status & Hstatus & H1 & H2).
  unfold DatabaseStorage.update_status, DatabaseStorage.set_botStatus.
  cbn [DatabaseStorage.botStatus]. rewrite Hstatus. cbn [option_map].
  eexists. split; [reflexivity|]. unfold BotStatus.merge.
  cbn [BotStatus.is_online BotStatus.uptime_started].
  now rewrite Honline, Huptime.
Qed.

Lemma db_handle_keeps_online (formatDate : Z -> string)
  (reply : string -> option string) (bot : DiscordBot.t) (db : DatabaseStorage.t)
  (event : Z * Gateway.Event) (is_online : Z) (uptime_started : option Z) :
  (exists status,
     DatabaseStorage.botStatus db = Some status
     /\ BotStatus.is_online status = is_online
     /\ BotStatus.uptime_started status = uptime_started) ->
  exists status,
    DatabaseStorage.botStatus (Gateway.handle formatDate reply bot db event)
    = Some status
    /\ BotStatus.is_online status = is_online
    /\ BotStatus.uptime_started status = uptime_started.
Proof.
  apply (handle_keeps formatDate reply
           (fun db => exists status,
                DatabaseStorage.botStatus db = Some status
                /\ BotStatus.is_online status = is_online
                /\ BotStatus.uptime_started status = uptime_started)).
  - intros server db0 Hdb0. cbn [createServer DatabaseStorage_IStorage].
    unfold DatabaseStorage.createServer.
    destruct (DatabaseStorage.getServer _ db0); cbn [snd]; [exact Hdb0|].
    now apply db_update_status_keeps_online.
  - intros channel db0 Hdb0. cbn [createChannel DatabaseStorage_IStorage].
    unfold DatabaseStorage.createChannel.
    destruct (DatabaseStorage.getChannel _ db0); cbn [snd]; [exact Hdb0|].
    now apply db_update_status_keeps_online.
  - intros message db0 Hdb0. cbn [createMessage DatabaseStorage_IStorage].
    unfold DatabaseStorage.createMessage.
    destruct (DatabaseStorage.getMessage _ db0); cbn [snd]; [exact Hdb0|].
    now apply db_update_status_keeps_online.
  - intros now db0 Hdb0. cbn [deleteOldMessages DatabaseStorage_IStorage].
    unfold DatabaseStorage.deleteOldMessages. cbn [snd].
    now apply db_update_status_keeps_online.
  - intros log db0 Hdb0. exact Hdb0.
Qed.

Lemma mem_actAll_status_follows (formatDate : Z -> string)
  (reply : string -> option string) (actions : list (Z * Gateway.Action)) :
  Gateway.status_follows
    (fst (Gateway.actAll formatDate reply actions
            (Gateway.constructor, MemStorage.constructor)))
    (MemStorage.getBotStatus
       (snd (Gateway.actAll formatDate reply actions
               (Gateway.constructor, MemStorage.constructor)))).
Proof.
  unfold Gateway.actAll.
  assert (Hinit : Gateway.status_follows Gateway.constructor
                    (MemStorage.getBotStatus MemStorage.constructor))
    by (split; reflexivity).
  revert Hinit.
  generalize Gateway.constructor as p, MemStorage.constructor as s.
  induction actions as [|[now action] actions IH]; intros p s Hps;
    [exact Hps|].
  cbn [List.fold_left].
  destruct (Gateway.act formatDate reply (p, s) (now, action)) as [p' s'] eqn:Hact.
  apply IH. clear IH. cbn [fst snd] in *.
  destruct action as [[error|]| |event];
    [cbn [Gateway.act fst snd] in Hact ..|].
  + injection Hact as <- <-. split; reflexivity.
  + injection Hact as <- <-. repeat split. discriminate.
  + unfold Gateway.stop in Hact. unfold Gateway.status_follows in Hps.
    destruct (DiscordBot.isConnected (Gateway.bot p)) eqn:Hconnected;
      injection Hact as <- <-.
    * split; reflexivity.
    * unfold Gateway.status_follows. cbn [Gateway.bot]. now rewrite Hconnected.
  + change (Gateway.act formatDate reply (p, s) (now, Gateway.Handle event))
      with (p, Gateway.handle formatDate reply (Gateway.bot p) s (now, event))
      in Hact.
    apply pair_equal_spec in Hact as [<- <-].
    unfold Gateway.status_follows, MemStorage.getBotStatus in *.
    cbv beta iota in *.
    destruct (mem_handle_keeps_online formatDate reply (Gateway.bot p) s
                (now, event) _ _ (conj eq_refl eq_refl)) as [-> ->].
    exact Hps.
Qed.

Lemma db_actAll_status_follows (formatDate : Z -> string)
  (reply : string -> option string) (actions : list (Z * Gateway.Action)) :
  Gateway.status_follows
    (fst (Gateway.actAll formatDate reply actions
            (Gateway.constructor, DatabaseStorage.constructor)))
    (DatabaseStorage.getBotStatus
       (snd (Gateway.actAll formatDate reply actions
               (Gateway.constructor, DatabaseStorage.constructor)))).
Proof.
  unfold Gateway.actAll.
  assert (Hinit : Gateway.status_follows Gateway.constructor
                    (DatabaseStorage.getBotStatus DatabaseStorage.constructor))
    by (split; reflexivity).
  revert Hinit.
  generalize Gateway.constructor as p, DatabaseStorage.constructor as db.
  induction actions as [|[now action] actions IH]; intros p db Hps;
    [exact Hps|].
  cbn [List.fold_left].
  destruct (Gateway.act formatDate reply (p, db) (now, action)) as [p' db']
    eqn:Hact.
  apply IH. clear IH. cbn [fst snd] in *.
  unfold Gateway.status_follows, DatabaseStorage.getBotStatus in Hps.
  destruct (DatabaseStorage.botStatus db) as [status|] eqn:Hstatus;
    [|contradiction].
  destruct action as [[error|]| |event];
    [cbn [Gateway.act fst snd] in Hact ..|].
  + injection Hact as <- <-.
    unfold Gateway.status_follows, DatabaseStorage.getBotStatus.
    cbn [snd updateBotStatus DatabaseStorage_IStorage
         DatabaseStorage.updateBotStatus DatabaseStorage.update_status
         DatabaseStorage.set_botStatus DatabaseStorage.botStatus].
    rewrite Hstatus. split; reflexivity.
  + injection Hact as <- <-.
    unfold Gateway.status_follows, DatabaseStorage.getBotStatus.
    cbn [snd updateBotStatus DatabaseStorage_IStorage
         DatabaseStorage.updateBotStatus DatabaseStorage.update_status
         DatabaseStorage.set_botStatus DatabaseStorage.botStatus].
    rewrite Hstatus. repeat split. discriminate.
  + unfold Gateway.stop in Hact.
    destruct (DiscordBot.isConnected (Gateway.bot p)) eqn:Hconnected;
      injection Hact as <- <-;
      unfold Gateway.status_follows, DatabaseStorage.getBotStatus.
    * cbn [snd updateBotStatus DatabaseStorage_IStorage
           DatabaseStorage.updateBotStatus DatabaseStorage.update_status
           DatabaseStorage.set_botStatus DatabaseStorage.botStatus].
      rewrite Hstatus. split; reflexivity.
    * cbn [Gateway.bot]. now rewrite Hstatus, Hconnected.
  + change (Gateway.act formatDate reply (p, db) (now, Gateway.Handle event))
      with (p, Gateway.handle formatDate reply (Gateway.bot p) db (now, event))
      in Hact.
    apply pair_equal_spec in Hact as [<- <-].
    destruct (db_handle_keeps_online formatDate reply (Gateway.bot p) db
                (now, event) (BotStatus.is_online status)
                (BotStatus.uptime_started status))
      as (status' & Hstatus' & Honline & Huptime);
      [now exists status|].
    unfold Gateway.status_follows, DatabaseStorage.getBotStatus.
    rewrite Hstatus', Honline, Huptime. exact Hps.
Qed.

(** Whatever the bot does, starts that succeed or fail, stops, and the
    events it handles in between, the status row follows the bot: it
    says online, with the start time of the bot, exactly when the bot
    says it is connected, and offline without a start time when not.
    For both storages. *)
Theorem status_follows_connection (formatDate : Z -> string)
  (reply : string -> option string) (actions : list (Z * Gateway.Action)) :
  let mem :=
    Gateway.actAll formatDate reply actions
      (Gateway.constructor, MemStorage.constructor) in
  let db :=
    Gateway.actAll formatDate reply actions
      (Gateway.constructor, DatabaseStorage.constructor) in
  Gateway.status_follows (fst mem) (MemStorage.getBotStatus (snd mem))
  /\ Gateway.status_follows (fst db) (DatabaseStorage.getBotStatus (snd db)).
Proof.
  cbv zeta. split.
  - apply mem_actAll_status_follows.
  - apply db_actAll_status_follows.
Qed.

Lemma formatUptime_getUptime (now : Z) (bot : DiscordBot.t) :
  UtilsFormat.formatUptime now (DiscordBot.startTime bot)
  = DiscordBot.getUptime now bot.
Proof. reflexivity. Qed.

(** The uptime formatted from the status row is the uptime the bot
    reports whenever the bot is connected, and 0m when it is not,
    whatever the bot has done before, in both storages. *)
Theorem uptime_of_status_row (formatDate : Z -> string)
  (reply : string -> option string) (actions : list (Z * Gateway.Action))
  (now : Z) :
  let mem :=
    Gateway.actAll formatDate reply actions
      (Gateway.constructor, MemStorage.constructor) in
  let db :=
    Gateway.actAll formatDate reply actions
      (Gateway.constructor, DatabaseStorage.constructor) in
  (exists status,
     MemStorage.getBotStatus (snd mem) = Some status
     /\ UtilsFormat.formatUptime now (BotStatus.uptime_started status)
        = if DiscordBot.isConnectedToDiscord (Gateway.bot (fst mem))
          then DiscordBot.getUptime now (Gateway.bot (fst mem))
          else "0m")
  /\ (exists status,
        DatabaseStorage.getBotStatus (snd db) = Some status
        /\ UtilsFormat.formatUptime now (BotStatus.uptime_started status)
           = if DiscordBot.isConnectedToDiscord (Gateway.bot (fst db))
             then DiscordBot.getUptime now (Gateway.bot (fst db))
             else "0m").
Proof.
  cbv zeta.
  assert (Hfollows : forall (p : Gateway.Process) (row : option BotStatus.t),
             Gateway.status_follows p row ->
             exists status,
               row = Some status
               /\ UtilsFormat.formatUptime now (BotStatus.uptime_started status)
                  = if DiscordBot.isConnectedToDiscord (Gateway.bot p)
                    then DiscordBot.getUptime now (Gateway.bot p)
                    else "0m").
  { intros p [status|] Hrow; [|destruct Hrow].
    exists status. split; [reflexivity|].
    unfold Gateway.status_follows, DiscordBot.isConnectedToDiscord in *.
    destruct (DiscordBot.isConnected (Gateway.bot p)).
    - destruct Hrow as (_ & -> & _). apply formatUptime_getUptime.
    - destruct Hrow as (_ & ->). reflexivity. }
  split; apply Hfollows.
  - apply mem_actAll_status_follows.
  - apply db_actAll_status_follows.
Qed.

(** What a message that is no command leaves in the storage: nothing
    when its author is a bot or when it is a direct message, and
    otherwise it is found under its id, with the guild as its server
    and an absent discriminator as the empty string; the database
    storage keeps the message it already has under that id.  No reply
    is sent. *)
Theorem message_create_stores (formatDate : Z -> string)
  (reply : string -> option string) (now : Z) (message : Discord.Message)
  (bot : DiscordBot.t) (s : MemStorage.t) (db : DatabaseStorage.t) :
  Js.startsWith (Discord.content message) "!" = false ->
  let mem := Gateway.onMessageCreate formatDate reply now message bot s in
  let dbs := Gateway.onMessageCreate formatDate reply now message bot db in
  fst mem = [] /\ fst dbs = []
  /\ match Discord.author_bot message, Discord.guild message with
     | false, Some guildId =>
         MemStorage.getMessage (Discord.message_id message) (snd mem)
         = Some (Gateway.storedMessage message guildId)
         /\ DatabaseStorage.getMessage (Discord.message_id message) (snd dbs)
            = Some match DatabaseStorage.getMessage (Discord.message_id message) db with
                   | Some existing => existing
                   | None => Gateway.storedMessage message guildId
                   end
     | _, _ => snd mem = s /\ snd dbs = db
     end.
Proof.
  intros Hplain. cbv zeta. unfold Gateway.onMessageCreate. rewrite Hplain.
  destruct (Discord.author_bot message); [now split_and!|].
  unfold Gateway.storeMessage.
  destruct (Discord.guild message) as [guildId|]; [|now split_and!].
  cbn [fst snd createMessage MemStorage_IStorage DatabaseStorage_IStorage].
  split_and!; try reflexivity.
  - unfold MemStorage.getMessage, MemStorage.createMessage.
    cbn [snd MemStorage.set_messages MemStorage.discordMessages].
    apply JsMap_get_set_eq.
  - unfold DatabaseStorage.createMessage.
    change (DiscordMessage.id (Gateway.storedMessage message guildId))
      with (Discord.message_id message).
    destruct (DatabaseStorage.getMessage (Discord.message_id message) db)
      as [existing|] eqn:Hexisting; cbn [snd]; [exact Hexisting|].
    unfold DatabaseStorage.getMessage. db_fields. apply lookup_insert_eq.
Qed.

End StartStop.

Lemma stop_clears_the_last_timer_witness :
  Gateway.intervals
    (fst (Gateway.stop (H := Sample.memStorage)
            (snd (fst (Gateway.start (H := Sample.memStorage) None 1000 Gateway.constructor
                         MemStorage.constructor)))
            (snd (Gateway.start (H := Sample.memStorage) None 1000 Gateway.constructor
                    MemStorage.constructor))))
  = [].
Proof.
  refine (proj1 (stop_clears_the_last_timer (H := Sample.memStorage) Gateway.constructor
                   MemStorage.constructor 1000 2000 _)).
  intros [].
Defined.

Lemma failed_restart_keeps_uptime_witness :
  DiscordBot.getUptime Sample.uptime_now
    (Gateway.bot
       (snd (fst (Gateway.start (H := Sample.memStorage) (Some "An invalid token was provided.") 5000
                    (snd (fst (Gateway.start (H := Sample.memStorage) None 0 Gateway.constructor
                                 MemStorage.constructor)))
                    MemStorage.constructor))))
  = DiscordBot.getUptime Sample.uptime_now (DiscordBot.mk (Some 0) true true).
Proof.
  refine (proj1 (proj2 (proj2 (proj2
            (failed_restart_keeps_uptime (zone := Sample.utc)
               (snd (fst (Gateway.start (H := Sample.memStorage) None 0 Gateway.constructor
                            MemStorage.constructor)))
               MemStorage.constructor "An invalid token was provided."
               5000 Sample.uptime_now 0 _))))).
  reflexivity.
Defined.

Lemma message_create_stores_witness :
  MemStorage.getMessage "100"
    (snd (Gateway.onMessageCreate (H := Sample.memStorage) Sample.formatDate GatewaySample.delivered 0
            (GatewaySample.message "hello") Sample.bot MemStorage.constructor))
  = Some (DiscordMessage.mk "100" "S1" "7" "U1" "alice" (Some "") "hello" 0).
Proof.
  refine (proj1 (proj2 (proj2
            (message_create_stores (zone := Sample.utc) (order := Sample.scanOrder)
               Sample.formatDate GatewaySample.delivered 0
               (GatewaySample.message "hello") Sample.bot MemStorage.constructor
               DatabaseStorage.constructor _)))).
  reflexivity.
Defined.

(* ================================================================== *)
(** * The two storages side by side *)
(* ================================================================== *)

Section SideBySide.
Context {zone : TimeZone} {order : Sql.RowOrder}.

Lemma db_step_keeps_guilds (db : DatabaseStorage.t) (op : Workload.Op) :
  match op with
  | Workload.CreateServer _ | Workload.CreateChannel _ => True
  | _ =>
      DatabaseStorage.discordServers (Workload.step db op)
      = DatabaseStorage.discordServers db
      /\ DatabaseStorage.discordChannels (Workload.step db op)
         = DatabaseStorage.discordChannels db
  end.
Proof.
  destruct op as [server|channel|message|now|log|is_online uptime_started];
    try exact I; cbn [Workload.step]; try (split; reflexivity).
  cbn [createMessage DatabaseStorage_IStorage].
  unfold DatabaseStorage.createMessage.
  destruct (DatabaseStorage.getMessage _ db); split; reflexivity.
Qed.

Lemma step_agree_on_guilds (s : MemStorage.t) (db : DatabaseStorage.t)
  (op : Workload.Op) :
  (forall id,
     option_map (fun r => (DiscordServer.name r, DiscordServer.icon r))
       (MemStorage.getServer id s)
     = option_map (fun r => (DiscordServer.name r, DiscordServer.icon r))
         (DatabaseStorage.getServer id db)) ->
  (forall id,
     option_map (fun c => (DiscordChannel.name c, DiscordChannel.type c))
       (MemStorage.getChannel id s)
     = option_map (fun c => (DiscordChannel.name c, DiscordChannel.type c))
         (DatabaseStorage.getChannel id db)) ->
  (forall id,
     option_map (fun r => (DiscordServer.name r, DiscordServer.icon r))
       (MemStorage.getServer id (Workload.step s op))
     = option_map (fun r => (DiscordServer.name r, DiscordServer.icon r))
         (DatabaseStorage.getServer id (Workload.step db op)))
  /\ (forall id,
        option_map (fun c => (DiscordChannel.name c, DiscordChannel.type c))
          (MemStorage.getChannel id (Workload.step s op))
        = option_map (fun c => (DiscordChannel.name c, DiscordChannel.type c))
            (DatabaseStorage.getChannel id (Workload.step db op))).
Proof.
  intros Hservers Hchannels.
  pose proof (db_step_keeps_guilds db op) as Hkeeps.
  destruct op as [server|channel|message|now|log|is_online uptime_started].
  3-6: destruct Hkeeps as [Hs Hc];
    unfold DatabaseStorage.getServer, DatabaseStorage.getChannel;
    rewrite Hs, Hc; split; [exact Hservers | exact Hchannels].
  - cbn [Workload.step createServer MemStorage_IStorage DatabaseStorage_IStorage].
    split; intros id.
    + rewrite db_server_after_createServer.
      unfold MemStorage.getServer, MemStorage.createServer.
      cbn [snd MemStorage.discordServers]. rewrite JsMap_get_set_cases.
      destruct (String.eqb (DiscordServer.id server) id); [|apply Hservers].
      now destruct (DatabaseStorage.getServer id db).
    + rewrite db_channel_after_createServer. apply Hchannels.
  - cbn [Workload.step createChannel MemStorage_IStorage DatabaseStorage_IStorage].
    split; intros id.
    + rewrite db_server_after_createChannel. apply Hservers.
    + rewrite db_channel_after_createChannel.
      unfold MemStorage.getChannel, MemStorage.createChannel.
      cbn [snd MemStorage.discordChannels]. rewrite JsMap_get_set_cases.
      destruct (String.eqb (DiscordChannel.id channel) id); [|apply Hchannels].
      now destruct (DatabaseStorage.getChannel id db).
Qed.

(** After the same calls the two storages know the same servers and the
    same channels, with the same name and icon (name and type);
    joined_at and server_id are not compared. *)
Theorem storages_agree_on_guilds (ops : list Workload.Op) (id : string) :
  let s := Workload.run ops MemStorage.constructor in
  let db := Workload.run ops DatabaseStorage.constructor in
  option_map (fun r => (DiscordServer.name r, DiscordServer.icon r))
    (MemStorage.getServer id s)
  = option_map (fun r => (DiscordServer.name r, DiscordServer.icon r))
      (DatabaseStorage.getServer id db)
  /\ option_map (fun c => (DiscordChannel.name c, DiscordChannel.type c))
       (MemStorage.getChannel id s)
     = option_map (fun c => (DiscordChannel.name c, DiscordChannel.type c))
         (DatabaseStorage.getChannel id db).
Proof.
  cbv zeta.
  assert (Hboth :
    (forall id,
       option_map (fun r => (DiscordServer.name r, DiscordServer.icon r))
         (MemStorage.getServer id (Workload.run ops MemStorage.constructor))
       = option_map (fun r => (DiscordServer.name r, DiscordServer.icon r))
           (DatabaseStorage.getServer id
              (Workload.run ops DatabaseStorage.constructor)))
    /\ (forall id,
          option_map (fun c => (DiscordChannel.name c, DiscordChannel.type c))
            (MemStorage.getChannel id (Workload.run ops MemStorage.constructor))
          = option_map (fun c => (DiscordChannel.name c, DiscordChannel.type c))
              (DatabaseStorage.getChannel id
                 (Workload.run ops DatabaseStorage.constructor)))).
  { unfold Workload.run.
    assert (Hinit :
      (forall id,
         option_map (fun r => (DiscordServer.name r, DiscordServer.icon r))
           (MemStorage.getServer id MemStorage.constructor)
         = option_map (fun r => (DiscordServer.name r, DiscordServer.icon r))
             (DatabaseStorage.getServer id DatabaseStorage.constructor))
      /\ (forall id,
            option_map (fun c => (DiscordChannel.name c, DiscordChannel.type c))
              (MemStorage.getChannel id MemStorage.constructor)
            = option_map (fun c => (DiscordChannel.name c, DiscordChannel.type c))
                (DatabaseStorage.getChannel id DatabaseStorage.constructor))).
    { split; intros k; unfold DatabaseStorage.getServer, DatabaseStorage.getChannel;
        cbn; now rewrite lookup_empty. }
    revert Hinit.
    generalize MemStorage.constructor as s, DatabaseStorage.constructor as db.
    induction ops as [|op ops IH]; intros s db Hsdb; [exact Hsdb|].
    cbn [List.fold_left]. apply IH.
    destruct Hsdb as [Hservers Hchannels].
    now apply step_agree_on_guilds. }
  destruct Hboth as [Hservers Hchannels]. split; [apply Hservers | apply Hchannels].
Qed.

Lemma run_agree_on_messages (ops : list Workload.Op) (seen : list string)
  (s : MemStorage.t) (db : DatabaseStorage.t) :
  Reach.mem_keyed s ->
  (forall id, MemStorage.getMessage id s = DatabaseStorage.getMessage id db) ->
  (forall id, MemStorage.getMessage id s <> None -> In id seen) ->
  NoDup (seen ++ Created.message_ids ops) ->
  forall id,
    MemStorage.getMessage id (Workload.run ops s)
    = DatabaseStorage.getMessage id (Workload.run ops db).
Proof.
  unfold Workload.run. revert seen s db.
  induction ops as [|op ops IH]; intros seen s db Hkeyed Hagree Hseen Hnodup;
    [exact Hagree|].
  cbn [List.fold_left].
  pose proof (mem_step_keyed s op Hkeyed) as Hkeyed'.
  destruct op as [server|channel|message|now|log|is_online uptime_started].
  - apply (IH seen); try assumption.
    intros id. cbn [Workload.step createServer DatabaseStorage_IStorage].
    unfold DatabaseStorage.getMessage, DatabaseStorage.createServer.
    destruct (DatabaseStorage.getServer _ db); apply Hagree.
  - apply (IH seen); try assumption.
    intros id. cbn [Workload.step createChannel DatabaseStorage_IStorage].
    unfold DatabaseStorage.getMessage, DatabaseStorage.createChannel.
    destruct (DatabaseStorage.getChannel _ db); apply Hagree.
  - cbn [Created.message_ids List.flat_map] in Hnodup.
    change (List.flat_map _ ops) with (Created.message_ids ops) in Hnodup.
    assert (Hnew : MemStorage.getMessage (DiscordMessage.id message) s = None).
    { destruct (MemStorage.getMessage (DiscordMessage.id message) s) eqn:Hold;
        [|reflexivity].
      exfalso. apply NoDup_app in Hnodup as (_ & Hdisjoint & _).
      apply (Hdisjoint (DiscordMessage.id message)).
      - apply list_elem_of_In, Hseen. now rewrite Hold.
      - apply list_elem_of_In. now left. }
    assert (Hlookup : forall id,
               MemStorage.getMessage id (Workload.step s (Workload.CreateMessage message))
               = if String.eqb (DiscordMessage.id message) id then Some message
                 else MemStorage.getMessage id s).
    { intros id. apply JsMap_get_set_cases. }
    apply (IH (seen ++ [DiscordMessage.id message])); try assumption.
    + intros id. rewrite Hlookup.
      cbn [Workload.step createMessage DatabaseStorage_IStorage].
      unfold DatabaseStorage.createMessage.
      rewrite <- Hagree, Hnew. unfold DatabaseStorage.getMessage. db_fields.
      rewrite gmap_lookup_insert_cases.
      destruct (String.eqb (DiscordMessage.id message) id); [reflexivity|].
      apply Hagree.
    + intros id. rewrite Hlookup.
      destruct (String.eqb_spec (DiscordMessage.id message) id) as [<-|];
        intros Hstored; apply in_or_app; [right; now left | left; now apply Hseen].
    + now rewrite <- List.app_assoc.
  - apply (IH seen); try assumption.
    + intros id. cbn [Workload.step deleteOldMessages MemStorage_IStorage
                      DatabaseStorage_IStorage].
      rewrite mem_getMessage_after_sweep by apply Hkeyed.
      rewrite db_getMessage_after_sweep. now rewrite Hagree.
    + intros id. cbn [Workload.step deleteOldMessages MemStorage_IStorage].
      rewrite mem_getMessage_after_sweep by apply Hkeyed.
      intros Hstored. apply Hseen. intros Hnone. rewrite Hnone in Hstored.
      now apply Hstored.
  - now apply (IH seen).
  - now apply (IH seen).
Qed.

(** After the same calls the two storages answer every message id
    alike, when no message id is created twice. *)
Theorem storages_agree_on_messages (ops : list Workload.Op) (id : string) :
  NoDup (Created.message_ids ops) ->
  MemStorage.getMessage id (Workload.run ops MemStorage.constructor)
  = DatabaseStorage.getMessage id (Workload.run ops DatabaseStorage.constructor).
Proof.
  intros Hnodup. apply (run_agree_on_messages ops []).
  - repeat split; constructor.
  - intros k. unfold DatabaseStorage.getMessage. cbn. now rewrite lookup_empty.
  - intros k Hstored. now contradiction Hstored.
  - exact Hnodup.
Qed.

End SideBySide.

Lemma storages_agree_on_messages_witness :
  MemStorage.getMessage "3"
    (Workload.run (H := Sample.memStorage)
       (List.map Workload.CreateMessage Sample.retention_messages
        ++ [Workload.DeleteOldMessages Sample.sweep_time])
       MemStorage.constructor)
  = DatabaseStorage.getMessage "3"
      (Workload.run (H := Sample.dbStorage)
         (List.map Workload.CreateMessage Sample.retention_messages
          ++ [Workload.DeleteOldMessages Sample.sweep_time])
         DatabaseStorage.constructor).
Proof.
  apply (storages_agree_on_messages (zone := Sample.utc) (order := Sample.scanOrder)
           (List.map Workload.CreateMessage Sample.retention_messages
            ++ [Workload.DeleteOldMessages Sample.sweep_time]) "3").
  apply (bool_decide_unpack _). vm_compute. exact I.
Defined.
